(** * Domain monitor: RDAP resolution, the monitored-domain list, listing order

    A shallow embedding of
    - [configuration/rdap.go]: [QueryRDAP], [getRDAPServerFromBootstrap],
      [getFallbackRDAPServer], [convertRDAPToWhoisInfo];
    - [configuration/domain.configuration.go]: [AddDomain], [RemoveDomain],
      [UpdateDomain], [Flush];
    - [handlers/domains.handler.go]: [sortDomainsWithWhois], [GetCards];
    - the mailer service: [NewMailerService];
    - [handlers/mailer.handler.go]: [HandleTestMail].

    Go strings are byte strings ([string]), slices are lists, nil-able
    pointers are options, [interface{}] values decoded from JSON are the
    tagged values of [Json.value].  Behaviour of the Go standard library and
    of the network is collected in the class [Runtime]; the program is
    parametric in it.  Calls to [log.Printf] are not modelled. *)

From Stdlib Require Import ZArith Lia Permutation Sorted Ascii.
From Stdlib Require String DecimalString.
From stdpp Require Import base option list strings gmap.

(** ** Results of fallible functions *)

(** A Go [error] is represented by its message. *)
Definition error := string.

Inductive result (A : Type) : Type :=
| Ok (a : A)
| Err (e : error).
Arguments Ok {A} a.
Arguments Err {A} e.

Definition is_Ok {A} (r : result A) : bool :=
  match r with Ok _ => true | Err _ => false end.

(** ** The pieces of package [strings] and [fmt] the program calls *)

Module GoStrings.

(** [strings.Split(s, sep)] for a one-byte separator: the pieces between
    the occurrences of [sep]; one more piece than there are occurrences. *)
Fixpoint Split (s : string) (sep : ascii) : list string :=
  match s with
  | EmptyString => [EmptyString]
  | String c rest =>
      if Ascii.eqb c sep then EmptyString :: Split rest sep
      else match Split rest sep with
           | [] => [String c EmptyString]
           | p :: ps => String c p :: ps
           end
  end.

(** [strings.HasSuffix] and [strings.TrimSuffix]. *)
Definition HasSuffix (s suffix : string) : bool :=
  let n := String.length s in
  let m := String.length suffix in
  (m <=? n)%nat && String.eqb (String.substring (n - m) m s) suffix.

Definition TrimSuffix (s suffix : string) : string :=
  if HasSuffix s suffix
  then String.substring 0 (String.length s - String.length suffix) s
  else s.

(** The verb [%d] of [fmt] on an integer. *)
Definition itoa (n : Z) : string :=
  DecimalString.NilZero.string_of_int (Z.to_int n).

(** Byte-wise lower-casing of the letters A to Z; [strings.ToLower] agrees
    with it on ASCII text. *)
Definition lowerByte (c : ascii) : ascii :=
  let n := Ascii.N_of_ascii c in
  if ((65 <=? n) && (n <=? 90))%N then Ascii.ascii_of_N (n + 32) else c.

Fixpoint lowerASCII (s : string) : string :=
  match s with
  | EmptyString => EmptyString
  | String c rest => String (lowerByte c) (lowerASCII rest)
  end.

(** Does the byte [c] occur in [s]? *)
Fixpoint containsByte (c : ascii) (s : string) : bool :=
  match s with
  | EmptyString => false
  | String a rest => Ascii.eqb a c || containsByte c rest
  end.

End GoStrings.

(** ** Values decoded into [interface{}] by [encoding/json] *)

Module Json.

#[local] Set Warnings "-register-all".

Inductive value : Type :=
| Null
| Bool (b : bool)
| Number (float64bits : Z)
| Str (s : string)
| Array (elems : list value)
| Object (members : list (string * value)).

End Json.

(** ** [time.Time] *)

Module GoTime.

(** An instant, with the zone offset the value was parsed with. *)
Record Time : Type := mkTime {
  unixNano : Z;
  zoneOffset : Z
}.

Definition Before (t u : Time) : bool := (unixNano t <? unixNano u)%Z.
Definition After (t u : Time) : bool := (unixNano u <? unixNano t)%Z.

(** The layout constant [time.RFC3339]. *)
Definition RFC3339 : string := "2006-01-02T15:04:05Z07:00".

End GoTime.

(** ** The structures of [rdap.go] *)

Record rdapLink : Type := {
  link_Value : string;
  link_Rel : string;
  link_Href : string;
  link_Type : string
}.

Record rdapNameserver : Type := {
  ns_ObjectClassName : string;
  ns_LDHName : string;
  ns_Links : list rdapLink
}.

Record rdapEntity : Type := {
  entity_ObjectClassName : string;
  entity_Handle : string;
  entity_VCardArray : list Json.value;
  entity_Roles : list string
}.

Record rdapEvent : Type := {
  EventAction : string;
  EventDate : string
}.

Record rdapPublicID : Type := {
  pid_Type : string;
  pid_Identifier : string
}.

Record rdapDomain : Type := {
  rdap_ObjectClassName : string;
  rdap_Handle : string;
  rdap_LDHName : string;
  rdap_Nameservers : list rdapNameserver;
  rdap_Status : list string;
  rdap_Entities : list rdapEntity;
  rdap_Events : list rdapEvent;
  rdap_PublicIDs : list rdapPublicID;
  rdap_Links : list rdapLink
}.

Record rdapError : Type := {
  ErrorCode : Z;
  Title : string;
  Description : list string
}.

(** ** The structures of [whoisparser] the program fills in

    Only the fields the program writes are kept; the others stay at their
    zero value throughout. *)

Module whoisparser.

Record Contact : Type := mkContact {
  Contact_ID : string;
  Contact_Name : string;
  Contact_Organization : string
}.

Record Domain : Type := mkDomain {
  ID : string;
  DomainName : string;
  Status : list string;
  NameServers : list string;
  CreatedDate : string;
  CreatedDateInTime : option GoTime.Time;
  UpdatedDate : string;
  UpdatedDateInTime : option GoTime.Time;
  ExpirationDate : string;
  ExpirationDateInTime : option GoTime.Time
}.

Record WhoisInfo : Type := mkWhoisInfo {
  Domain_ : option Domain;
  Registrar : option Contact
}.

End whoisparser.

(** ** What the program takes from its environment

    The Go standard library functions whose code is outside the repository,
    and the network.  [time_Parse layout value] is [None] when [time.Parse]
    returns an error.  The three decoders stand for [json.Unmarshal] into a
    [rdapError], into a [rdapDomain] and into the bootstrap document's
    [Services] field.  [http_respond log url] is the outcome of
    [client.Get(url)] after the requests in [log] have been made. *)

Inductive http_result : Type :=
| GetFailed (err : error)
| Response (StatusCode : Z) (bodyBytes : string) (readErr : option error).

Class Runtime : Type := {
  strings_ToLower : string -> string;
  time_Parse : string -> string -> option GoTime.Time;
  time_Format : GoTime.Time -> string -> string;
  json_Unmarshal_rdapError : string -> result rdapError;
  json_Unmarshal_rdapDomain : string -> result rdapDomain;
  json_Unmarshal_bootstrap : string -> result (list (list Json.value));
  http_respond : list string -> string -> http_result
}.

(** ** Outbound requests: a state monad over the log of requested URLs *)

Definition Net (A : Type) : Type := list string -> A * list string.

#[export] Instance net_ret : MRet Net := fun A (a : A) log => (a, log).

#[export] Instance net_bind : MBind Net :=
  fun A B (k : A -> Net B) (c : Net A) log => let (a, log') := c log in k a log'.

Definition http_Get `{Runtime} (url : string) : Net http_result :=
  fun log => (http_respond log url, log ++ [url]).


(** ** [rdap.go] *)

Section Resolver.
Context `{Runtime}.

Definition bootstrapURL : string := "https://data.iana.org/rdap/dns.json".

(** The body of the inner loop of [getRDAPServerFromBootstrap]: the labels
    [tlds] of one service entry are scanned for [tld]; [servers] is the
    entry's second element. *)
Fixpoint scanTLDs (tlds : list Json.value) (servers : Json.value) (tld : string)
  : option string :=
  match tlds with
  | [] => None
  | t :: rest =>
      match t with
      | Json.Str tStr =>
          if String.eqb tStr tld then
            match servers with
            | Json.Array (Json.Str serverURL :: _) =>
                Some (GoStrings.TrimSuffix serverURL "/")
            | _ => scanTLDs rest servers tld
            end
          else scanTLDs rest servers tld
      | _ => scanTLDs rest servers tld
      end
  end.

(** The outer loop: the first service entry that yields a server. *)
Fixpoint scanServices (services : list (list Json.value)) (tld : string)
  : option string :=
  match services with
  | [] => None
  | service :: rest =>
      match service with
      | Json.Array tlds :: servers :: _ =>
          match scanTLDs tlds servers tld with
          | Some url => Some url
          | None => scanServices rest tld
          end
      | _ => scanServices rest tld
      end
  end.

Definition getRDAPServerFromBootstrap (tld : string) : Net (result string) :=
  resp ← http_Get bootstrapURL;
  mret
    match resp with
    | GetFailed err => Err err
    | Response StatusCode bodyBytes readErr =>
        if negb (StatusCode =? 200)%Z then
          Err ("bootstrap returned status " +:+ GoStrings.itoa StatusCode)
        else
          match readErr with
          | Some err => Err err
          | None =>
              match json_Unmarshal_bootstrap bodyBytes with
              | Err err => Err err
              | Ok services =>
                  match scanServices services tld with
                  | Some url => Ok url
                  | None => Err ("no RDAP server found for TLD " +:+ tld)
                  end
              end
          end
    end.

Definition fallbackServers : gmap string string :=
  <["dev" := "https://rdap.org"]>
  (<["com" := "https://rdap.org"]>
  (<["net" := "https://rdap.org"]>
  (<["org" := "https://rdap.org"]>
  (<["io" := "https://rdap.org"]> ∅)))).

Definition getFallbackRDAPServer (tld : string) : string :=
  match fallbackServers !! strings_ToLower tld with
  | Some server => server
  | None => "https://rdap.org"
  end.

(** *** [convertRDAPToWhoisInfo] *)

(** The nameserver loop, one iteration. *)
Definition appendNameserver (acc : list string) (ns : rdapNameserver) : list string :=
  if String.eqb (ns_LDHName ns) EmptyString then acc else acc ++ [ns_LDHName ns].

(** The loop over [entity.Roles]: is the role [registrar] among them? *)
Fixpoint rolesLoop (roles : list string) : bool :=
  match roles with
  | [] => false
  | role :: rest => if String.eqb role "registrar" then true else rolesLoop rest
  end.

(** [itemArray[3].(string)] with the test that the string is not empty. *)
Definition nonEmptyStringAt3 (itemArray : list Json.value) : option string :=
  match itemArray !! 3%nat with
  | Some (Json.Str s) => if String.eqb s EmptyString then None else Some s
  | _ => None
  end.

(** The loop over the vCard items; [registrar] is the contact being
    filled.  The [fn] branch ends the loop, the [org] branch does not. *)
Fixpoint vcardLoop (vcardItems : list Json.value) (registrar : whoisparser.Contact)
  : whoisparser.Contact :=
  match vcardItems with
  | [] => registrar
  | item :: rest =>
      match item with
      | Json.Array itemArray =>
          if (4 <=? length itemArray)%nat then
            match itemArray !! 0%nat with
            | Some (Json.Str itemType) =>
                match (if String.eqb itemType "fn"
                       then nonEmptyStringAt3 itemArray else None) with
                | Some name =>
                    whoisparser.mkContact
                      (whoisparser.Contact_ID registrar) name
                      (whoisparser.Contact_Organization registrar)
                | None =>
                    if String.eqb itemType "org"
                       && String.eqb (whoisparser.Contact_Name registrar) EmptyString
                    then
                      match nonEmptyStringAt3 itemArray with
                      | Some org =>
                          vcardLoop rest
                            (whoisparser.mkContact
                               (whoisparser.Contact_ID registrar) org org)
                      | None => vcardLoop rest registrar
                      end
                    else vcardLoop rest registrar
                end
            | _ => vcardLoop rest registrar
            end
          else vcardLoop rest registrar
      | _ => vcardLoop rest registrar
      end
  end.

(** What the body of the entity loop does for a registrar entity. *)
Definition registrarOf (entity : rdapEntity) : whoisparser.Contact :=
  let registrar :=
    whoisparser.mkContact (entity_Handle entity) EmptyString EmptyString in
  let registrar :=
    match entity_VCardArray entity with
    | _ :: Json.Array vcardItems :: _ => vcardLoop vcardItems registrar
    | _ => registrar
    end in
  if String.eqb (whoisparser.Contact_Name registrar) EmptyString
     && negb (String.eqb (entity_Handle entity) EmptyString)
  then whoisparser.mkContact
         (whoisparser.Contact_ID registrar) (entity_Handle entity)
         (whoisparser.Contact_Organization registrar)
  else registrar.

(** The loop over [rdap.Entities]; it ends at the first registrar. *)
Fixpoint entitiesLoop (entities : list rdapEntity) : option whoisparser.Contact :=
  match entities with
  | [] => None
  | entity :: rest =>
      if rolesLoop (entity_Roles entity) then Some (registrarOf entity)
      else entitiesLoop rest
  end.

(** The two parse attempts made on an event date. *)
Definition parseEventDate (eventDate : string) : option GoTime.Time :=
  match time_Parse GoTime.RFC3339 eventDate with
  | Some eventTime => Some eventTime
  | None => time_Parse "2006-01-02T15:04:05Z" eventDate
  end.

(** The event loop, one iteration. *)
Definition applyEvent (domain : whoisparser.Domain) (event : rdapEvent)
  : whoisparser.Domain :=
  if String.eqb (EventDate event) EmptyString then domain
  else
    match parseEventDate (EventDate event) with
    | None => domain
    | Some eventTime =>
        let a := EventAction event in
        let d := domain in
        if String.eqb a "registration" then
          whoisparser.mkDomain
            (whoisparser.ID d) (whoisparser.DomainName d) (whoisparser.Status d)
            (whoisparser.NameServers d)
            (time_Format eventTime GoTime.RFC3339) (Some eventTime)
            (whoisparser.UpdatedDate d) (whoisparser.UpdatedDateInTime d)
            (whoisparser.ExpirationDate d) (whoisparser.ExpirationDateInTime d)
        else if String.eqb a "expiration" then
          whoisparser.mkDomain
            (whoisparser.ID d) (whoisparser.DomainName d) (whoisparser.Status d)
            (whoisparser.NameServers d)
            (whoisparser.CreatedDate d) (whoisparser.CreatedDateInTime d)
            (whoisparser.UpdatedDate d) (whoisparser.UpdatedDateInTime d)
            (time_Format eventTime GoTime.RFC3339) (Some eventTime)
        else if String.eqb a "last changed" || String.eqb a "last update" then
          whoisparser.mkDomain
            (whoisparser.ID d) (whoisparser.DomainName d) (whoisparser.Status d)
            (whoisparser.NameServers d)
            (whoisparser.CreatedDate d) (whoisparser.CreatedDateInTime d)
            (time_Format eventTime GoTime.RFC3339) (Some eventTime)
            (whoisparser.ExpirationDate d) (whoisparser.ExpirationDateInTime d)
        else domain
    end.

Definition convertRDAPToWhoisInfo (rdap : rdapDomain) (fqdn : string)
  : whoisparser.WhoisInfo :=
  let domain :=
    whoisparser.mkDomain (rdap_Handle rdap) fqdn (rdap_Status rdap) []
      EmptyString None EmptyString None EmptyString None in
  let domain :=
    whoisparser.mkDomain
      (whoisparser.ID domain) (whoisparser.DomainName domain)
      (whoisparser.Status domain)
      (fold_left appendNameserver (rdap_Nameservers rdap)
         (whoisparser.NameServers domain))
      (whoisparser.CreatedDate domain) (whoisparser.CreatedDateInTime domain)
      (whoisparser.UpdatedDate domain) (whoisparser.UpdatedDateInTime domain)
      (whoisparser.ExpirationDate domain)
      (whoisparser.ExpirationDateInTime domain) in
  let registrar := entitiesLoop (rdap_Entities rdap) in
  let domain := fold_left applyEvent (rdap_Events rdap) domain in
  whoisparser.mkWhoisInfo (Some domain) registrar.

(** *** [QueryRDAP] *)

(** Lines 90 to 116: what [QueryRDAP] returns for the outcome [resp] of its
    record request. *)
Definition handleResponse (fqdn : string) (resp : http_result)
  : result whoisparser.WhoisInfo :=
  match resp with
  | GetFailed err => Err ("RDAP query failed: " +:+ err)
  | Response StatusCode bodyBytes readErr =>
      if negb (StatusCode =? 200)%Z then
        match json_Unmarshal_rdapError bodyBytes with
        | Ok rdapErr =>
            if negb (String.eqb (Title rdapErr) EmptyString)
            then Err ("RDAP error: " +:+ Title rdapErr)
            else Err ("RDAP query returned status " +:+ GoStrings.itoa StatusCode)
        | Err _ =>
            Err ("RDAP query returned status " +:+ GoStrings.itoa StatusCode)
        end
      else
        match readErr with
        | Some err => Err ("failed to read RDAP response: " +:+ err)
        | None =>
            match json_Unmarshal_rdapDomain bodyBytes with
            | Err err => Err ("failed to parse RDAP response: " +:+ err)
            | Ok rdapDomainResp => Ok (convertRDAPToWhoisInfo rdapDomainResp fqdn)
            end
        end
  end.

Definition QueryRDAP (fqdn : string) : Net (result whoisparser.WhoisInfo) :=
  let parts := GoStrings.Split fqdn "." in
  if (length parts <? 2)%nat then mret (Err ("invalid domain: " +:+ fqdn))
  else
    let tld := List.last parts EmptyString in
    r ← getRDAPServerFromBootstrap tld;
    let rdapServerURL :=
      match r with
      | Ok url => url
      | Err _ => getFallbackRDAPServer tld
      end in
    let domainURL := rdapServerURL +:+ "/domain/" +:+ fqdn in
    resp ← http_Get domainURL;
    mret (handleResponse fqdn resp).

End Resolver.

(** ** [domain.configuration.go] *)

Module configuration.

Record Domain : Type := mkDomain {
  Name : string;
  FQDN : string;
  Alerts : bool;
  Enabled : bool
}.

Record DomainFile : Type := mkDomainFile {
  Domains : list Domain
}.

Record DomainConfiguration : Type := mkDomainConfiguration {
  DomainFile_ : DomainFile;
  Filepath : string
}.

(** What [Flush] was called on: path to the domain table last handed to
    [Flush] for that path.  The bytes written (the YAML text, passed through
    [quoteYAMLStrings]) are not modelled, nor are the failures on which
    [Flush] ends the process: nothing here says what a file reads back as,
    and the statements about the operations use the list in memory only. *)
Definition Disk : Type := gmap string DomainFile.

Definition Flush (dc : DomainConfiguration) (disk : Disk) : Disk :=
  <[Filepath dc := DomainFile_ dc]> disk.

(** The loop shared by [AddDomain] and [RemoveDomain]: the index of the
    first entry of [domains] whose FQDN is [fqdn]. *)
Fixpoint indexOfFQDN (fqdn : string) (domains : list Domain) : option nat :=
  match domains with
  | [] => None
  | d :: rest =>
      if String.eqb (FQDN d) fqdn then Some 0%nat
      else S <$> indexOfFQDN fqdn rest
  end.

Definition withDomains (dc : DomainConfiguration) (domains : list Domain)
  : DomainConfiguration :=
  mkDomainConfiguration (mkDomainFile domains) (Filepath dc).

Definition AddDomain (domain : Domain) (dc : DomainConfiguration) (disk : Disk)
  : DomainConfiguration * Disk :=
  let domains := Domains (DomainFile_ dc) in
  match indexOfFQDN (FQDN domain) domains with
  | Some i =>
      let dc := withDomains dc (<[i := domain]> domains) in
      (dc, Flush dc disk)
  | None =>
      let dc := withDomains dc (domains ++ [domain]) in
      (dc, Flush dc disk)
  end.

Definition RemoveDomain (domain : Domain) (dc : DomainConfiguration) (disk : Disk)
  : DomainConfiguration * Disk :=
  let domains := Domains (DomainFile_ dc) in
  let dc :=
    match indexOfFQDN (FQDN domain) domains with
    | Some i => withDomains dc (take i domains ++ drop (S i) domains)
    | None => dc
    end in
  (dc, Flush dc disk).

Definition UpdateDomain (domain : Domain) (dc : DomainConfiguration) (disk : Disk)
  : DomainConfiguration * Disk :=
  AddDomain domain dc disk.

(** [DefaultDomainConfiguration]: no domain, the given path. *)
Definition DefaultDomainConfiguration (filepath : string) : DomainConfiguration :=
  mkDomainConfiguration (mkDomainFile []) filepath.

(** Modelled from the spec: the type [WhoisCache] is declared outside the
    files at hand; the handler reads its field [WhoisInfo], and the spec's
    cache entry holds the FQDN, the record and the time it was fetched. *)
Record WhoisCache : Type := mkWhoisCache {
  cache_FQDN : string;
  WhoisInfo : whoisparser.WhoisInfo;
  LastUpdated : GoTime.Time
}.

End configuration.

(** ** [domains.handler.go] *)

(** [sort.Slice] sorts in place with a comparison on elements; which of the
    orders allowed by the comparison it produces is left to the library. *)
Class Sorter : Type := {
  sort_Slice : forall A : Type, (A -> A -> bool) -> list A -> list A
}.

(** A comparison [less] is a strict weak order: what [sort.Slice] asks of it. *)
Record StrictWeak {A : Type} (less : A -> A -> bool) : Prop := {
  sw_irrefl : forall x, less x x = false;
  sw_trans : forall x y z, less x y = true -> less y z = true -> less x z = true;
  sw_incomp : forall x y z,
    less x y = false -> less y x = false ->
    less y z = false -> less z y = false ->
    less x z = false /\ less z x = false
}.

(** What [sort.Slice] promises for such a comparison: the same elements, and
    no element is less than the one just before it (the test made by
    [sort.SliceIsSorted]). *)
Definition SorterCorrect (sorter : Sorter) : Prop :=
  forall (A : Type) (less : A -> A -> bool) (l : list A),
    StrictWeak less ->
    Permutation l (sort_Slice A less l) /\
    forall (i : nat) (x y : A),
      sort_Slice A less l !! i = Some x ->
      sort_Slice A less l !! S i = Some y ->
      less y x = false.

(** No element of the list is less than one placed before it. *)
Definition ordered {A : Type} (less : A -> A -> bool) : list A -> Prop :=
  StronglySorted (fun x y => less y x = false).

Module handlers.

(** The part of [service.ServicesWhois] the handler calls. *)
Record ServicesWhois : Type := {
  GetWhois : string -> result configuration.WhoisCache
}.

Record domainWithWhois : Type := mkDomainWithWhois {
  domain : configuration.Domain;
  whois : option configuration.WhoisCache
}.

(** [w == nil || w.WhoisInfo.Domain == nil ||
     w.WhoisInfo.Domain.ExpirationDateInTime == nil], as a lookup. *)
Definition expirationOf (w : option configuration.WhoisCache) : option GoTime.Time :=
  match w with
  | None => None
  | Some c =>
      match whoisparser.Domain_ (configuration.WhoisInfo c) with
      | None => None
      | Some d => whoisparser.ExpirationDateInTime d
      end
  end.

Definition creationOf (w : option configuration.WhoisCache) : option GoTime.Time :=
  match w with
  | None => None
  | Some c =>
      match whoisparser.Domain_ (configuration.WhoisInfo c) with
      | None => None
      | Some d => whoisparser.CreatedDateInTime d
      end
  end.

(** The comparison handed to [sort.Slice]. *)
Definition less (sortBy : string) (a b : domainWithWhois) : bool :=
  if String.eqb sortBy "expiration_date" then
    match expirationOf (whois a) with
    | None => false
    | Some ti =>
        match expirationOf (whois b) with
        | None => true
        | Some tj => GoTime.Before ti tj
        end
    end
  else if String.eqb sortBy "creation_date" then
    match creationOf (whois a) with
    | None => false
    | Some ti =>
        match creationOf (whois b) with
        | None => true
        | Some tj => GoTime.After ti tj
        end
    end
  else if String.eqb sortBy "name" then
    String.ltb (configuration.Name (domain a)) (configuration.Name (domain b))
  else false.

(** The first loop, one iteration: the domain with its cached record. *)
Definition attachWhois (ws : ServicesWhois) (d : configuration.Domain)
  : domainWithWhois :=
  match GetWhois ws (configuration.FQDN d) with
  | Err _ => mkDomainWithWhois d None
  | Ok w => mkDomainWithWhois d (Some w)
  end.

(** [sortDomainsWithWhois], for a handler whose [WhoisService] is [ws]
    ([GetCards] calls it only when that field is not nil). *)
Definition sortDomainsWithWhois `{Sorter} (ws : ServicesWhois)
    (domainList : list configuration.Domain) (sortBy : string)
  : list configuration.Domain :=
  let domainsWithData :=
    fold_left (fun acc d => acc ++ [attachWhois ws d]) domainList [] in
  let domainsWithData := sort_Slice _ (less sortBy) domainsWithData in
  map domain domainsWithData.

(** The cached expiration time the comparison sees for a domain: absent
    when there is no cache entry, no domain part, or no expiration time. *)
Definition cachedExpiration (ws : ServicesWhois) (d : configuration.Domain)
  : option GoTime.Time :=
  match GetWhois ws (configuration.FQDN d) with
  | Err _ => None
  | Ok w =>
      match whoisparser.Domain_ (configuration.WhoisInfo w) with
      | None => None
      | Some record => whoisparser.ExpirationDateInTime record
      end
  end.

(** The part of [ApiDomainService] that [GetCards] calls. *)
Record ApiDomainService : Type := {
  GetDomains : result (list configuration.Domain)
}.

(** [DomainHandler]; a nil [WhoisService] is [None]. *)
Record DomainHandler : Type := {
  DomainService : ApiDomainService;
  WhoisService : option ServicesWhois
}.

(** The comparison of the second [sort.Slice] call of [GetCards]. *)
Definition lessName (a b : configuration.Domain) : bool :=
  String.ltb (configuration.Name a) (configuration.Name b).

(** [GetCards], up to the rendering: the list and the sort key it hands to
    the view [domains.DomainCards], or the error of [GetDomains].
    [sortQuery] is the query parameter [sort], empty when absent. *)
Definition GetCards `{Sorter} (h : DomainHandler) (sortQuery : string)
  : result (list configuration.Domain * string) :=
  match GetDomains (DomainService h) with
  | Err err => Err err
  | Ok domainList =>
      let sortBy :=
        if String.eqb sortQuery EmptyString then "expiration_date" else sortQuery in
      let domainList :=
        match WhoisService h with
        | Some ws =>
            if negb (String.eqb sortBy "name")
            then sortDomainsWithWhois ws domainList sortBy
            else if String.eqb sortBy "name"
                 then sort_Slice _ lessName domainList
                 else domainList
        | None =>
            if String.eqb sortBy "name"
            then sort_Slice _ lessName domainList
            else domainList
        end in
      Ok (domainList, sortBy)
  end.

(** The cached creation time the comparison sees for a domain. *)
Definition cachedCreation (ws : ServicesWhois) (d : configuration.Domain)
  : option GoTime.Time :=
  match GetWhois ws (configuration.FQDN d) with
  | Err _ => None
  | Ok w =>
      match whoisparser.Domain_ (configuration.WhoisInfo w) with
      | None => None
      | Some record => whoisparser.CreatedDateInTime record
      end
  end.

End handlers.

(** ** The mailer service *)

(** The options of package [mail] the program builds. *)
Module mail.

Definition SMTPAuthType : Type := string.

(** The constant [mail.SMTPAuthLogin]. *)
Definition SMTPAuthLogin : SMTPAuthType := "LOGIN".

Inductive TLSPolicy : Type := TLSMandatory | TLSOpportunistic | NoTLS.

Inductive Option : Type :=
| WithPort (port : Z)
| WithSSL
| WithTLSPortPolicy (policy : TLSPolicy)
| WithSMTPAuth (auth : SMTPAuthType)
| WithUsername (username : string)
| WithPassword (password : string)
| WithTimeout (nanoseconds : Z).

End mail.

(** [mail.NewClient], whose code is outside the repository: it builds a
    client from a host and options, or fails. *)
Class MailLibrary : Type := {
  mail_Client : Type;
  mail_NewClient : string -> list mail.Option -> result mail_Client
}.

Module smtp.

(** [configuration.SMTPConfiguration]. *)
Record SMTPConfiguration : Type := mkSMTPConfiguration {
  Host : string;
  Port : Z;
  Secure : bool;
  EncryptionType : string;
  AuthUser : string;
  AuthPass : string;
  Enabled : bool;
  FromName : string;
  FromAddress : string
}.

End smtp.

Module service.

Record MailerService `{MailLibrary} : Type := mkMailerService {
  client : mail_Client;
  from : string;
  host : string;
  port : Z
}.

(** The authentication style chosen from the credentials. *)
Definition authStyleOf (config : smtp.SMTPConfiguration) : mail.SMTPAuthType :=
  if String.eqb (smtp.AuthUser config) EmptyString
     || String.eqb (smtp.AuthPass config) EmptyString
  then EmptyString else mail.SMTPAuthLogin.

(** The encryption type after the legacy default by port and the
    normalization of the old names, before the [switch]. *)
Definition encryptionTypeOf (config : smtp.SMTPConfiguration) : string :=
  let encryptionType := smtp.EncryptionType config in
  let encryptionType :=
    if String.eqb encryptionType EmptyString then
      if (smtp.Port config =? 25)%Z then "none"
      else if (smtp.Port config =? 465)%Z then "ssl"
      else "starttls"
    else encryptionType in
  if String.eqb encryptionType "tls"
     || String.eqb encryptionType "starttls-mandatory"
     || String.eqb encryptionType "starttls-opportunistic"
  then "starttls" else encryptionType.

(** The options built by the [switch] on the encryption type. *)
Definition optionsOf (config : smtp.SMTPConfiguration) : list mail.Option :=
  let encryptionType := encryptionTypeOf config in
  let authStyle := authStyleOf config in
  let common :=
    [mail.WithSMTPAuth authStyle;
     mail.WithUsername (smtp.AuthUser config);
     mail.WithPassword (smtp.AuthPass config);
     mail.WithTimeout (30 * 1000000000)] in
  if String.eqb encryptionType "ssl" then
    mail.WithPort (smtp.Port config) :: mail.WithSSL :: common
  else if String.eqb encryptionType "starttls" then
    mail.WithTLSPortPolicy mail.TLSMandatory :: mail.WithPort (smtp.Port config)
    :: common
  else if String.eqb encryptionType "none" then
    mail.WithPort (smtp.Port config) :: common
  else
    mail.WithTLSPortPolicy mail.TLSMandatory :: mail.WithPort (smtp.Port config)
    :: common.

(** [NewMailerService]; a nil result is [None]. *)
Definition NewMailerService `{MailLibrary} (config : smtp.SMTPConfiguration)
  : option MailerService :=
  if negb (smtp.Enabled config) then None
  else if String.eqb (smtp.Host config) EmptyString then None
  else if (smtp.Port config =? 0)%Z then None
  else if String.eqb (smtp.FromAddress config) EmptyString then None
  else
    match mail_NewClient (smtp.Host config) (optionsOf config) with
    | Err _ => None
    | Ok client =>
        let from := smtp.FromName config in
        let from :=
          if String.eqb from EmptyString then smtp.FromAddress config else from in
        let from := from +:+ " <" +:+ smtp.FromAddress config +:+ ">" in
        Some (mkMailerService _ client from (smtp.Host config) (smtp.Port config))
    end.

End service.

(** ** [mailer.handler.go] *)

Module mailerhandler.

Record MailerHandler `{MailLibrary} : Type := mkMailerHandler {
  MailerService : option service.MailerService;
  Recipient : string
}.

(** How the [select] of [HandleTestMail] ends: [TestMail] answers first,
    with an error or without, or the timer of 35 seconds fires first. *)
Inductive Outcome : Type :=
| Answered (err : option error)
| TimedOut.

(** The double quote. *)
Definition dq : string := String "034" EmptyString.

Definition errorSpan (text : string) : string :=
  "<span class=" +:+ dq +:+ "text-error" +:+ dq +:+ ">❌ " +:+ text +:+ "</span>".

Definition successSpan (text : string) : string :=
  "<span class=" +:+ dq +:+ "text-success" +:+ dq +:+ ">✅ " +:+ text +:+ "</span>".

(** The error text as it is shown: cut after 200 bytes. *)
Definition shownError (errorMsg : string) : string :=
  if (200 <? String.length errorMsg)%nat
  then String.substring 0 200 errorMsg +:+ "..."
  else errorMsg.

(** What [HandleTestMail] does. *)
Record Reply : Type := mkReply {
  code : Z;
  html : string;
  testMails : list string
}.

(** [HandleTestMail]: the status and the fragment handed to [c.HTML], and
    the recipients [TestMail] was started for.  [outcome] is how the
    [select] ends when it is reached. *)
Definition HandleTestMail `{MailLibrary} (mh : MailerHandler) (outcome : Outcome)
  : Reply :=
  match MailerService mh with
  | None =>
      mkReply 200
        (errorSpan "SMTP mailer service is not initialized. Please check server logs for details and ensure SMTP is properly configured.")
        []
  | Some _ =>
      if String.eqb (Recipient mh) EmptyString then
        mkReply 200
          (errorSpan "Admin email is not set. Please configure admin email in Alerts settings.")
          []
      else
        match outcome with
        | Answered (Some err) =>
            mkReply 200 (errorSpan (shownError err)) [Recipient mh]
        | Answered None =>
            mkReply 200
              (successSpan ("Test email sent successfully to " +:+ Recipient mh +:+ "!"))
              [Recipient mh]
        | TimedOut =>
            mkReply 200
              (errorSpan "Request timed out after 35 seconds. SMTP server is unreachable or not responding.<br/>Please check:<br/>• SMTP host and port are correct<br/>• Server is accessible from this network<br/>• Firewall allows outbound connections on SMTP port")
              [Recipient mh]
        end
  end.

End mailerhandler.

(** ** Vocabulary of the statements about the resolver *)

(** The ways bootstrap discovery for [tld] can fail when it is started after
    the requests in [log]: the request itself fails, the status is not a 2xx
    one, the body cannot be read, the body is not a bootstrap document, or no
    service entry of the document lists [tld]. *)
Inductive BootstrapFailure `{Runtime} (tld : string) (log : list string) : Prop :=
| transport_error (e : error) :
    http_respond log bootstrapURL = GetFailed e ->
    BootstrapFailure tld log
| bad_status (status : Z) (body : string) (readErr : option error) :
    http_respond log bootstrapURL = Response status body readErr ->
    ~ (200 <= status < 300)%Z ->
    BootstrapFailure tld log
| unreadable_body (body : string) (e : error) :
    http_respond log bootstrapURL = Response 200 body (Some e) ->
    BootstrapFailure tld log
| malformed_body (body : string) (e : error) :
    http_respond log bootstrapURL = Response 200 body None ->
    json_Unmarshal_bootstrap body = Err e ->
    BootstrapFailure tld log
| no_matching_entry (body : string) (services : list (list Json.value)) :
    http_respond log bootstrapURL = Response 200 body None ->
    json_Unmarshal_bootstrap body = Ok services ->
    (forall service tlds, In service services ->
       service !! 0%nat = Some (Json.Array tlds) -> ~ In (Json.Str tld) tlds) ->
    BootstrapFailure tld log.

(** The number of occurrences of the byte [c] in [s]. *)
Fixpoint countByte (c : ascii) (s : string) : nat :=
  match s with
  | EmptyString => 0
  | String a rest => (if Ascii.eqb a c then 1 else 0) + countByte c rest
  end.

(** The number of labels of a name: one more than it has separators. *)
Definition labelCount (fqdn : string) : nat := S (countByte "." fqdn).

(** The text after the last occurrence of [sep] in [s]; all of [s] when
    [sep] does not occur. *)
Fixpoint afterLast (sep : ascii) (s : string) : string :=
  match s with
  | EmptyString => EmptyString
  | String c rest =>
      if (0 <? countByte sep rest)%nat then afterLast sep rest
      else if Ascii.eqb c sep then rest
      else s
  end.

(** ** Vocabulary of the statements about the normalizer *)

(** The instant an event contributes to the field fed by [actions]: the
    event has one of these actions and a date that is present and parses. *)
Definition mappedTime `{Runtime} (actions : list string) (event : rdapEvent)
  : option GoTime.Time :=
  if existsb (String.eqb (EventAction event)) actions
     && negb (String.eqb (EventDate event) EmptyString)
  then parseEventDate (EventDate event)
  else None.

(** The instant contributed by the last event, in response order, that
    contributes one. *)
Definition lastEventTime `{Runtime} (actions : list string) (events : list rdapEvent)
  : option GoTime.Time :=
  last (omap (mappedTime actions) events).

Definition withEvents (rdap : rdapDomain) (events : list rdapEvent) : rdapDomain :=
  {| rdap_ObjectClassName := rdap_ObjectClassName rdap;
     rdap_Handle := rdap_Handle rdap;
     rdap_LDHName := rdap_LDHName rdap;
     rdap_Nameservers := rdap_Nameservers rdap;
     rdap_Status := rdap_Status rdap;
     rdap_Entities := rdap_Entities rdap;
     rdap_Events := events;
     rdap_PublicIDs := rdap_PublicIDs rdap;
     rdap_Links := rdap_Links rdap |}.

Definition withEntities (rdap : rdapDomain) (entities : list rdapEntity) : rdapDomain :=
  {| rdap_ObjectClassName := rdap_ObjectClassName rdap;
     rdap_Handle := rdap_Handle rdap;
     rdap_LDHName := rdap_LDHName rdap;
     rdap_Nameservers := rdap_Nameservers rdap;
     rdap_Status := rdap_Status rdap;
     rdap_Entities := entities;
     rdap_Events := rdap_Events rdap;
     rdap_PublicIDs := rdap_PublicIDs rdap;
     rdap_Links := rdap_Links rdap |}.

(** Is [registrar] among the roles of the entity? *)
Definition isRegistrar (entity : rdapEntity) : bool :=
  bool_decide ("registrar" ∈ entity_Roles entity).

(** The items of the entity's contact card: the second element of
    [vcardArray] when it is an array. *)
Definition vcardItemsOf (entity : rdapEntity) : list Json.value :=
  match entity_VCardArray entity with
  | _ :: Json.Array vcardItems :: _ => vcardItems
  | _ => []
  end.

(** The text of a card item of the given type: the item is an array of at
    least four elements, its first element is the type, and its fourth is a
    string that is not empty. *)
Definition itemText (type : string) (item : Json.value) : option string :=
  match item with
  | Json.Array (Json.Str itemType :: _ :: _ :: Json.Str text :: _) =>
      if String.eqb itemType type && negb (String.eqb text EmptyString)
      then Some text else None
  | _ => None
  end.

(** The text of the first card item of the given type that has one. *)
Definition firstText (type : string) (items : list Json.value) : option string :=
  head (omap (itemText type) items).

(** Full name first, organization as fallback, handle as last resort. *)
Definition displayName (entity : rdapEntity) : string :=
  match firstText "fn" (vcardItemsOf entity) with
  | Some name => name
  | None =>
      match firstText "org" (vcardItemsOf entity) with
      | Some org => org
      | None => entity_Handle entity
      end
  end.

(** ** Vocabulary of the further statements *)

(** Does the list of labels of a service entry contain the string [tld]? *)
Definition listsTLD (tld : string) (tlds : list Json.value) : bool :=
  existsb (fun t => match t with
                    | Json.Str tStr => String.eqb tStr tld
                    | _ => false
                    end) tlds.

(** The server a service entry of the bootstrap document offers for [tld]:
    the entry starts with an array of labels that contains [tld] and goes on
    with an array whose first element is a string; the server is that string
    without one trailing slash. *)
Definition serviceServer (tld : string) (service : list Json.value) : option string :=
  match service with
  | Json.Array tlds :: Json.Array (Json.Str serverURL :: _) :: _ =>
      if listsTLD tld tlds then Some (GoStrings.TrimSuffix serverURL "/") else None
  | _ => None
  end.

(** Does the event count: one of the four actions, and a date that is
    present and parses? *)
Definition eventCounts `{Runtime} (event : rdapEvent) : bool :=
  bool_decide
    (is_Some (mappedTime
                ["registration"; "expiration"; "last changed"; "last update"]
                event)).

(** The rendering of an optional time in the text field beside it. *)
Definition dateText `{Runtime} (t : option GoTime.Time) : string :=
  match t with
  | Some eventTime => time_Format eventTime GoTime.RFC3339
  | None => EmptyString
  end.

(** Each text field is the rendering of the time field beside it. *)
Definition datesAgree `{Runtime} (d : whoisparser.Domain) : Prop :=
  whoisparser.CreatedDate d = dateText (whoisparser.CreatedDateInTime d)
  /\ whoisparser.UpdatedDate d = dateText (whoisparser.UpdatedDateInTime d)
  /\ whoisparser.ExpirationDate d = dateText (whoisparser.ExpirationDateInTime d).

(** The card items before the first one that gives a full name. *)
Fixpoint beforeFullName (items : list Json.value) : list Json.value :=
  match items with
  | [] => []
  | item :: rest =>
      match itemText "fn" item with
      | Some _ => []
      | None => item :: beforeFullName rest
      end
  end.

(** The first entry of a domain list with the given FQDN. *)
Definition findDomain (fqdn : string) (domains : list configuration.Domain)
  : option configuration.Domain :=
  List.find (fun d => String.eqb (configuration.FQDN d) fqdn) domains.

(** The number of entries of a domain list with the given FQDN. *)
Definition countFQDN (fqdn : string) (domains : list configuration.Domain) : nat :=
  length (List.filter (fun d => String.eqb (configuration.FQDN d) fqdn) domains).

(** The operations on the domain list, and what a sequence of them makes of
    a configuration and the files. *)
Inductive Operation : Type :=
| Add (domain : configuration.Domain)
| Remove (domain : configuration.Domain)
| Update (domain : configuration.Domain).

Definition applyOperation (state : configuration.DomainConfiguration * configuration.Disk)
    (op : Operation) : configuration.DomainConfiguration * configuration.Disk :=
  match op with
  | Add domain => configuration.AddDomain domain (fst state) (snd state)
  | Remove domain => configuration.RemoveDomain domain (fst state) (snd state)
  | Update domain => configuration.UpdateDomain domain (fst state) (snd state)
  end.

Definition runOperations (ops : list Operation)
    (state : configuration.DomainConfiguration * configuration.Disk)
  : configuration.DomainConfiguration * configuration.Disk :=
  fold_left applyOperation ops state.

(** ** Test doubles

    An environment to run the program in: a clock-free date parser for UTC
    timestamps of the shape [YYYY-MM-DDTHH:MM:SSZ], canned response bodies
    with their decoded values, canned routes, and an insertion sort. *)

Module TestDouble.

Definition digit (c : ascii) : option Z :=
  let n := Z.of_N (Ascii.N_of_ascii c) in
  if ((48 <=? n) && (n <=? 57))%Z then Some (n - 48)%Z else None.

Fixpoint number (s : string) (acc : Z) : option Z :=
  match s with
  | EmptyString => Some acc
  | String c rest =>
      match digit c with
      | Some d => number rest (acc * 10 + d)%Z
      | None => None
      end
  end.

Definition field (s : string) (from len : nat) : option Z :=
  number (String.substring from len s) 0.

Definition isLeap (y : Z) : bool :=
  ((y mod 4 =? 0) && (negb (y mod 100 =? 0) || (y mod 400 =? 0)))%Z.

Definition daysIn (y m : Z) : Z :=
  if (m =? 2)%Z then (if isLeap y then 29 else 28)%Z
  else if ((m =? 4) || (m =? 6) || (m =? 9) || (m =? 11))%Z then 30%Z
  else 31%Z.

(** Days from 1970-01-01 to the civil date [y]-[m]-[d]. *)
Definition daysFromCivil (y m d : Z) : Z :=
  let y' := (if m <=? 2 then y - 1 else y)%Z in
  let era := (y' / 400)%Z in
  let yoe := (y' - era * 400)%Z in
  let mp := (if m >? 2 then m - 3 else m + 9)%Z in
  let doy := ((153 * mp + 2) / 5 + d - 1)%Z in
  let doe := (yoe * 365 + yoe / 4 - yoe / 100 + doy)%Z in
  (era * 146097 + doe - 719468)%Z.

(** The civil date of the day [z] days after 1970-01-01. *)
Definition civilFromDays (z : Z) : Z * Z * Z :=
  let z := (z + 719468)%Z in
  let era := (z / 146097)%Z in
  let doe := (z - era * 146097)%Z in
  let yoe := ((doe - doe / 1460 + doe / 36524 - doe / 146096) / 365)%Z in
  let doy := (doe - (365 * yoe + yoe / 4 - yoe / 100))%Z in
  let mp := ((5 * doy + 2) / 153)%Z in
  let d := (doy - (153 * mp + 2) / 5 + 1)%Z in
  let m := (if mp <? 10 then mp + 3 else mp - 9)%Z in
  let y := (yoe + era * 400 + (if m <=? 2 then 1 else 0))%Z in
  (y, m, d).

Definition separatorsOk (s : string) : bool :=
  String.eqb (String.substring 4 1 s) "-"
  && String.eqb (String.substring 7 1 s) "-"
  && String.eqb (String.substring 10 1 s) "T"
  && String.eqb (String.substring 13 1 s) ":"
  && String.eqb (String.substring 16 1 s) ":"
  && String.eqb (String.substring 19 1 s) "Z".

Definition parseUTC (s : string) : option GoTime.Time :=
  if (String.length s =? 20)%nat && separatorsOk s then
    y ← field s 0 4; mo ← field s 5 2; d ← field s 8 2;
    h ← field s 11 2; mi ← field s 14 2; se ← field s 17 2;
    if ((1 <=? mo) && (mo <=? 12) && (1 <=? d) && (d <=? daysIn y mo)
        && (h <? 24) && (mi <? 60) && (se <? 60))%Z
    then Some (GoTime.mkTime
                 ((daysFromCivil y mo d * 86400 + h * 3600 + mi * 60 + se)
                  * 1000000000) 0)
    else None
  else None.

Fixpoint zeros (n : nat) : string :=
  match n with
  | O => EmptyString
  | S n' => String "0" (zeros n')
  end.

Definition pad (width : nat) (n : Z) : string :=
  let s := GoStrings.itoa n in
  zeros (width - String.length s) +:+ s.

Definition formatUTC (t : GoTime.Time) : string :=
  let secs := (GoTime.unixNano t / 1000000000)%Z in
  let days := (secs / 86400)%Z in
  let rem := (secs mod 86400)%Z in
  let '(y, m, d) := civilFromDays days in
  pad 4 y +:+ "-" +:+ pad 2 m +:+ "-" +:+ pad 2 d +:+ "T"
  +:+ pad 2 (rem / 3600) +:+ ":" +:+ pad 2 (rem mod 3600 / 60) +:+ ":"
  +:+ pad 2 (rem mod 60) +:+ "Z".

(** A table from text to value, searched from the front. *)
Fixpoint assoc {A : Type} (key : string) (table : list (string * A)) : option A :=
  match table with
  | [] => None
  | (k, v) :: rest => if String.eqb k key then Some v else assoc key rest
  end.

Definition decodeWith {A : Type} (table : list (string * A)) (body : string)
  : result A :=
  match assoc body table with
  | Some v => Ok v
  | None => Err "invalid character"
  end.

Definition route (routes : list (string * http_result)) (url : string) : http_result :=
  match assoc url routes with
  | Some r => r
  | None => GetFailed "dial tcp: no route to host"
  end.

Definition runtime
    (errors : list (string * rdapError))
    (records : list (string * rdapDomain))
    (bootstraps : list (string * list (list Json.value)))
    (routes : list (string * http_result)) : Runtime :=
  {| strings_ToLower := GoStrings.lowerASCII;
     time_Parse := fun _ value => parseUTC value;
     time_Format := fun t _ => formatUTC t;
     json_Unmarshal_rdapError := decodeWith errors;
     json_Unmarshal_rdapDomain := decodeWith records;
     json_Unmarshal_bootstrap := decodeWith bootstraps;
     http_respond := fun _ url => route routes url |}.

(** Insertion sort: [x] goes before the first element it is less than. *)
Fixpoint insert {A : Type} (less : A -> A -> bool) (x : A) (l : list A) : list A :=
  match l with
  | [] => [x]
  | y :: rest => if less x y then x :: y :: rest else y :: insert less x rest
  end.

Definition insertionSort {A : Type} (less : A -> A -> bool) (l : list A) : list A :=
  fold_left (fun sorted x => insert less x sorted) l [].

Definition sorter : Sorter := {| sort_Slice := @insertionSort |}.

(** Sample data. *)
Definition event (action date : string) : rdapEvent :=
  {| EventAction := action; EventDate := date |}.

Definition nameserver (name : string) : rdapNameserver :=
  {| ns_ObjectClassName := "nameserver"; ns_LDHName := name; ns_Links := [] |}.

Definition entity (handle : string) (roles : list string) (vcard : list Json.value)
  : rdapEntity :=
  {| entity_ObjectClassName := "entity"; entity_Handle := handle;
     entity_VCardArray := vcard; entity_Roles := roles |}.

Definition vcardItem (type value : string) : Json.value :=
  Json.Array [Json.Str type; Json.Object []; Json.Str "text"; Json.Str value].

Definition response (nameservers : list rdapNameserver)
    (entities : list rdapEntity) (events : list rdapEvent) : rdapDomain :=
  {| rdap_ObjectClassName := "domain"; rdap_Handle := "D1";
     rdap_LDHName := "example.com"; rdap_Nameservers := nameservers;
     rdap_Status := ["active"]; rdap_Entities := entities;
     rdap_Events := events; rdap_PublicIDs := []; rdap_Links := [] |}.

End TestDouble.

(** ** Sample data *)

(** Two environments for the examples.  Bodies are named, not spelled out:
    the decoders of the test double go by the table.  In [offline] the
    bootstrap service answers 503 and rdap.org knows two names; in [online]
    the bootstrap service lists a server for the label com. *)
Definition offline : Runtime :=
  TestDouble.runtime
    [("body:not-found",
      {| ErrorCode := 404; Title := "Domain not found"; Description := [] |})]
    [("body:example.com",
      TestDouble.response [TestDouble.nameserver "ns1.example.com"] []
        [TestDouble.event "expiration" "2025-01-15T00:00:00Z"]);
     ("body:undated.com", TestDouble.response [] [] [])]
    []
    [("https://data.iana.org/rdap/dns.json", Response 503 "body:unavailable" None);
     ("https://rdap.org/domain/example.com", Response 200 "body:example.com" None);
     ("https://rdap.org/domain/undated.com", Response 200 "body:undated.com" None);
     ("https://rdap.org/domain/nosuch.com", Response 404 "body:not-found" None);
     ("https://rdap.org/domain/broken.com", Response 500 "body:html" None)].

Definition online : Runtime :=
  TestDouble.runtime [] [("body:example.com", TestDouble.response [] [] [])]
    [("body:dns.json",
      [[Json.Array [Json.Str "net"; Json.Str "com"];
        Json.Array [Json.Str "https://rdap.registry.example/v1/"]]])]
    [("https://data.iana.org/rdap/dns.json", Response 200 "body:dns.json" None);
     ("https://rdap.registry.example/v1/domain/example.com",
      Response 200 "body:example.com" None)].

(** A cache service that knows the entries of a table. *)
Definition cacheEntry (fqdn : string) (expiration : option GoTime.Time)
  : configuration.WhoisCache :=
  configuration.mkWhoisCache fqdn
    (whoisparser.mkWhoisInfo
       (Some (whoisparser.mkDomain "D1" fqdn [] [] EmptyString None
                EmptyString None EmptyString expiration))
       None)
    (GoTime.mkTime 0 0).

Definition cacheService (entries : list (string * configuration.WhoisCache))
  : handlers.ServicesWhois :=
  {| handlers.GetWhois := fun fqdn =>
       match TestDouble.assoc fqdn entries with
       | Some w => Ok w
       | None => Err "no cached whois data"
       end |}.

Definition sampleCache : handlers.ServicesWhois :=
  cacheService
    [("late.example", cacheEntry "late.example" (Some (GoTime.mkTime 900 0)));
     ("undated.example", cacheEntry "undated.example" None);
     ("soon.example", cacheEntry "soon.example" (Some (GoTime.mkTime 100 0)))].

Definition sampleDomains : list configuration.Domain :=
  [configuration.mkDomain "Uncached" "uncached.example" true true;
   configuration.mkDomain "Late" "late.example" true true;
   configuration.mkDomain "Undated" "undated.example" true true;
   configuration.mkDomain "Soon" "soon.example" true true].

Definition techEntity : rdapEntity :=
  TestDouble.entity "TECH-7" ["technical"]
    [Json.Str "vcard"; Json.Array [TestDouble.vcardItem "fn" "Tech Desk"]].

Definition firstRegistrar : rdapEntity :=
  TestDouble.entity "REG-1" ["abuse"; "registrar"]
    [Json.Str "vcard";
     Json.Array [TestDouble.vcardItem "org" "First Org";
                 TestDouble.vcardItem "fn" "First Registrar"]].

Definition secondRegistrar : rdapEntity :=
  TestDouble.entity "REG-2" ["registrar"]
    [Json.Str "vcard"; Json.Array [TestDouble.vcardItem "fn" "Second Registrar"]].

Definition undatedEvent : rdapEvent :=
  TestDouble.event "registration" "15 January 2020".

Definition expirationEvent : rdapEvent :=
  TestDouble.event "expiration" "2025-01-15T00:00:00Z".

Definition sampleList : configuration.DomainConfiguration :=
  configuration.mkDomainConfiguration
    (configuration.mkDomainFile
       [configuration.mkDomain "A" "a.example" true true;
        configuration.mkDomain "B" "b.example" false true;
        configuration.mkDomain "C" "c.example" true false])
    "domain.yaml".

(** A mail library whose clients are the host and the options they were
    built from; it refuses the host named refused.example. *)
Definition recordingMail : MailLibrary :=
  {| mail_Client := string * list mail.Option;
     mail_NewClient := fun host opts =>
       if String.eqb host "refused.example" then Err "invalid host"
       else Ok (host, opts) |}.

Definition sampleSMTP : smtp.SMTPConfiguration :=
  smtp.mkSMTPConfiguration "smtp.example" 587 false EmptyString
    "monitor" "secret" true EmptyString "monitor@example.com".

Definition sampleHandler : handlers.DomainHandler :=
  {| handlers.DomainService := {| handlers.GetDomains := Ok sampleDomains |};
     handlers.WhoisService := Some sampleCache |}.

(** A cache that knows creation times. *)
Definition creationEntry (fqdn : string) (created : option GoTime.Time)
  : configuration.WhoisCache :=
  configuration.mkWhoisCache fqdn
    (whoisparser.mkWhoisInfo
       (Some (whoisparser.mkDomain "D1" fqdn [] [] EmptyString created
                EmptyString None EmptyString None))
       None)
    (GoTime.mkTime 0 0).

Definition creationCache : handlers.ServicesWhois :=
  cacheService
    [("late.example", creationEntry "late.example" (Some (GoTime.mkTime 50 0)));
     ("undated.example", creationEntry "undated.example" None);
     ("soon.example", creationEntry "soon.example" (Some (GoTime.mkTime 70 0)))].

Definition sampleMailer : @service.MailerService recordingMail :=
  @service.mkMailerService recordingMail ("smtp.example", [])
    "Monitor <monitor@example.com>" "smtp.example" 587.

Definition sampleMailHandler : @mailerhandler.MailerHandler recordingMail :=
  @mailerhandler.mkMailerHandler recordingMail (Some sampleMailer)
    "admin@example.com".

(** * Properties *)

Example parseUTC_2025_01_15 :
  TestDouble.parseUTC "2025-01-15T00:00:00Z"
  = Some (GoTime.mkTime 1736899200000000000 0).
Proof. vm_compute. reflexivity. Qed.

Example formatUTC_2025_01_15 :
  TestDouble.formatUTC (GoTime.mkTime 1736899200000000000 0)
  = "2025-01-15T00:00:00Z".
Proof. vm_compute. reflexivity. Qed.

Example parseUTC_rejects : TestDouble.parseUTC "15 January 2025" = None.
Proof. vm_compute. reflexivity. Qed.

(** ** Facts about [strings.Split] *)

Lemma append_String (c : ascii) (s t : string) :
  String c s +:+ t = String c (s +:+ t).
Proof. reflexivity. Qed.

Section SplitFacts.
Variable sep : ascii.

Lemma Split_not_nil (s : string) : GoStrings.Split s sep <> [].
Proof.
  induction s as [|c r IH]; simpl; [discriminate|].
  destruct (Ascii.eqb c sep); [discriminate|].
  destruct (GoStrings.Split r sep); discriminate.
Qed.

Lemma Split_without_sep (s : string) :
  GoStrings.containsByte sep s = false -> GoStrings.Split s sep = [s].
Proof.
  induction s as [|c r IH]; simpl; [reflexivity|].
  destruct (Ascii.eqb c sep); simpl; [discriminate|].
  intros Hr. rewrite (IH Hr). reflexivity.
Qed.

Lemma Split_length (s : string) :
  (length (GoStrings.Split s sep) <? 2)%nat = negb (GoStrings.containsByte sep s).
Proof.
  induction s as [|c r IH]; simpl; [reflexivity|].
  destruct (Ascii.eqb c sep); simpl.
  - pose proof (Split_not_nil r) as Hne.
    destruct (GoStrings.Split r sep); [contradiction|reflexivity].
  - pose proof (Split_not_nil r) as Hne.
    destruct (GoStrings.Split r sep) as [|p ps]; [contradiction|].
    exact IH.
Qed.

Lemma last_Split_without_sep (s : string) :
  GoStrings.containsByte sep (List.last (GoStrings.Split s sep) EmptyString) = false.
Proof.
  induction s as [|c r IH]; simpl; [reflexivity|].
  pose proof (Split_not_nil r) as Hne.
  destruct (Ascii.eqb c sep) eqn:Hc.
  - destruct (GoStrings.Split r sep) as [|p ps]; [contradiction|exact IH].
  - destruct (GoStrings.Split r sep) as [|p ps]; [contradiction|].
    destruct ps as [|q qs]; [|exact IH].
    simpl in *. rewrite Hc. exact IH.
Qed.

Lemma Split_last_suffix (s : string) :
  GoStrings.containsByte sep s = true ->
  exists pre : string,
    s = pre +:+ String sep (List.last (GoStrings.Split s sep) EmptyString).
Proof.
  induction s as [|c r IH]; [discriminate|].
  pose proof (Split_not_nil r) as Hne.
  cbn [GoStrings.containsByte GoStrings.Split].
  destruct (Ascii.eqb c sep) eqn:Hc.
  - intros _. apply Ascii.eqb_eq in Hc. subst c.
    destruct (GoStrings.containsByte sep r) eqn:Hr.
    + destruct (IH eq_refl) as [pre Hpre].
      exists (String sep pre).
      destruct (GoStrings.Split r sep) as [|p ps]; [contradiction|].
      rewrite append_String. f_equal. exact Hpre.
    + rewrite (Split_without_sep r Hr). exists EmptyString. reflexivity.
  - intros Hr. simpl in Hr. destruct (IH Hr) as [pre Hpre].
    exists (String c pre).
    destruct (GoStrings.Split r sep) as [|p ps] eqn:Hs; [contradiction|].
    destruct ps as [|q qs].
    + pose proof (Split_length r) as Hl. rewrite Hs, Hr in Hl. discriminate.
    + rewrite append_String. f_equal. exact Hpre.
Qed.

End SplitFacts.

Example Split_example :
  GoStrings.Split "www.example.com" "." = ["www"; "example"; "com"].
Proof. reflexivity. Qed.

Example Split_trailing_dot : GoStrings.Split "com." "." = ["com"; EmptyString].
Proof. reflexivity. Qed.

Example Split_empty : GoStrings.Split EmptyString "." = [EmptyString].
Proof. reflexivity. Qed.

Example Split_inner_empty :
  GoStrings.Split "a..b" "." = ["a"; EmptyString; "b"].
Proof. reflexivity. Qed.

(** ** The resolver *)

Section ResolverFacts.
Context `{Runtime}.

Lemma scanTLDs_absent (tlds : list Json.value) (servers : Json.value) (tld : string) :
  ~ In (Json.Str tld) tlds -> scanTLDs tlds servers tld = None.
Proof.
  induction tlds as [|t rest IH]; simpl; [reflexivity|].
  intros Hnot.
  assert (Hrest : scanTLDs rest servers tld = None) by (apply IH; tauto).
  destruct t as [| | |tStr| |]; try exact Hrest.
  destruct (String.eqb tStr tld) eqn:E; [|exact Hrest].
  apply String.eqb_eq in E. subst tStr. tauto.
Qed.

Lemma scanServices_absent (services : list (list Json.value)) (tld : string) :
  (forall service tlds, In service services ->
     service !! 0%nat = Some (Json.Array tlds) -> ~ In (Json.Str tld) tlds) ->
  scanServices services tld = None.
Proof.
  induction services as [|service rest IH]; simpl; [reflexivity|].
  intros Hnot.
  assert (Hrest : scanServices rest tld = None).
  { apply IH. intros s tlds Hin. apply Hnot. right. exact Hin. }
  destruct service as [|s0 [|servers more]]; try exact Hrest.
  - destruct s0; exact Hrest.
  - destruct s0 as [| | | |tlds|]; try exact Hrest.
    rewrite scanTLDs_absent; [exact Hrest|].
    apply (Hnot (Json.Array tlds :: servers :: more)); [left|]; reflexivity.
Qed.

Lemma getRDAPServerFromBootstrap_log (tld : string) (log : list string) :
  snd (getRDAPServerFromBootstrap tld log) = log ++ [bootstrapURL].
Proof. reflexivity. Qed.

(** Every way of failing leaves [getRDAPServerFromBootstrap] with an error. *)
Lemma BootstrapFailure_error (tld : string) (log : list string) :
  BootstrapFailure tld log ->
  exists e, fst (getRDAPServerFromBootstrap tld log) = Err e.
Proof.
  unfold getRDAPServerFromBootstrap, mbind, net_bind, http_Get, mret, net_ret.
  cbn [fst].
  intros [e He|status body readErr He Hs|body e He|body e He Hd
         |body services He Hd Hnone]; rewrite He.
  - eauto.
  - destruct (status =? 200)%Z eqn:E; [apply Z.eqb_eq in E; lia|].
    cbn [negb]. eauto.
  - cbn. eauto.
  - cbn. rewrite Hd. eauto.
  - cbn. rewrite Hd, (scanServices_absent _ _ Hnone). eauto.
Qed.

(** [QueryRDAP] on a name with at least one separator, step by step. *)
Lemma QueryRDAP_valid (fqdn : string) (log : list string) :
  GoStrings.containsByte "." fqdn = true ->
  QueryRDAP fqdn log =
    let tld := List.last (GoStrings.Split fqdn ".") EmptyString in
    let rdapServerURL :=
      match fst (getRDAPServerFromBootstrap tld log) with
      | Ok url => url
      | Err _ => getFallbackRDAPServer tld
      end in
    let domainURL := rdapServerURL +:+ "/domain/" +:+ fqdn in
    (handleResponse fqdn (http_respond (log ++ [bootstrapURL]) domainURL),
     log ++ [bootstrapURL; domainURL]).
Proof.
  intros Hdot. unfold QueryRDAP.
  rewrite Split_length, Hdot. cbn [negb].
  unfold getRDAPServerFromBootstrap, mbind, net_bind, http_Get, mret, net_ret.
  cbn [fst]. rewrite <- app_assoc. reflexivity.
Qed.

Lemma QueryRDAP_valid_request (fqdn : string) (log : list string) :
  GoStrings.containsByte "." fqdn = true ->
  exists domainURL : string,
    QueryRDAP fqdn log =
      (handleResponse fqdn (http_respond (log ++ [bootstrapURL]) domainURL),
       log ++ [bootstrapURL; domainURL]).
Proof.
  intros Hdot. rewrite (QueryRDAP_valid fqdn log Hdot). cbv zeta.
  eexists. reflexivity.
Qed.

Lemma QueryRDAP_invalid (fqdn : string) (log : list string) :
  GoStrings.containsByte "." fqdn = false ->
  QueryRDAP fqdn log = (Err ("invalid domain: " +:+ fqdn), log).
Proof.
  intros Hdot. unfold QueryRDAP.
  rewrite Split_length, Hdot. reflexivity.
Qed.

Lemma handleResponse_not_invalid (fqdn : string) (resp : http_result) :
  handleResponse fqdn resp <> Err ("invalid domain: " +:+ fqdn).
Proof.
  unfold handleResponse.
  destruct resp as [err|status body readErr]; [discriminate|].
  destruct (negb (status =? 200)%Z).
  - destruct (json_Unmarshal_rdapError body) as [rdapErr|e]; [|discriminate].
    destruct (negb (String.eqb (Title rdapErr) EmptyString)); discriminate.
  - destruct readErr; [discriminate|].
    destruct (json_Unmarshal_rdapDomain body); discriminate.
Qed.

End ResolverFacts.

Example QueryRDAP_online :
  snd (@QueryRDAP online "example.com" [])
  = ["https://data.iana.org/rdap/dns.json";
     "https://rdap.registry.example/v1/domain/example.com"]
  /\ is_Ok (fst (@QueryRDAP online "example.com" [])) = true.
Proof. vm_compute. split; reflexivity. Qed.

Example QueryRDAP_offline :
  snd (@QueryRDAP offline "example.com" [])
  = ["https://data.iana.org/rdap/dns.json"; "https://rdap.org/domain/example.com"]
  /\ is_Ok (fst (@QueryRDAP offline "example.com" [])) = true.
Proof. vm_compute. split; reflexivity. Qed.

(** A name that ends in the separator has an empty last label and is
    looked up all the same. *)
Example QueryRDAP_trailing_dot :
  snd (@QueryRDAP offline "com." [])
  = ["https://data.iana.org/rdap/dns.json"; "https://rdap.org/domain/com."].
Proof. vm_compute. reflexivity. Qed.

Section LabelFacts.
Variable sep : ascii.

Lemma countByte_containsByte (s : string) :
  (0 <? countByte sep s)%nat = GoStrings.containsByte sep s.
Proof.
  induction s as [|c r IH]; [reflexivity|].
  cbn [countByte GoStrings.containsByte].
  destruct (Ascii.eqb c sep); [reflexivity|exact IH].
Qed.

(** [strings.Split] yields one piece more than there are separators. *)
Lemma Split_count (s : string) :
  length (GoStrings.Split s sep) = S (countByte sep s).
Proof.
  induction s as [|c r IH]; [reflexivity|].
  cbn [GoStrings.Split countByte].
  destruct (Ascii.eqb c sep).
  - cbn [length]. rewrite IH. reflexivity.
  - destruct (GoStrings.Split r sep) as [|p ps]; [discriminate|exact IH].
Qed.

Lemma afterLast_without_sep (s : string) :
  GoStrings.containsByte sep s = false -> afterLast sep s = s.
Proof.
  destruct s as [|c r]; [reflexivity|].
  cbn [GoStrings.containsByte afterLast]. intros Hno.
  apply orb_false_iff in Hno. destruct Hno as [Hc Hr].
  rewrite countByte_containsByte, Hr, Hc. reflexivity.
Qed.

(** The last piece [strings.Split] yields is the text after the last
    separator. *)
Lemma last_Split_afterLast (s : string) :
  List.last (GoStrings.Split s sep) EmptyString = afterLast sep s.
Proof.
  induction s as [|c r IH]; [reflexivity|].
  pose proof (Split_not_nil sep r) as Hne.
  pose proof (Split_length sep r) as Hlen.
  cbn [GoStrings.Split afterLast]. rewrite countByte_containsByte.
  destruct (Ascii.eqb c sep) eqn:Hc.
  - destruct (GoStrings.Split r sep) as [|p ps] eqn:Hs; [contradiction|].
    change (List.last (EmptyString :: p :: ps) EmptyString)
      with (List.last (p :: ps) EmptyString).
    rewrite IH.
    destruct (GoStrings.containsByte sep r) eqn:Hr; [reflexivity|].
    apply afterLast_without_sep. exact Hr.
  - destruct (GoStrings.containsByte sep r) eqn:Hr.
    + destruct (GoStrings.Split r sep) as [|p [|q qs]] eqn:Hs;
        [contradiction|discriminate|].
      exact IH.
    + rewrite (Split_without_sep sep r Hr). reflexivity.
Qed.

End LabelFacts.

(** C3: [QueryRDAP] fails with the invalid-domain error exactly when the name
    has fewer than two labels, that is no separator; then nothing is
    requested and the result is that error, not a record.  A name with two
    labels or more is taken on: the label [QueryRDAP] works with is the text
    after the last separator, and the bootstrap request and a record request
    are made. *)
Theorem QueryRDAP_invalid_domain `{Runtime} (fqdn : string) (log : list string) :
  ((labelCount fqdn < 2)%nat <->
     fst (QueryRDAP fqdn log) = Err ("invalid domain: " +:+ fqdn))
  /\ ((labelCount fqdn < 2)%nat ->
        QueryRDAP fqdn log = (Err ("invalid domain: " +:+ fqdn), log))
  /\ ((2 <= labelCount fqdn)%nat ->
        let tld := afterLast "." fqdn in
        (exists pre : string, fqdn = pre +:+ "." +:+ tld)
        /\ countByte "." tld = 0%nat
        /\ QueryRDAP fqdn log =
             (r ← getRDAPServerFromBootstrap tld;
              let rdapServerURL :=
                match r with
                | Ok url => url
                | Err _ => getFallbackRDAPServer tld
                end in
              resp ← http_Get (rdapServerURL +:+ "/domain/" +:+ fqdn);
              mret (handleResponse fqdn resp)) log
        /\ exists domainURL : string,
             snd (QueryRDAP fqdn log) = log ++ [bootstrapURL; domainURL]).
Proof.
  unfold labelCount.
  pose proof (countByte_containsByte "." fqdn) as Hcount.
  destruct (GoStrings.containsByte "." fqdn) eqn:Hdot.
  - apply Nat.ltb_lt in Hcount. split; [|split].
    + split; [lia|]. intros Herr.
      rewrite (QueryRDAP_valid fqdn log Hdot) in Herr. cbn [fst] in Herr.
      exfalso. exact (handleResponse_not_invalid _ _ Herr).
    + lia.
    + intros _. cbv zeta. rewrite <- (last_Split_afterLast "." fqdn).
      split; [exact (Split_last_suffix "." fqdn Hdot)|]. split; [|split].
      * pose proof (countByte_containsByte "."
                      (List.last (GoStrings.Split fqdn ".") EmptyString)) as Hl.
        rewrite last_Split_without_sep in Hl. apply Nat.ltb_ge in Hl. lia.
      * unfold QueryRDAP. rewrite Split_length, Hdot. reflexivity.
      * destruct (QueryRDAP_valid_request fqdn log Hdot) as [url Hq].
        exists url. rewrite Hq. reflexivity.
  - apply Nat.ltb_ge in Hcount. split; [|split].
    + split; [|intros _; lia].
      intros _. rewrite (QueryRDAP_invalid fqdn log Hdot). reflexivity.
    + intros _. apply QueryRDAP_invalid. exact Hdot.
    + lia.
Qed.

Lemma QueryRDAP_invalid_domain_witness :
  @QueryRDAP offline "localhost" ["https://earlier.example/"]
  = (Err "invalid domain: localhost", ["https://earlier.example/"])
  /\ snd (@QueryRDAP offline "www.example.com" [])
     = ["https://data.iana.org/rdap/dns.json";
        "https://rdap.org/domain/www.example.com"]
  /\ fst (@QueryRDAP offline "www.example.com" [])
     <> Err "invalid domain: www.example.com"
  /\ is_Ok (fst (@QueryRDAP offline "example.com" [])) = true.
Proof.
  split; [|split; [|split]].
  - apply (proj1 (proj2 (@QueryRDAP_invalid_domain offline "localhost"
                           ["https://earlier.example/"]))).
    vm_compute. lia.
  - destruct (proj2 (proj2 (@QueryRDAP_invalid_domain offline "www.example.com" []))
                ltac:(vm_compute; lia)) as (_ & _ & Hq & _).
    rewrite Hq. vm_compute. reflexivity.
  - intros Herr.
    apply (proj1 (@QueryRDAP_invalid_domain offline "www.example.com" [])) in Herr.
    vm_compute in Herr. lia.
  - destruct (proj2 (proj2 (@QueryRDAP_invalid_domain offline "example.com" []))
                ltac:(vm_compute; lia)) as (_ & _ & Hq & _).
    rewrite Hq. vm_compute. reflexivity.
Defined.

(** C9: whatever the label, the fallback selector answers https://rdap.org:
    all entries of its table and its default are that endpoint. *)
Theorem getFallbackRDAPServer_constant `{Runtime} (tld : string) :
  getFallbackRDAPServer tld = "https://rdap.org"
  /\ map_Forall (fun _ server => server = "https://rdap.org") fallbackServers.
Proof.
  assert (Hall : map_Forall (fun (_ : string) server => server = "https://rdap.org")
                   fallbackServers).
  { unfold fallbackServers.
    repeat (apply map_Forall_insert_2; [reflexivity|]).
    apply map_Forall_empty. }
  split; [|exact Hall].
  unfold getFallbackRDAPServer.
  destruct (fallbackServers !! strings_ToLower tld) as [server|] eqn:E;
    [|reflexivity].
  exact (Hall _ _ E).
Qed.

(** C4: a failed bootstrap discovery does not fail [QueryRDAP].  The record
    request goes to the endpoint the fallback table gives for the lower-cased
    label, or to the default when the table has none, and the result is the
    one that request leads to: a record when it answers 200 with a body that
    decodes. *)
Theorem QueryRDAP_bootstrap_failure `{Runtime} (fqdn : string) (log : list string) :
  let tld := List.last (GoStrings.Split fqdn ".") EmptyString in
  let endpoint := default "https://rdap.org" (fallbackServers !! strings_ToLower tld) in
  let domainURL := endpoint +:+ "/domain/" +:+ fqdn in
  GoStrings.containsByte "." fqdn = true ->
  BootstrapFailure tld log ->
  getFallbackRDAPServer tld = endpoint
  /\ (forall tld', strings_ToLower tld' = strings_ToLower tld ->
        getFallbackRDAPServer tld' = endpoint)
  /\ QueryRDAP fqdn log =
       (handleResponse fqdn (http_respond (log ++ [bootstrapURL]) domainURL),
        log ++ [bootstrapURL; domainURL])
  /\ (forall body rdap,
        http_respond (log ++ [bootstrapURL]) domainURL = Response 200 body None ->
        json_Unmarshal_rdapDomain body = Ok rdap ->
        fst (QueryRDAP fqdn log) = Ok (convertRDAPToWhoisInfo rdap fqdn)).
Proof.
  intros tld endpoint domainURL Hdot Hfail.
  assert (Hsel : forall l, strings_ToLower l = strings_ToLower tld ->
                           getFallbackRDAPServer l = endpoint).
  { intros l Hl. unfold getFallbackRDAPServer, endpoint. rewrite Hl.
    destruct (fallbackServers !! strings_ToLower tld); reflexivity. }
  assert (Hq : QueryRDAP fqdn log =
                 (handleResponse fqdn (http_respond (log ++ [bootstrapURL]) domainURL),
                  log ++ [bootstrapURL; domainURL])).
  { rewrite (QueryRDAP_valid fqdn log Hdot). cbv zeta.
    destruct (BootstrapFailure_error tld log Hfail) as [e He].
    pose proof (Hsel tld eq_refl) as Hf.
    unfold tld in He, Hf. rewrite He, Hf. reflexivity. }
  split; [apply Hsel; reflexivity|]. split; [exact Hsel|]. split; [exact Hq|].
  intros body rdap Hresp Hdec. rewrite Hq. cbn [fst].
  rewrite Hresp. unfold handleResponse. cbn. rewrite Hdec. reflexivity.
Qed.

Lemma QueryRDAP_bootstrap_failure_witness :
  @QueryRDAP offline "example.com" []
  = (@handleResponse offline "example.com"
       (Response 200 "body:example.com" None),
     ["https://data.iana.org/rdap/dns.json"; "https://rdap.org/domain/example.com"]).
Proof.
  apply (proj1 (proj2 (proj2
           (@QueryRDAP_bootstrap_failure offline "example.com" [] eq_refl
              (@bad_status offline "com" [] 503 "body:unavailable" None eq_refl
                 ltac:(lia)))))).
Defined.

(** C5: when the record request is answered with a status outside 2xx,
    [QueryRDAP] fails; the error carries the title of the decoded error
    object when the body decodes to one with a non-empty title, and the
    numeric status otherwise. *)
Theorem QueryRDAP_error_status `{Runtime} (fqdn : string) (log : list string) :
  GoStrings.containsByte "." fqdn = true ->
  exists domainURL : string,
    snd (QueryRDAP fqdn log) = log ++ [bootstrapURL; domainURL]
    /\ forall (status : Z) (body : string) (readErr : option error),
         http_respond (log ++ [bootstrapURL]) domainURL
           = Response status body readErr ->
         ~ (200 <= status < 300)%Z ->
         fst (QueryRDAP fqdn log) =
           Err match json_Unmarshal_rdapError body with
               | Ok rdapErr =>
                   if String.eqb (Title rdapErr) EmptyString
                   then "RDAP query returned status " +:+ GoStrings.itoa status
                   else "RDAP error: " +:+ Title rdapErr
               | Err _ => "RDAP query returned status " +:+ GoStrings.itoa status
               end.
Proof.
  intros Hdot. rewrite (QueryRDAP_valid fqdn log Hdot). cbv zeta.
  eexists. split; [reflexivity|].
  intros status body readErr Hresp Hstatus. cbn [fst]. rewrite Hresp.
  unfold handleResponse.
  destruct (status =? 200)%Z eqn:E; [apply Z.eqb_eq in E; lia|]. cbn [negb].
  destruct (json_Unmarshal_rdapError body) as [rdapErr|e]; [|reflexivity].
  destruct (String.eqb (Title rdapErr) EmptyString); reflexivity.
Qed.

Lemma QueryRDAP_error_status_witness :
  fst (@QueryRDAP offline "nosuch.com" []) = Err "RDAP error: Domain not found"
  /\ fst (@QueryRDAP offline "broken.com" []) = Err "RDAP query returned status 500".
Proof.
  split.
  - destruct (@QueryRDAP_error_status offline "nosuch.com" [] eq_refl)
      as (url & Hlog & Hres).
    vm_compute in Hlog. injection Hlog as <-.
    exact (Hres 404%Z "body:not-found" None eq_refl ltac:(lia)).
  - destruct (@QueryRDAP_error_status offline "broken.com" [] eq_refl)
      as (url & Hlog & Hres).
    vm_compute in Hlog. injection Hlog as <-.
    exact (Hres 500%Z "body:html" None eq_refl ltac:(lia)).
Defined.

(** ** The normalizer: events *)

Section EventFacts.
Context `{Runtime}.

Lemma applyEvent_skip (d : whoisparser.Domain) (e : rdapEvent) :
  parseEventDate (EventDate e) = None -> applyEvent d e = d.
Proof.
  intros Hp. unfold applyEvent. rewrite Hp.
  destruct (String.eqb (EventDate e) EmptyString); reflexivity.
Qed.

(** Splits the goal along the tests [applyEvent] makes on [e]. *)
Ltac event_cases e :=
  unfold applyEvent, mappedTime; cbn [existsb];
  destruct (String.eqb (EventDate e) EmptyString);
    [rewrite ?andb_false_r; reflexivity|];
  destruct (parseEventDate (EventDate e));
    [|match goal with |- context [if ?b then _ else _] => destruct b end;
      reflexivity];
  repeat match goal with
         | |- context [String.eqb (EventAction e) ?a] =>
             let E := fresh "E" in
             destruct (String.eqb (EventAction e) a) eqn:E;
             [apply String.eqb_eq in E; rewrite E in *; reflexivity|]
         end;
  reflexivity.

Lemma applyEvent_created (d : whoisparser.Domain) (e : rdapEvent) :
  whoisparser.CreatedDateInTime (applyEvent d e)
  = from_option Some (whoisparser.CreatedDateInTime d)
      (mappedTime ["registration"] e).
Proof. event_cases e. Qed.

Lemma applyEvent_expiration (d : whoisparser.Domain) (e : rdapEvent) :
  whoisparser.ExpirationDateInTime (applyEvent d e)
  = from_option Some (whoisparser.ExpirationDateInTime d)
      (mappedTime ["expiration"] e).
Proof. event_cases e. Qed.

Lemma applyEvent_updated (d : whoisparser.Domain) (e : rdapEvent) :
  whoisparser.UpdatedDateInTime (applyEvent d e)
  = from_option Some (whoisparser.UpdatedDateInTime d)
      (mappedTime ["last changed"; "last update"] e).
Proof. event_cases e. Qed.

Lemma applyEvent_NameServers (d : whoisparser.Domain) (e : rdapEvent) :
  whoisparser.NameServers (applyEvent d e) = whoisparser.NameServers d.
Proof.
  unfold applyEvent.
  repeat match goal with
         | |- context [if ?b then _ else _] => destruct b
         | |- context [match ?o with Some _ => _ | None => _ end] => destruct o
         end; reflexivity.
Qed.

(** The loop keeps, for a field, the contribution of the last event that
    makes one. *)
Lemma events_loop_last (proj : whoisparser.Domain -> option GoTime.Time)
    (actions : list string) :
  (forall d e, proj (applyEvent d e)
               = from_option Some (proj d) (mappedTime actions e)) ->
  forall events d,
    proj (fold_left applyEvent events d)
    = from_option Some (proj d) (lastEventTime actions events).
Proof.
  intros Hstep events. unfold lastEventTime.
  induction events as [|e es IH]; intros d; [reflexivity|].
  cbn [fold_left omap list_omap]. rewrite IH, Hstep.
  destruct (mappedTime actions e) as [t|]; [|reflexivity].
  rewrite last_cons. cbn [from_option].
  destruct (last (omap (mappedTime actions) es)); reflexivity.
Qed.

Lemma events_loop_NameServers (events : list rdapEvent) (d : whoisparser.Domain) :
  whoisparser.NameServers (fold_left applyEvent events d)
  = whoisparser.NameServers d.
Proof.
  revert d. induction events as [|e es IH]; intros d; [reflexivity|].
  cbn [fold_left]. rewrite IH. apply applyEvent_NameServers.
Qed.

Lemma events_loop_skip (pre post : list rdapEvent) (bad : rdapEvent)
    (d : whoisparser.Domain) :
  parseEventDate (EventDate bad) = None ->
  fold_left applyEvent (pre ++ bad :: post) d
  = fold_left applyEvent (pre ++ post) d.
Proof.
  intros Hbad. rewrite !fold_left_app. cbn [fold_left].
  rewrite (applyEvent_skip _ _ Hbad). reflexivity.
Qed.

End EventFacts.

Section NormalizerFacts.
Context `{Runtime}.

Lemma nameserver_loop (nameservers : list rdapNameserver) (acc : list string) :
  fold_left appendNameserver nameservers acc
  = acc ++ List.filter (fun name => negb (String.eqb name EmptyString))
             (map ns_LDHName nameservers).
Proof.
  revert acc. induction nameservers as [|ns rest IH]; intros acc.
  - cbn. rewrite app_nil_r. reflexivity.
  - cbn [fold_left map List.filter]. rewrite IH. unfold appendNameserver.
    destruct (String.eqb (ns_LDHName ns) EmptyString); cbn [negb].
    + reflexivity.
    + rewrite <- app_assoc. reflexivity.
Qed.

(** The record [convertRDAPToWhoisInfo] returns always has its domain part. *)
Lemma convert_domain (rdap : rdapDomain) (fqdn : string) :
  exists d, whoisparser.Domain_ (convertRDAPToWhoisInfo rdap fqdn) = Some d.
Proof. eexists. reflexivity. Qed.

End NormalizerFacts.

(** C6: the nameservers of the record are the host names of the response's
    nameserver objects that are not empty, in response order, repetitions
    included. *)
Theorem nameservers_in_response_order `{Runtime} (rdap : rdapDomain) (fqdn : string) :
  whoisparser.NameServers <$> whoisparser.Domain_ (convertRDAPToWhoisInfo rdap fqdn)
  = Some (List.filter (fun name => negb (String.eqb name EmptyString))
            (map ns_LDHName (rdap_Nameservers rdap))).
Proof.
  unfold convertRDAPToWhoisInfo. cbn [whoisparser.Domain_ fmap option_fmap option_map].
  f_equal. rewrite events_loop_NameServers. cbn [whoisparser.NameServers].
  rewrite nameserver_loop. reflexivity.
Qed.

Example nameservers_keep_duplicates :
  whoisparser.NameServers <$>
    whoisparser.Domain_
      (@convertRDAPToWhoisInfo offline
         (TestDouble.response
            [TestDouble.nameserver "ns2.example.com";
             TestDouble.nameserver EmptyString;
             TestDouble.nameserver "ns1.example.com";
             TestDouble.nameserver "ns2.example.com"] [] [])
         "example.com")
  = Some ["ns2.example.com"; "ns1.example.com"; "ns2.example.com"].
Proof. reflexivity. Qed.

(** The three time fields of the record, each as the last contribution. *)
Lemma time_fields_last_contribution `{Runtime} (rdap : rdapDomain) (fqdn : string) :
  exists d : whoisparser.Domain,
    whoisparser.Domain_ (convertRDAPToWhoisInfo rdap fqdn) = Some d
    /\ whoisparser.CreatedDateInTime d
       = lastEventTime ["registration"] (rdap_Events rdap)
    /\ whoisparser.ExpirationDateInTime d
       = lastEventTime ["expiration"] (rdap_Events rdap)
    /\ whoisparser.UpdatedDateInTime d
       = lastEventTime ["last changed"; "last update"] (rdap_Events rdap).
Proof.
  eexists. split; [reflexivity|].
  rewrite (events_loop_last _ _ applyEvent_created).
  rewrite (events_loop_last _ _ applyEvent_expiration).
  rewrite (events_loop_last _ _ applyEvent_updated).
  cbn [whoisparser.CreatedDateInTime whoisparser.ExpirationDateInTime
       whoisparser.UpdatedDateInTime].
  repeat split; match goal with |- from_option _ _ ?o = _ => destruct o end;
    reflexivity.
Qed.

(** C1, as the code has it: registration feeds the creation time, expiration
    the expiration time, last changed and last update the update time, and
    each field holds the instant of the last event, in response order, that
    has one of its actions and a date that parses; a later such event
    replaces what an earlier one set. *)
Theorem events_last_occurrence_wins `{Runtime} (rdap : rdapDomain) (fqdn : string) :
  exists d : whoisparser.Domain,
    whoisparser.Domain_ (convertRDAPToWhoisInfo rdap fqdn) = Some d
    /\ whoisparser.CreatedDateInTime d
       = lastEventTime ["registration"] (rdap_Events rdap)
    /\ whoisparser.ExpirationDateInTime d
       = lastEventTime ["expiration"] (rdap_Events rdap)
    /\ whoisparser.UpdatedDateInTime d
       = lastEventTime ["last changed"; "last update"] (rdap_Events rdap).
Proof. exact (time_fields_last_contribution rdap fqdn). Qed.

(** C1, as stated, fails: of two registration events with dates that parse,
    the second sets the creation time, not the first. *)
Lemma first_registration_overwritten :
  @parseEventDate offline "2020-03-01T00:00:00Z"
    = Some (GoTime.mkTime 1583020800000000000 0)
  /\ @parseEventDate offline "2021-06-01T12:00:00Z"
    = Some (GoTime.mkTime 1622548800000000000 0)
  /\ whoisparser.CreatedDateInTime <$>
       whoisparser.Domain_
         (@convertRDAPToWhoisInfo offline
            (TestDouble.response [] []
               [TestDouble.event "registration" "2020-03-01T00:00:00Z";
                TestDouble.event "registration" "2021-06-01T12:00:00Z"])
            "example.com")
     = Some (Some (GoTime.mkTime 1622548800000000000 0))
  /\ whoisparser.CreatedDateInTime <$>
       whoisparser.Domain_
         (@convertRDAPToWhoisInfo offline
            (TestDouble.response [] []
               [TestDouble.event "registration" "2020-03-01T00:00:00Z";
                TestDouble.event "registration" "2021-06-01T12:00:00Z"])
            "example.com")
     <> Some (@parseEventDate offline "2020-03-01T00:00:00Z").
Proof.
  split; [vm_compute; reflexivity|].
  split; [vm_compute; reflexivity|].
  split; [vm_compute; reflexivity|].
  vm_compute. discriminate.
Qed.

(** C7, as the code has it: normalization always returns a record.  An
    event whose date parses under neither layout changes nothing: the record
    is the one the response without that event gives.  An expiration event
    dated 2025-01-15T00:00:00Z that no later expiration event with a
    parseable date follows sets the expiration time to the instant the date
    parses to.  A response without usable expiration event still yields a
    record, with the expiration time absent, and [QueryRDAP] returns it as
    its result. *)
Theorem normalization_never_fails `{Runtime} (rdap : rdapDomain) (fqdn : string) :
  (exists d, whoisparser.Domain_ (convertRDAPToWhoisInfo rdap fqdn) = Some d)
  /\ (forall pre bad post,
        rdap_Events rdap = pre ++ bad :: post ->
        time_Parse GoTime.RFC3339 (EventDate bad) = None ->
        time_Parse "2006-01-02T15:04:05Z" (EventDate bad) = None ->
        convertRDAPToWhoisInfo rdap fqdn
        = convertRDAPToWhoisInfo (withEvents rdap (pre ++ post)) fqdn)
  /\ (forall pre e post instant,
        rdap_Events rdap = pre ++ e :: post ->
        EventAction e = "expiration" ->
        EventDate e = "2025-01-15T00:00:00Z" ->
        time_Parse GoTime.RFC3339 "2025-01-15T00:00:00Z" = Some instant ->
        lastEventTime ["expiration"] post = None ->
        whoisparser.ExpirationDateInTime <$>
          whoisparser.Domain_ (convertRDAPToWhoisInfo rdap fqdn)
        = Some (Some instant))
  /\ (lastEventTime ["expiration"] (rdap_Events rdap) = None ->
      (whoisparser.ExpirationDateInTime <$>
         whoisparser.Domain_ (convertRDAPToWhoisInfo rdap fqdn) = Some None)
      /\ forall log domainURL body,
           GoStrings.containsByte "." fqdn = true ->
           snd (QueryRDAP fqdn log) = log ++ [bootstrapURL; domainURL] ->
           http_respond (log ++ [bootstrapURL]) domainURL = Response 200 body None ->
           json_Unmarshal_rdapDomain body = Ok rdap ->
           fst (QueryRDAP fqdn log) = Ok (convertRDAPToWhoisInfo rdap fqdn)).
Proof.
  destruct (time_fields_last_contribution rdap fqdn) as (d & Hd & _ & Hexp & _).
  split; [exists d; exact Hd|]. split; [|split].
  - intros pre bad post Hev Hp1 Hp2.
    unfold convertRDAPToWhoisInfo. rewrite Hev. cbn [withEvents rdap_Events
      rdap_Handle rdap_Status rdap_Nameservers rdap_Entities].
    rewrite events_loop_skip; [reflexivity|].
    unfold parseEventDate. rewrite Hp1. exact Hp2.
  - intros pre e post instant Hev Hact Hdate Hparse Hpost.
    rewrite Hd. cbn. rewrite Hexp, Hev. unfold lastEventTime in *.
    rewrite omap_app, last_app. cbn [omap list_omap].
    assert (Hm : mappedTime ["expiration"] e = Some instant).
    { unfold mappedTime, parseEventDate. rewrite Hact, Hdate, Hparse.
      reflexivity. }
    rewrite Hm, last_cons, Hpost. reflexivity.
  - intros Hnone. split; [rewrite Hd; cbn; rewrite Hexp, Hnone; reflexivity|].
    intros log domainURL body Hdot Hlog Hresp Hdec.
    destruct (QueryRDAP_valid_request fqdn log Hdot) as [url Hq].
    rewrite Hq in Hlog |- *. cbn [fst snd] in Hlog |- *.
    apply app_inv_head in Hlog. injection Hlog as ->. rewrite Hresp.
    unfold handleResponse. cbn. rewrite Hdec. reflexivity.
Qed.

Lemma normalization_never_fails_witness :
  @convertRDAPToWhoisInfo offline
    (TestDouble.response [] [] [undatedEvent; expirationEvent]) "example.com"
  = @convertRDAPToWhoisInfo offline
      (TestDouble.response [] [] [expirationEvent]) "example.com"
  /\ whoisparser.ExpirationDateInTime <$>
       whoisparser.Domain_
         (@convertRDAPToWhoisInfo offline
            (TestDouble.response [] [] [undatedEvent; expirationEvent])
            "example.com")
     = Some (Some (GoTime.mkTime 1736899200000000000 0))
  /\ fst (@QueryRDAP offline "undated.com" [])
     = Ok (@convertRDAPToWhoisInfo offline (TestDouble.response [] [] [])
             "undated.com").
Proof.
  split; [|split].
  - apply (proj1 (proj2 (@normalization_never_fails offline
             (TestDouble.response [] [] [undatedEvent; expirationEvent])
             "example.com"))
             [] undatedEvent [expirationEvent]);
      vm_compute; reflexivity.
  - apply (proj1 (proj2 (proj2 (@normalization_never_fails offline
             (TestDouble.response [] [] [undatedEvent; expirationEvent])
             "example.com")))
             [undatedEvent] expirationEvent []);
      vm_compute; reflexivity.
  - apply (proj2 (proj2 (proj2 (proj2 (@normalization_never_fails offline
             (TestDouble.response [] [] []) "undated.com"))) eq_refl)
             [] "https://rdap.org/domain/undated.com" "body:undated.com");
      vm_compute; reflexivity.
Defined.

(** C7, as stated, fails: an expiration event dated 2025-01-15T00:00:00Z
    does not give the expiration time when an expiration event with a later
    place in the response has a date that parses; the later one does. *)
Lemma dated_expiration_overwritten :
  @parseEventDate offline "2025-01-15T00:00:00Z"
    = Some (GoTime.mkTime 1736899200000000000 0)
  /\ whoisparser.ExpirationDateInTime <$>
       whoisparser.Domain_
         (@convertRDAPToWhoisInfo offline
            (TestDouble.response [] []
               [TestDouble.event "expiration" "2025-01-15T00:00:00Z";
                TestDouble.event "expiration" "2026-03-01T00:00:00Z"])
            "example.com")
     = Some (@parseEventDate offline "2026-03-01T00:00:00Z")
  /\ whoisparser.ExpirationDateInTime <$>
       whoisparser.Domain_
         (@convertRDAPToWhoisInfo offline
            (TestDouble.response [] []
               [TestDouble.event "expiration" "2025-01-15T00:00:00Z";
                TestDouble.event "expiration" "2026-03-01T00:00:00Z"])
            "example.com")
     <> Some (Some (GoTime.mkTime 1736899200000000000 0)).
Proof.
  split; [vm_compute; reflexivity|].
  split; [vm_compute; reflexivity|].
  vm_compute. discriminate.
Qed.

(** ** The normalizer: registrar *)

Section RegistrarFacts.
Context `{Runtime}.

Lemma rolesLoop_isRegistrar (entity : rdapEntity) :
  rolesLoop (entity_Roles entity) = isRegistrar entity.
Proof.
  unfold isRegistrar. induction (entity_Roles entity) as [|role rest IH].
  - reflexivity.
  - cbn [rolesLoop]. destruct (String.eqb role "registrar") eqn:E.
    + apply String.eqb_eq in E. subst role.
      symmetry. apply bool_decide_eq_true. left.
    + rewrite IH. apply String.eqb_neq in E.
      apply bool_decide_ext. rewrite elem_of_cons. intuition congruence.
Qed.

Lemma itemText_nonempty (type : string) (item : Json.value) (text : string) :
  itemText type item = Some text -> String.eqb text EmptyString = false.
Proof.
  destruct item as [| | | |elems|]; try discriminate.
  destruct elems as [|[] [|a1 [|a2 [|[] more]]]]; try discriminate.
  cbn [itemText].
  destruct (String.eqb s type); cbn [andb]; [|discriminate].
  destruct (String.eqb s0 EmptyString) eqn:E; cbn [negb]; [discriminate|].
  intros [= <-]. exact E.
Qed.

(** One iteration of the card loop, by what the item offers. *)
Lemma vcardLoop_cons (item : Json.value) (rest : list Json.value)
    (c : whoisparser.Contact) :
  vcardLoop (item :: rest) c =
    match itemText "fn" item with
    | Some name =>
        whoisparser.mkContact (whoisparser.Contact_ID c) name
          (whoisparser.Contact_Organization c)
    | None =>
        match itemText "org" item with
        | Some org =>
            if String.eqb (whoisparser.Contact_Name c) EmptyString
            then vcardLoop rest
                   (whoisparser.mkContact (whoisparser.Contact_ID c) org org)
            else vcardLoop rest c
        | None => vcardLoop rest c
        end
    end.
Proof.
  destruct item as [| | | |elems|]; try reflexivity.
  destruct elems as [|a0 [|a1 [|a2 [|a3 more]]]];
    try reflexivity; try (destruct a0; reflexivity).
  destruct a0 as [| | |itemType| |]; try reflexivity.
  cbn [vcardLoop length Nat.leb lookup list_lookup nonEmptyStringAt3 itemText].
  destruct (String.eqb itemType "fn") eqn:Efn.
  - apply String.eqb_eq in Efn. subst itemType.
    destruct a3 as [| | |text| |]; try reflexivity.
    cbn [andb]. destruct (String.eqb text EmptyString); reflexivity.
  - destruct (String.eqb itemType "org") eqn:Eorg; cbn [andb].
    + destruct a3 as [| | |text| |];
        try (destruct (String.eqb (whoisparser.Contact_Name c) EmptyString);
             reflexivity).
      destruct (String.eqb text EmptyString);
        destruct (String.eqb (whoisparser.Contact_Name c) EmptyString);
        reflexivity.
    + destruct a3; reflexivity.
Qed.

Lemma firstText_cons (type : string) (item : Json.value) (rest : list Json.value) :
  firstText type (item :: rest)
  = match itemText type item with
    | Some text => Some text
    | None => firstText type rest
    end.
Proof.
  unfold firstText. cbn [omap list_omap].
  destruct (itemText type item); reflexivity.
Qed.

Lemma firstText_nonempty (type : string) (items : list Json.value) (text : string) :
  firstText type items = Some text -> String.eqb text EmptyString = false.
Proof.
  induction items as [|item rest IH]; [discriminate|].
  rewrite firstText_cons.
  destruct (itemText type item) as [t|] eqn:E; [|exact IH].
  intros [= <-]. exact (itemText_nonempty _ _ _ E).
Qed.

(** The card loop keeps the identifier and leaves as name: the first full
    name; failing that, the name it started with if there was one; failing
    that, the first organization. *)
Lemma vcardLoop_result (items : list Json.value) (c : whoisparser.Contact) :
  whoisparser.Contact_ID (vcardLoop items c) = whoisparser.Contact_ID c
  /\ whoisparser.Contact_Name (vcardLoop items c)
     = match firstText "fn" items with
       | Some name => name
       | None =>
           if String.eqb (whoisparser.Contact_Name c) EmptyString
           then default EmptyString (firstText "org" items)
           else whoisparser.Contact_Name c
       end.
Proof.
  revert c. induction items as [|item rest IH]; intros c.
  - cbn. split; [reflexivity|].
    destruct (String.eqb (whoisparser.Contact_Name c) EmptyString) eqn:E;
      [|reflexivity].
    apply String.eqb_eq in E. exact E.
  - rewrite vcardLoop_cons, !firstText_cons.
    destruct (itemText "fn" item) as [name|]; [split; reflexivity|].
    destruct (itemText "org" item) as [org|] eqn:Eorg; [|apply IH].
    destruct (String.eqb (whoisparser.Contact_Name c) EmptyString) eqn:Ec.
    + destruct (IH (whoisparser.mkContact (whoisparser.Contact_ID c) org org))
        as [Hid Hname].
      split; [exact Hid|]. rewrite Hname.
      cbn [whoisparser.Contact_Name default from_option].
      rewrite (itemText_nonempty _ _ _ Eorg).
      destruct (firstText "fn" rest); reflexivity.
    + destruct (IH c) as [Hid Hname]. split; [exact Hid|].
      rewrite Hname, Ec. reflexivity.
Qed.

Lemma registrarOf_result (entity : rdapEntity) :
  whoisparser.Contact_ID (registrarOf entity) = entity_Handle entity
  /\ whoisparser.Contact_Name (registrarOf entity) = displayName entity.
Proof.
  unfold registrarOf, displayName, vcardItemsOf.
  set (c0 := whoisparser.mkContact (entity_Handle entity) EmptyString EmptyString).
  assert (Hloop : forall items,
    whoisparser.Contact_ID (vcardLoop items c0) = entity_Handle entity
    /\ whoisparser.Contact_Name (vcardLoop items c0)
       = match firstText "fn" items with
         | Some name => name
         | None => default EmptyString (firstText "org" items)
         end).
  { intros items. destruct (vcardLoop_result items c0) as [Hid Hname].
    split; [exact Hid|]. rewrite Hname. reflexivity. }
  assert (Hfinish : forall c items,
    whoisparser.Contact_ID c = entity_Handle entity ->
    whoisparser.Contact_Name c
      = match firstText "fn" items with
        | Some name => name
        | None => default EmptyString (firstText "org" items)
        end ->
    let r := if String.eqb (whoisparser.Contact_Name c) EmptyString
                && negb (String.eqb (entity_Handle entity) EmptyString)
             then whoisparser.mkContact (whoisparser.Contact_ID c)
                    (entity_Handle entity) (whoisparser.Contact_Organization c)
             else c in
    whoisparser.Contact_ID r = entity_Handle entity
    /\ whoisparser.Contact_Name r
       = match firstText "fn" items with
         | Some name => name
         | None =>
             match firstText "org" items with
             | Some org => org
             | None => entity_Handle entity
             end
         end).
  { intros c items Hid Hname r. subst r. rewrite Hname.
    destruct (firstText "fn" items) as [name|] eqn:Efn.
    - rewrite (firstText_nonempty _ _ _ Efn). cbn [andb]. split; [exact Hid|].
      rewrite Hname. reflexivity.
    - destruct (firstText "org" items) as [org|] eqn:Eorg;
        cbn [default from_option id].
      + rewrite (firstText_nonempty _ _ _ Eorg). cbn [andb].
        split; [exact Hid|]. rewrite Hname. reflexivity.
      + cbn [String.eqb andb].
        destruct (String.eqb (entity_Handle entity) EmptyString) eqn:Eh;
          cbn [negb].
        * split; [exact Hid|]. rewrite Hname.
          apply String.eqb_eq in Eh. symmetry. exact Eh.
        * split; [exact Hid|reflexivity]. }
  destruct (entity_VCardArray entity) as [|v0 [|v1 more]].
  - apply (Hfinish c0 []); reflexivity.
  - apply (Hfinish c0 []); reflexivity.
  - destruct v1 as [| | | |vcardItems|]; try (apply (Hfinish c0 []); reflexivity).
    destruct (Hloop vcardItems) as [Hid Hname].
    apply (Hfinish _ vcardItems Hid Hname).
Qed.

Lemma entitiesLoop_find (entities : list rdapEntity) :
  entitiesLoop entities = registrarOf <$> List.find isRegistrar entities.
Proof.
  induction entities as [|entity rest IH]; [reflexivity|].
  cbn [entitiesLoop List.find]. rewrite rolesLoop_isRegistrar.
  destruct (isRegistrar entity); [reflexivity|exact IH].
Qed.

Lemma find_first (pre post : list rdapEntity) (entity : rdapEntity) :
  Forall (fun e => isRegistrar e = false) pre ->
  isRegistrar entity = true ->
  List.find isRegistrar (pre ++ entity :: post) = Some entity.
Proof.
  intros Hpre Hent. induction Hpre as [|e pre' He _ IH]; cbn [app List.find].
  - rewrite Hent. reflexivity.
  - rewrite He. exact IH.
Qed.

End RegistrarFacts.

(** C2: the registrar of the record comes from the first entity, in
    response order, that has the role registrar, and from no other: its
    identifier is that entity's handle and its name is the card's first full
    name, failing that the card's first organization, failing that the
    handle.  Entities after that one do not matter. *)
Theorem registrar_from_first_entity `{Runtime} (rdap : rdapDomain) (fqdn : string) :
  match List.find isRegistrar (rdap_Entities rdap) with
  | None => whoisparser.Registrar (convertRDAPToWhoisInfo rdap fqdn) = None
  | Some entity =>
      exists c : whoisparser.Contact,
        whoisparser.Registrar (convertRDAPToWhoisInfo rdap fqdn) = Some c
        /\ whoisparser.Contact_ID c = entity_Handle entity
        /\ whoisparser.Contact_Name c = displayName entity
  end
  /\ forall pre entity post,
       rdap_Entities rdap = pre ++ entity :: post ->
       Forall (fun e => isRegistrar e = false) pre ->
       isRegistrar entity = true ->
       List.find isRegistrar (rdap_Entities rdap) = Some entity
       /\ whoisparser.Registrar (convertRDAPToWhoisInfo rdap fqdn)
          = whoisparser.Registrar
              (convertRDAPToWhoisInfo (withEntities rdap (pre ++ [entity])) fqdn).
Proof.
  unfold convertRDAPToWhoisInfo. cbn [whoisparser.Registrar].
  split.
  - rewrite entitiesLoop_find.
    destruct (List.find isRegistrar (rdap_Entities rdap)) as [entity|];
      [|reflexivity].
    exists (registrarOf entity). split; [reflexivity|]. apply registrarOf_result.
  - intros pre entity post Hent Hpre Hreg.
    cbn [withEntities rdap_Entities]. rewrite !entitiesLoop_find, Hent.
    rewrite (find_first pre post entity Hpre Hreg).
    rewrite (find_first pre [] entity Hpre Hreg). split; reflexivity.
Qed.

Lemma registrar_from_first_entity_witness :
  whoisparser.Registrar
    (@convertRDAPToWhoisInfo offline
       (TestDouble.response [] [techEntity; firstRegistrar; secondRegistrar] [])
       "example.com")
  = whoisparser.Registrar
      (@convertRDAPToWhoisInfo offline
         (TestDouble.response [] [techEntity; firstRegistrar] []) "example.com").
Proof.
  apply (proj2 (@registrar_from_first_entity offline
           (TestDouble.response [] [techEntity; firstRegistrar; secondRegistrar] [])
           "example.com")
           [techEntity] firstRegistrar [secondRegistrar] eq_refl).
  - repeat constructor.
  - vm_compute. reflexivity.
Defined.

Example registrar_examples :
  whoisparser.Registrar
    (@convertRDAPToWhoisInfo offline
       (TestDouble.response [] [techEntity; firstRegistrar; secondRegistrar] [])
       "example.com")
  = Some (whoisparser.mkContact "REG-1" "First Registrar" "First Org")
  /\ whoisparser.Registrar
       (@convertRDAPToWhoisInfo offline
          (TestDouble.response []
             [TestDouble.entity "REG-3" ["registrar"]
                [Json.Str "vcard";
                 Json.Array [TestDouble.vcardItem "fn" EmptyString;
                             TestDouble.vcardItem "org" "Only Org"]]]
             []) "example.com")
     = Some (whoisparser.mkContact "REG-3" "Only Org" "Only Org")
  /\ whoisparser.Registrar
       (@convertRDAPToWhoisInfo offline
          (TestDouble.response [] [TestDouble.entity "REG-4" ["registrar"] []] [])
          "example.com")
     = Some (whoisparser.mkContact "REG-4" "REG-4" EmptyString)
  /\ whoisparser.Registrar
       (@convertRDAPToWhoisInfo offline (TestDouble.response [] [techEntity] [])
          "example.com")
     = None.
Proof. vm_compute. repeat split. Qed.

(** ** The monitored-domain list *)

Section DomainListFacts.
Import configuration.

Lemma indexOfFQDN_None (fqdn : string) (domains : list Domain) :
  indexOfFQDN fqdn domains = None <->
  Forall (fun d => FQDN d <> fqdn) domains.
Proof.
  induction domains as [|d rest IH]; cbn [indexOfFQDN].
  - split; [constructor|reflexivity].
  - destruct (String.eqb (FQDN d) fqdn) eqn:E.
    + apply String.eqb_eq in E. split; [discriminate|].
      intros Hall. inversion Hall; subst. contradiction.
    + apply String.eqb_neq in E. rewrite fmap_None, IH. split.
      * intros Hall. constructor; assumption.
      * intros Hall. inversion Hall; assumption.
Qed.

(** The loop stops at the first entry with the FQDN. *)
Lemma indexOfFQDN_first (fqdn : string) (pre post : list Domain) (x : Domain) :
  Forall (fun d => FQDN d <> fqdn) pre ->
  FQDN x = fqdn ->
  indexOfFQDN fqdn (pre ++ x :: post) = Some (length pre).
Proof.
  intros Hpre Hx. induction Hpre as [|d pre' Hd _ IH]; cbn [app indexOfFQDN length].
  - apply String.eqb_eq in Hx. rewrite Hx. reflexivity.
  - apply String.eqb_neq in Hd. rewrite Hd, IH. reflexivity.
Qed.

(** In a list without repeated FQDN, nothing before an entry shares its
    FQDN. *)
Lemma NoDup_before (pre post : list Domain) (x : Domain) :
  NoDup (FQDN <$> (pre ++ x :: post)) ->
  Forall (fun d => FQDN d <> FQDN x) pre.
Proof.
  rewrite fmap_app, fmap_cons, NoDup_app. intros (_ & Hdisj & _).
  apply Forall_forall. intros d Hd Heq.
  apply (Hdisj (FQDN d)).
  - apply list_elem_of_fmap_2. exact Hd.
  - rewrite Heq. left.
Qed.

Lemma replace_middle (pre post : list Domain) (x d : Domain) :
  <[length pre := d]> (pre ++ x :: post) = pre ++ d :: post.
Proof.
  replace (length pre) with (length pre + 0)%nat by lia.
  rewrite insert_app_r. reflexivity.
Qed.

Lemma remove_middle (pre post : list Domain) (x : Domain) :
  take (length pre) (pre ++ x :: post) ++ drop (S (length pre)) (pre ++ x :: post)
  = pre ++ post.
Proof.
  rewrite take_app_length.
  replace (pre ++ x :: post) with ((pre ++ [x]) ++ post)
    by (rewrite <- app_assoc; reflexivity).
  rewrite drop_app_length'; [reflexivity|].
  rewrite length_app. cbn. lia.
Qed.

Lemma AddDomain_replace (domain : Domain) (dc : DomainConfiguration) (disk : Disk)
    (pre post : list Domain) (x : Domain) :
  Domains (DomainFile_ dc) = pre ++ x :: post ->
  Forall (fun d => FQDN d <> FQDN domain) pre ->
  FQDN x = FQDN domain ->
  Domains (DomainFile_ (fst (AddDomain domain dc disk))) = pre ++ domain :: post.
Proof.
  intros Hl Hpre Hx. unfold AddDomain.
  rewrite Hl, (indexOfFQDN_first _ pre post x Hpre Hx).
  cbn. apply replace_middle.
Qed.

Lemma AddDomain_append (domain : Domain) (dc : DomainConfiguration) (disk : Disk) :
  Forall (fun d => FQDN d <> FQDN domain) (Domains (DomainFile_ dc)) ->
  Domains (DomainFile_ (fst (AddDomain domain dc disk)))
  = Domains (DomainFile_ dc) ++ [domain].
Proof.
  intros Hnone. unfold AddDomain.
  rewrite (proj2 (indexOfFQDN_None _ _) Hnone). reflexivity.
Qed.

Lemma RemoveDomain_first (domain : Domain) (dc : DomainConfiguration) (disk : Disk)
    (pre post : list Domain) (x : Domain) :
  Domains (DomainFile_ dc) = pre ++ x :: post ->
  Forall (fun d => FQDN d <> FQDN domain) pre ->
  FQDN x = FQDN domain ->
  Domains (DomainFile_ (fst (RemoveDomain domain dc disk))) = pre ++ post.
Proof.
  intros Hl Hpre Hx. unfold RemoveDomain.
  rewrite Hl, (indexOfFQDN_first _ pre post x Hpre Hx).
  cbn. apply remove_middle.
Qed.

Lemma RemoveDomain_absent (domain : Domain) (dc : DomainConfiguration) (disk : Disk) :
  Forall (fun d => FQDN d <> FQDN domain) (Domains (DomainFile_ dc)) ->
  fst (RemoveDomain domain dc disk) = dc.
Proof.
  intros Hnone. unfold RemoveDomain.
  rewrite (proj2 (indexOfFQDN_None _ _) Hnone). reflexivity.
Qed.

(** An entry of the list either has the FQDN of [domain], and then the list
    splits around its first such entry, or no entry has it. *)
Lemma split_at_first (fqdn : string) (domains : list Domain) :
  Forall (fun d => FQDN d <> fqdn) domains
  \/ exists pre x post,
       domains = pre ++ x :: post
       /\ Forall (fun d => FQDN d <> fqdn) pre /\ FQDN x = fqdn.
Proof.
  induction domains as [|d rest IH]; [left; constructor|].
  destruct (String.eqb (FQDN d) fqdn) eqn:E.
  - apply String.eqb_eq in E. right. exists [], d, rest.
    split; [reflexivity|]. split; [constructor|exact E].
  - apply String.eqb_neq in E. destruct IH as [Hnone|(pre & x & post & -> & Hpre & Hx)].
    + left. constructor; assumption.
    + right. exists (d :: pre), x, post.
      split; [reflexivity|]. split; [constructor; assumption|exact Hx].
Qed.

End DomainListFacts.

(** C8: on a list whose FQDNs are pairwise distinct, [AddDomain],
    [RemoveDomain] and [UpdateDomain] leave a list whose FQDNs are pairwise
    distinct.  [AddDomain] puts the domain in the place of the entry with its
    FQDN when there is one and at the end otherwise; [RemoveDomain] takes out
    the first entry with the FQDN and nothing else, and changes nothing when
    there is none; [UpdateDomain] is [AddDomain]. *)
Theorem domain_list_operations (domain : configuration.Domain)
    (dc : configuration.DomainConfiguration) (disk : configuration.Disk) :
  let domains := configuration.Domains (configuration.DomainFile_ dc) in
  let after op :=
    configuration.Domains (configuration.DomainFile_ (fst (op domain dc disk))) in
  let others :=
    Forall (fun d => configuration.FQDN d <> configuration.FQDN domain) in
  NoDup (configuration.FQDN <$> domains) ->
  (NoDup (configuration.FQDN <$> after configuration.AddDomain)
   /\ NoDup (configuration.FQDN <$> after configuration.RemoveDomain)
   /\ NoDup (configuration.FQDN <$> after configuration.UpdateDomain))
  /\ (forall pre x post,
        domains = pre ++ x :: post ->
        configuration.FQDN x = configuration.FQDN domain ->
        after configuration.AddDomain = pre ++ domain :: post
        /\ after configuration.RemoveDomain = pre ++ post)
  /\ (others domains ->
        after configuration.AddDomain = domains ++ [domain]
        /\ after configuration.RemoveDomain = domains)
  /\ (forall pre x post,
        domains = pre ++ x :: post ->
        others pre ->
        configuration.FQDN x = configuration.FQDN domain ->
        after configuration.RemoveDomain = pre ++ post)
  /\ configuration.UpdateDomain domain dc disk
     = configuration.AddDomain domain dc disk.
Proof.
  intros domains after others Hnodup.
  assert (Hmatch : forall pre x post,
            domains = pre ++ x :: post ->
            configuration.FQDN x = configuration.FQDN domain ->
            after configuration.AddDomain = pre ++ domain :: post
            /\ after configuration.RemoveDomain = pre ++ post).
  { intros pre x post Hl Hx.
    assert (Hpre : others pre).
    { unfold others. rewrite <- Hx. apply (NoDup_before pre post x).
      rewrite <- Hl. exact Hnodup. }
    split.
    - exact (AddDomain_replace domain dc disk pre post x Hl Hpre Hx).
    - exact (RemoveDomain_first domain dc disk pre post x Hl Hpre Hx). }
  assert (Hnone : others domains ->
            after configuration.AddDomain = domains ++ [domain]
            /\ after configuration.RemoveDomain = domains).
  { intros Hall. split.
    - exact (AddDomain_append domain dc disk Hall).
    - unfold after. rewrite (RemoveDomain_absent domain dc disk Hall). reflexivity. }
  assert (Hkeep : NoDup (configuration.FQDN <$> after configuration.AddDomain)
                  /\ NoDup (configuration.FQDN <$> after configuration.RemoveDomain)).
  { destruct (split_at_first (configuration.FQDN domain) domains)
      as [Hall|(pre & x & post & Hl & Hpre & Hx)].
    - destruct (Hnone Hall) as [-> ->]. split; [|exact Hnodup].
      rewrite fmap_app. apply NoDup_app. split; [exact Hnodup|].
      split; [|apply NoDup_singleton].
      intros name Hin Hname. apply list_elem_of_singleton in Hname. subst name.
      apply list_elem_of_fmap_1 in Hin. destruct Hin as (d & Hd & Hin).
      unfold others in Hall. rewrite Forall_forall in Hall.
      exact (Hall d Hin (eq_sym Hd)).
    - destruct (Hmatch pre x post Hl Hx) as [-> ->].
      rewrite Hl in Hnodup. split.
      + rewrite fmap_app, fmap_cons, <- Hx, <- fmap_cons, <- fmap_app.
        exact Hnodup.
      + rewrite fmap_app, fmap_cons in Hnodup. rewrite fmap_app.
        apply NoDup_app in Hnodup. destruct Hnodup as (Hp & Hdisj & Hq).
        apply NoDup_cons in Hq. destruct Hq as [_ Hq].
        apply NoDup_app. split; [exact Hp|]. split; [|exact Hq].
        intros name Hin Hin'. apply (Hdisj name Hin). right. exact Hin'. }
  destruct Hkeep as [Hadd Hrem].
  split; [split; [exact Hadd|split; [exact Hrem|exact Hadd]]|].
  split; [exact Hmatch|]. split; [exact Hnone|].
  split; [|reflexivity].
  intros pre x post Hl Hpre Hx.
  exact (RemoveDomain_first domain dc disk pre post x Hl Hpre Hx).
Qed.

Lemma domain_list_operations_witness :
  configuration.Domains
    (configuration.DomainFile_
       (fst (configuration.AddDomain
               (configuration.mkDomain "Renamed" "b.example" true true)
               sampleList ∅)))
  = [configuration.mkDomain "A" "a.example" true true;
     configuration.mkDomain "Renamed" "b.example" true true;
     configuration.mkDomain "C" "c.example" true false].
Proof.
  refine (proj1 (proj1 (proj2 (domain_list_operations
            (configuration.mkDomain "Renamed" "b.example" true true)
            sampleList ∅ _))
            [configuration.mkDomain "A" "a.example" true true]
            (configuration.mkDomain "B" "b.example" false true)
            [configuration.mkDomain "C" "c.example" true false]
            eq_refl eq_refl)).
  cbn. repeat (apply NoDup_cons; split;
    [rewrite ?not_elem_of_cons;
     repeat split; try discriminate; apply not_elem_of_nil|]).
  apply NoDup_nil_2.
Defined.

Example domain_list_examples :
  configuration.FQDN <$>
    configuration.Domains
      (configuration.DomainFile_
         (fst (configuration.AddDomain
                 (configuration.mkDomain "D" "d.example" true true) sampleList ∅)))
  = ["a.example"; "b.example"; "c.example"; "d.example"]
  /\ configuration.FQDN <$>
       configuration.Domains
         (configuration.DomainFile_
            (fst (configuration.RemoveDomain
                    (configuration.mkDomain "any" "b.example" true true)
                    sampleList ∅)))
     = ["a.example"; "c.example"]
  /\ fst (configuration.RemoveDomain
            (configuration.mkDomain "any" "z.example" true true) sampleList ∅)
     = sampleList.
Proof. vm_compute. repeat split. Qed.

(** ** Listing order *)

Section SortFacts.
Context {A : Type} (less : A -> A -> bool).

Lemma insert_Permutation (x : A) (l : list A) :
  Permutation (x :: l) (TestDouble.insert less x l).
Proof.
  induction l as [|y rest IH]; cbn [TestDouble.insert]; [reflexivity|].
  destruct (less x y); [reflexivity|].
  rewrite perm_swap. apply perm_skip. exact IH.
Qed.

Lemma insertionSort_loop_Permutation (l sorted : list A) :
  Permutation (sorted ++ l)
    (fold_left (fun sorted x => TestDouble.insert less x sorted) l sorted).
Proof.
  revert sorted. induction l as [|x rest IH]; intros sorted; cbn [fold_left].
  - rewrite app_nil_r. reflexivity.
  - rewrite <- IH, <- insert_Permutation.
    rewrite (Permutation_middle sorted rest x). reflexivity.
Qed.

Hypothesis less_strict : StrictWeak less.

Lemma less_asym (x y : A) : less x y = true -> less y x = false.
Proof.
  intros Hxy. destruct (less y x) eqn:Hyx; [|reflexivity].
  pose proof (sw_trans less less_strict x y x Hxy Hyx) as Hxx.
  rewrite (sw_irrefl less less_strict x) in Hxx. discriminate.
Qed.

(** For a strict weak order, not being less the other way round is
    transitive. *)
Lemma not_less_trans (x y z : A) :
  less y x = false -> less z y = false -> less z x = false.
Proof.
  intros Hyx Hzy. destruct (less z x) eqn:Hzx; [|reflexivity]. exfalso.
  destruct (less y z) eqn:Hyz.
  - pose proof (sw_trans less less_strict y z x Hyz Hzx) as Hc.
    rewrite Hyx in Hc. discriminate.
  - destruct (less x y) eqn:Hxy.
    + pose proof (sw_trans less less_strict z x y Hzx Hxy) as Hc.
      rewrite Hzy in Hc. discriminate.
    + destruct (sw_incomp less less_strict x y z Hxy Hyx Hyz Hzy) as [_ Hc].
      rewrite Hzx in Hc. discriminate.
Qed.

(** A list in which no element is less than the one just before it has no
    element less than any earlier one. *)
Lemma adjacent_all_pairs (l : list A) :
  (forall i x y, l !! i = Some x -> l !! S i = Some y -> less y x = false) ->
  forall (i j : nat) (x y : A),
    (i < j)%nat -> l !! i = Some x -> l !! j = Some y -> less y x = false.
Proof.
  intros Hadj i j x y Hij Hi. revert y.
  induction Hij as [|j' Hij' IH]; intros y Hj.
  - exact (Hadj i x y Hi Hj).
  - destruct (l !! j') as [m|] eqn:Hm.
    + apply (not_less_trans x m y); [exact (IH m eq_refl)|].
      exact (Hadj j' m y Hm Hj).
    + apply lookup_ge_None in Hm. apply lookup_lt_Some in Hj. lia.
Qed.

Lemma insert_ordered (x : A) (l : list A) :
  ordered less l -> ordered less (TestDouble.insert less x l).
Proof.
  unfold ordered. induction 1 as [|y rest Hrest IH Hy]; cbn [TestDouble.insert].
  - repeat constructor.
  - destruct (less x y) eqn:Hxy.
    + constructor; [constructor; assumption|].
      constructor; [exact (less_asym x y Hxy)|].
      rewrite Forall_forall in Hy |- *. intros z Hz.
      destruct (less z x) eqn:Hzx; [|reflexivity].
      pose proof (sw_trans less less_strict z x y Hzx Hxy) as Hzy.
      rewrite (Hy z Hz) in Hzy. discriminate.
    + constructor; [exact IH|].
      apply (Permutation_Forall (insert_Permutation x rest)).
      constructor; assumption.
Qed.

Lemma insertionSort_loop_ordered (l sorted : list A) :
  ordered less sorted ->
  ordered less (fold_left (fun sorted x => TestDouble.insert less x sorted) l sorted).
Proof.
  revert sorted. induction l as [|x rest IH]; intros sorted Hs; [exact Hs|].
  cbn [fold_left]. apply IH, insert_ordered, Hs.
Qed.

Lemma ordered_lookup (l : list A) :
  ordered less l ->
  forall (i j : nat) (x y : A),
    (i < j)%nat -> l !! i = Some x -> l !! j = Some y -> less y x = false.
Proof.
  unfold ordered. induction 1 as [|h rest Hrest IH Hh]; intros i j x y Hij Hi Hj.
  - discriminate.
  - destruct j as [|j']; [lia|]. cbn in Hj.
    destruct i as [|i']; cbn in Hi.
    + injection Hi as <-. rewrite Forall_forall in Hh.
      apply Hh. apply list_elem_of_lookup. eauto.
    + apply (IH i' j'); [lia|assumption|assumption].
Qed.

End SortFacts.

Lemma insertionSort_correct : SorterCorrect TestDouble.sorter.
Proof.
  intros A less l Hless. cbn [sort_Slice TestDouble.sorter].
  unfold TestDouble.insertionSort. split.
  - exact (insertionSort_loop_Permutation less l []).
  - intros i x y Hx Hy.
    apply (ordered_lookup less _
             (insertionSort_loop_ordered less Hless l [] (SSorted_nil _))
             i (S i) x y); [lia|exact Hx|exact Hy].
Qed.

Section ListingFacts.
Import handlers.

(** By expiration date the comparison is a strict weak order: the known
    dates in their order, then all the entries without one. *)
Lemma less_expiration_strict : StrictWeak (less "expiration_date").
Proof.
  assert (Hless : forall a b,
    less "expiration_date" a b =
      match expirationOf (whois a), expirationOf (whois b) with
      | None, _ => false
      | Some _, None => true
      | Some ti, Some tj => GoTime.Before ti tj
      end).
  { intros a b. unfold less. cbn [String.eqb Ascii.eqb Bool.eqb andb].
    destruct (expirationOf (whois a)); reflexivity. }
  split.
  - intros x. rewrite Hless.
    destruct (expirationOf (whois x)); [apply Z.ltb_irrefl|reflexivity].
  - intros x y z. rewrite !Hless. unfold GoTime.Before.
    destruct (expirationOf (whois x)), (expirationOf (whois y)),
      (expirationOf (whois z)); try discriminate; try reflexivity.
    rewrite !Z.ltb_lt. lia.
  - intros x y z. rewrite !Hless. unfold GoTime.Before.
    destruct (expirationOf (whois x)), (expirationOf (whois y)),
      (expirationOf (whois z)); try discriminate; try (split; reflexivity).
    rewrite !Z.ltb_ge. lia.
Qed.

Lemma attach_loop (ws : ServicesWhois) (domainList : list configuration.Domain)
    (acc : list domainWithWhois) :
  fold_left (fun acc d => acc ++ [attachWhois ws d]) domainList acc
  = acc ++ map (attachWhois ws) domainList.
Proof.
  revert acc. induction domainList as [|d rest IH]; intros acc; cbn [fold_left map].
  - rewrite app_nil_r. reflexivity.
  - rewrite IH, <- app_assoc. reflexivity.
Qed.

Lemma attachWhois_domain (ws : ServicesWhois) (d : configuration.Domain) :
  domain (attachWhois ws d) = d.
Proof. unfold attachWhois. destruct (GetWhois ws _); reflexivity. Qed.

Lemma attachWhois_expiration (ws : ServicesWhois) (d : configuration.Domain) :
  expirationOf (whois (attachWhois ws d)) = cachedExpiration ws d.
Proof.
  unfold attachWhois, cachedExpiration.
  destruct (GetWhois ws _); reflexivity.
Qed.

Lemma sortDomainsWithWhois_unfold `{Sorter} (ws : ServicesWhois)
    (domainList : list configuration.Domain) (sortBy : string) :
  sortDomainsWithWhois ws domainList sortBy
  = map domain (sort_Slice _ (less sortBy) (map (attachWhois ws) domainList)).
Proof. unfold sortDomainsWithWhois. rewrite attach_loop. reflexivity. Qed.

End ListingFacts.

(** C10: with a [sort.Slice] that keeps its promise, the list sorted by
    expiration date is a rearrangement of the input in which no domain
    without a cached expiration time comes before one that has it, and the
    domains that have one come soonest first. *)
Theorem sorted_by_expiration_date (sorter : Sorter) (ws : handlers.ServicesWhois)
    (domainList : list configuration.Domain) :
  SorterCorrect sorter ->
  let sorted := handlers.sortDomainsWithWhois ws domainList "expiration_date" in
  Permutation domainList sorted
  /\ forall (i j : nat) (di dj : configuration.Domain),
       (i < j)%nat ->
       sorted !! i = Some di ->
       sorted !! j = Some dj ->
       (is_Some (handlers.cachedExpiration ws dj) ->
        is_Some (handlers.cachedExpiration ws di))
       /\ forall ti tj,
            handlers.cachedExpiration ws di = Some ti ->
            handlers.cachedExpiration ws dj = Some tj ->
            (GoTime.unixNano ti <= GoTime.unixNano tj)%Z.
Proof.
  intros Hsort sorted. subst sorted. rewrite sortDomainsWithWhois_unfold.
  destruct (Hsort _ (handlers.less "expiration_date")
              (map (handlers.attachWhois ws) domainList) less_expiration_strict)
    as [Hperm Hadj].
  pose proof (adjacent_all_pairs _ less_expiration_strict _ Hadj) as Hord.
  clear Hadj. set (out := sort_Slice _ _ _) in *.
  split.
  - rewrite <- Hperm, map_map.
    erewrite map_ext; [rewrite map_id; reflexivity|].
    intros d. apply attachWhois_domain.
  - assert (Hshape : forall k x, out !! k = Some x ->
                x = handlers.attachWhois ws (handlers.domain x)).
    { intros k x Hk.
      assert (Hin : In x (map (handlers.attachWhois ws) domainList)).
      { apply (Permutation_in x (Permutation_sym Hperm)).
        apply list_elem_of_In, list_elem_of_lookup. eauto. }
      apply in_map_iff in Hin. destruct Hin as (d & <- & _).
      rewrite attachWhois_domain. reflexivity. }
    intros i j di dj Hij Hi Hj.
    change (map handlers.domain out) with (handlers.domain <$> out) in Hi, Hj.
    rewrite list_lookup_fmap in Hi, Hj.
    destruct (out !! i) as [xi|] eqn:Exi; [|discriminate].
    destruct (out !! j) as [xj|] eqn:Exj; [|discriminate].
    cbn in Hi, Hj. injection Hi as <-. injection Hj as <-.
    pose proof (Hord i j xi xj Hij Exi Exj) as Hless.
    rewrite (Hshape i xi Exi), (Hshape j xj Exj) in Hless.
    unfold handlers.less in Hless.
    cbn [String.eqb Ascii.eqb Bool.eqb andb] in Hless.
    rewrite !attachWhois_expiration in Hless.
    destruct (handlers.cachedExpiration ws (handlers.domain xj)) as [tj|].
    + destruct (handlers.cachedExpiration ws (handlers.domain xi)) as [ti|];
        [|discriminate].
      split; [intros _; eexists; reflexivity|].
      intros ti' tj' [= <-] [= <-]. unfold GoTime.Before in Hless.
      apply Z.ltb_ge in Hless. exact Hless.
    + split; [intros [t Ht]; discriminate|]. intros ti tj _ Htj. discriminate.
Qed.

Lemma sorted_by_expiration_date_witness :
  Permutation sampleDomains
    (@handlers.sortDomainsWithWhois TestDouble.sorter sampleCache sampleDomains
       "expiration_date")
  /\ forall (i j : nat) (di dj : configuration.Domain),
       (i < j)%nat ->
       @handlers.sortDomainsWithWhois TestDouble.sorter sampleCache sampleDomains
         "expiration_date" !! i = Some di ->
       @handlers.sortDomainsWithWhois TestDouble.sorter sampleCache sampleDomains
         "expiration_date" !! j = Some dj ->
       (is_Some (handlers.cachedExpiration sampleCache dj) ->
        is_Some (handlers.cachedExpiration sampleCache di))
       /\ forall ti tj,
            handlers.cachedExpiration sampleCache di = Some ti ->
            handlers.cachedExpiration sampleCache dj = Some tj ->
            (GoTime.unixNano ti <= GoTime.unixNano tj)%Z.
Proof.
  exact (sorted_by_expiration_date TestDouble.sorter sampleCache sampleDomains
           insertionSort_correct).
Defined.

Example sorted_by_expiration_date_example :
  configuration.FQDN <$>
    @handlers.sortDomainsWithWhois TestDouble.sorter sampleCache sampleDomains
      "expiration_date"
  = ["soon.example"; "late.example"; "uncached.example"; "undated.example"].
Proof. vm_compute. reflexivity. Qed.

(** * Further properties *)

(** ** Bootstrap discovery *)

Section DiscoveryFacts.
Context `{Runtime}.

Lemma scanTLDs_listsTLD (tlds : list Json.value) (servers : Json.value)
    (tld : string) :
  scanTLDs tlds servers tld =
    match servers with
    | Json.Array (Json.Str serverURL :: _) =>
        if listsTLD tld tlds
        then Some (GoStrings.TrimSuffix serverURL "/") else None
    | _ => None
    end.
Proof.
  induction tlds as [|t rest IH]; cbn [scanTLDs listsTLD existsb].
  - destruct servers as [| | | |[|[] more]|]; reflexivity.
  - fold (listsTLD tld rest).
    destruct t as [| | |tStr| |]; cbn [orb]; try exact IH.
    destruct (String.eqb tStr tld); cbn [orb]; [|exact IH].
    rewrite IH. destruct servers as [| | | |[|[] more]|]; reflexivity.
Qed.

Lemma scanServices_first (services : list (list Json.value)) (tld : string) :
  scanServices services tld = head (omap (serviceServer tld) services).
Proof.
  induction services as [|service rest IH]; [reflexivity|].
  cbn [scanServices omap list_omap].
  destruct service as [|s0 [|servers more]].
  - exact IH.
  - destruct s0; exact IH.
  - destruct s0 as [| | | |tlds|]; try exact IH.
    rewrite scanTLDs_listsTLD. cbn [serviceServer].
    destruct servers as [| | | |[|[] more']|]; try exact IH.
    destruct (listsTLD tld tlds); [reflexivity|exact IH].
Qed.

End DiscoveryFacts.

(** X1: bootstrap discovery succeeds with a server exactly when the bootstrap
    request is answered 200 with a readable body that decodes, and some
    service entry offers a server for the label; the server is the one of
    the first such entry in document order.  Labels are compared as they
    are, letter case included. *)
Theorem bootstrap_discovery_result `{Runtime} (tld : string) (log : list string)
    (url : string) :
  fst (getRDAPServerFromBootstrap tld log) = Ok url <->
  exists body services,
    http_respond log bootstrapURL = Response 200 body None
    /\ json_Unmarshal_bootstrap body = Ok services
    /\ head (omap (serviceServer tld) services) = Some url.
Proof.
  unfold getRDAPServerFromBootstrap, mbind, net_bind, http_Get, mret, net_ret.
  cbn [fst]. split.
  - destruct (http_respond log bootstrapURL) as [err|status body readErr];
      [discriminate|].
    destruct (status =? 200)%Z eqn:Es; cbn [negb]; [|discriminate].
    apply Z.eqb_eq in Es. subst status.
    destruct readErr as [err|]; [discriminate|].
    destruct (json_Unmarshal_bootstrap body) as [services|err] eqn:Ed;
      [|discriminate].
    rewrite scanServices_first.
    destruct (head (omap (serviceServer tld) services)) as [u|] eqn:Eh;
      [|discriminate].
    intros [= <-]. exists body, services. repeat split; assumption.
  - intros (body & services & -> & Hd & Hh). cbn. rewrite Hd.
    rewrite scanServices_first, Hh. reflexivity.
Qed.

Example bootstrap_discovery_examples :
  fst (@getRDAPServerFromBootstrap online "com" [])
  = Ok "https://rdap.registry.example/v1"
  /\ fst (@getRDAPServerFromBootstrap online "COM" [])
     = Err "no RDAP server found for TLD COM"
  /\ fst (@getRDAPServerFromBootstrap offline "com" [])
     = Err "bootstrap returned status 503".
Proof. vm_compute. repeat split. Qed.

(** X2: for a name with a separator, when discovery yields a server the
    record request goes to that server followed by /domain/ and the name as
    given; the fallback table plays no part, and the result is the one that
    request leads to. *)
Theorem QueryRDAP_uses_discovered_server `{Runtime} (fqdn : string)
    (log : list string) (url : string) :
  GoStrings.containsByte "." fqdn = true ->
  fst (getRDAPServerFromBootstrap
         (List.last (GoStrings.Split fqdn ".") EmptyString) log) = Ok url ->
  QueryRDAP fqdn log =
    (handleResponse fqdn
       (http_respond (log ++ [bootstrapURL]) (url +:+ "/domain/" +:+ fqdn)),
     log ++ [bootstrapURL; url +:+ "/domain/" +:+ fqdn]).
Proof.
  intros Hdot Hok. rewrite (QueryRDAP_valid fqdn log Hdot). cbv zeta.
  rewrite Hok. reflexivity.
Qed.

Lemma QueryRDAP_uses_discovered_server_witness :
  @QueryRDAP online "example.com" []
  = (@handleResponse online "example.com"
       (Response 200 "body:example.com" None),
     ["https://data.iana.org/rdap/dns.json";
      "https://rdap.registry.example/v1/domain/example.com"]).
Proof.
  exact (@QueryRDAP_uses_discovered_server online "example.com" []
           "https://rdap.registry.example/v1" eq_refl eq_refl).
Defined.

(** X3: for a name with a separator, [QueryRDAP] returns a record exactly
    when its record request is answered with status 200 and a readable body
    that decodes; the record is the normalization of the decoded response.
    Any other status, 2xx ones included, gives an error. *)
Theorem QueryRDAP_success `{Runtime} (fqdn : string) (log : list string) :
  GoStrings.containsByte "." fqdn = true ->
  exists domainURL : string,
    snd (QueryRDAP fqdn log) = log ++ [bootstrapURL; domainURL]
    /\ forall info : whoisparser.WhoisInfo,
         fst (QueryRDAP fqdn log) = Ok info <->
         exists body rdap,
           http_respond (log ++ [bootstrapURL]) domainURL = Response 200 body None
           /\ json_Unmarshal_rdapDomain body = Ok rdap
           /\ info = convertRDAPToWhoisInfo rdap fqdn.
Proof.
  intros Hdot. destruct (QueryRDAP_valid_request fqdn log Hdot) as [url Hq].
  exists url. rewrite Hq. cbn [fst snd]. split; [reflexivity|].
  intros info. unfold handleResponse. split.
  - destruct (http_respond (log ++ [bootstrapURL]) url)
      as [err|status body readErr]; [discriminate|].
    destruct (status =? 200)%Z eqn:Es; cbn [negb].
    + apply Z.eqb_eq in Es. subst status.
      destruct readErr as [err|]; [discriminate|].
      destruct (json_Unmarshal_rdapDomain body) as [rdap|err] eqn:Ed;
        [|discriminate].
      intros [= <-]. exists body, rdap. repeat split. exact Ed.
    + destruct (json_Unmarshal_rdapError body) as [rdapErr|err];
        [|discriminate].
      destruct (negb (String.eqb (Title rdapErr) EmptyString)); discriminate.
  - intros (body & rdap & -> & Hd & ->). cbn. rewrite Hd. reflexivity.
Qed.

Lemma QueryRDAP_success_witness :
  fst (@QueryRDAP offline "undated.com" [])
  = Ok (@convertRDAPToWhoisInfo offline (TestDouble.response [] [] [])
          "undated.com").
Proof.
  destruct (@QueryRDAP_success offline "undated.com" [] eq_refl)
    as (url & Hlog & Hres).
  vm_compute in Hlog. injection Hlog as <-.
  apply Hres. exists "body:undated.com", (TestDouble.response [] [] []).
  repeat split.
Defined.

(** X4: [QueryRDAP] calls [client.Get] not at all for a name without
    separator and twice for any other name, first with the bootstrap URL and
    then with one record URL, whatever the calls return: no call is
    repeated, and no third one is made.  (The calls are counted, not the
    requests the HTTP client makes within a call when it follows a
    redirect.) *)
Theorem QueryRDAP_requests `{Runtime} (fqdn : string) (log : list string) :
  if GoStrings.containsByte "." fqdn
  then exists domainURL,
         snd (QueryRDAP fqdn log) = log ++ [bootstrapURL; domainURL]
  else snd (QueryRDAP fqdn log) = log.
Proof.
  destruct (GoStrings.containsByte "." fqdn) eqn:Hdot.
  - destruct (QueryRDAP_valid_request fqdn log Hdot) as [url Hq].
    exists url. rewrite Hq. reflexivity.
  - rewrite (QueryRDAP_invalid fqdn log Hdot). reflexivity.
Qed.

(** ** The normalizer: the other fields *)

Section RecordFacts.
Context `{Runtime}.

(** The fields of the record the event loop never writes. *)
Lemma applyEvent_identity (d : whoisparser.Domain) (e : rdapEvent) :
  whoisparser.ID (applyEvent d e) = whoisparser.ID d
  /\ whoisparser.DomainName (applyEvent d e) = whoisparser.DomainName d
  /\ whoisparser.Status (applyEvent d e) = whoisparser.Status d.
Proof.
  unfold applyEvent.
  repeat match goal with
         | |- context [if ?b then _ else _] => destruct b
         | |- context [match ?o with Some _ => _ | None => _ end] => destruct o
         end; repeat split.
Qed.

Lemma events_loop_identity (events : list rdapEvent) (d : whoisparser.Domain) :
  whoisparser.ID (fold_left applyEvent events d) = whoisparser.ID d
  /\ whoisparser.DomainName (fold_left applyEvent events d)
     = whoisparser.DomainName d
  /\ whoisparser.Status (fold_left applyEvent events d) = whoisparser.Status d.
Proof.
  revert d. induction events as [|e es IH]; intros d; [repeat split|].
  cbn [fold_left]. destruct (IH (applyEvent d e)) as (-> & -> & ->).
  apply applyEvent_identity.
Qed.

Lemma applyEvent_datesAgree (d : whoisparser.Domain) (e : rdapEvent) :
  datesAgree d -> datesAgree (applyEvent d e).
Proof.
  unfold datesAgree, applyEvent. intros (Hc & Hu & He).
  repeat match goal with
         | |- context [if ?b then _ else _] => destruct b
         | |- context [match ?o with Some _ => _ | None => _ end] => destruct o
         end; repeat split; assumption.
Qed.

Lemma events_loop_datesAgree (events : list rdapEvent) (d : whoisparser.Domain) :
  datesAgree d -> datesAgree (fold_left applyEvent events d).
Proof.
  revert d. induction events as [|e es IH]; intros d Hd; [exact Hd|].
  cbn [fold_left]. apply IH, applyEvent_datesAgree, Hd.
Qed.

Lemma applyEvent_not_counting (d : whoisparser.Domain) (e : rdapEvent) :
  eventCounts e = false -> applyEvent d e = d.
Proof.
  unfold eventCounts, mappedTime, applyEvent. cbn [existsb].
  intros Hc. apply bool_decide_eq_false in Hc.
  destruct (String.eqb (EventDate e) EmptyString); [reflexivity|].
  destruct (parseEventDate (EventDate e)) as [t|]; [|reflexivity].
  destruct (String.eqb (EventAction e) "registration");
    [exfalso; apply Hc; cbn; eauto|].
  destruct (String.eqb (EventAction e) "expiration");
    [exfalso; apply Hc; cbn; eauto|].
  destruct (String.eqb (EventAction e) "last changed");
    [exfalso; apply Hc; cbn; eauto|].
  destruct (String.eqb (EventAction e) "last update");
    [exfalso; apply Hc; cbn; eauto|].
  reflexivity.
Qed.

Lemma events_loop_filter (events : list rdapEvent) (d : whoisparser.Domain) :
  fold_left applyEvent (List.filter eventCounts events) d
  = fold_left applyEvent events d.
Proof.
  revert d. induction events as [|e es IH]; intros d; [reflexivity|].
  cbn [List.filter fold_left]. destruct (eventCounts e) eqn:Ee.
  - cbn [fold_left]. apply IH.
  - rewrite (applyEvent_not_counting d e Ee). apply IH.
Qed.

End RecordFacts.

(** X5: the record carries the handle of the response as its identifier, the
    queried name as its domain name (not the name the response gives), and
    the status values of the response as they come, whatever the events,
    entities and nameservers are. *)
Theorem record_identity_fields `{Runtime} (rdap : rdapDomain) (fqdn : string) :
  exists d : whoisparser.Domain,
    whoisparser.Domain_ (convertRDAPToWhoisInfo rdap fqdn) = Some d
    /\ whoisparser.ID d = rdap_Handle rdap
    /\ whoisparser.DomainName d = fqdn
    /\ whoisparser.Status d = rdap_Status rdap.
Proof.
  eexists. split; [reflexivity|].
  exact (events_loop_identity (rdap_Events rdap) _).
Qed.

(** X6: in the record, each date text is the RFC3339 rendering of the time
    in the time field beside it, and is empty when that time is absent. *)
Theorem record_dates_agree `{Runtime} (rdap : rdapDomain) (fqdn : string) :
  exists d : whoisparser.Domain,
    whoisparser.Domain_ (convertRDAPToWhoisInfo rdap fqdn) = Some d
    /\ datesAgree d.
Proof.
  eexists. split; [reflexivity|].
  apply events_loop_datesAgree. repeat split.
Qed.

Example record_dates_example :
  whoisparser.ExpirationDate <$>
    whoisparser.Domain_
      (@convertRDAPToWhoisInfo offline
         (TestDouble.response [] [] [undatedEvent; expirationEvent]) "example.com")
  = Some "2025-01-15T00:00:00Z"
  /\ whoisparser.CreatedDate <$>
       whoisparser.Domain_
         (@convertRDAPToWhoisInfo offline
            (TestDouble.response [] [] [undatedEvent; expirationEvent])
            "example.com")
     = Some EmptyString.
Proof. vm_compute. split; reflexivity. Qed.

(** X7: only the events that count shape the record: one with another
    action than registration, expiration, last changed and last update, with
    an empty date, or with a date that does not parse can be dropped from the
    response without changing the result. *)
Theorem irrelevant_events_ignored `{Runtime} (rdap : rdapDomain) (fqdn : string) :
  convertRDAPToWhoisInfo (withEvents rdap (List.filter eventCounts (rdap_Events rdap)))
    fqdn
  = convertRDAPToWhoisInfo rdap fqdn.
Proof.
  unfold convertRDAPToWhoisInfo.
  cbn [withEvents rdap_Events rdap_Handle rdap_Status rdap_Nameservers
       rdap_Entities].
  rewrite events_loop_filter. reflexivity.
Qed.

Example irrelevant_events_example :
  List.filter (@eventCounts offline)
    [TestDouble.event "transfer" "2024-05-01T00:00:00Z";
     undatedEvent;
     TestDouble.event "expiration" EmptyString;
     expirationEvent]
  = [expirationEvent].
Proof. vm_compute. reflexivity. Qed.

Section OrganizationFacts.
Context `{Runtime}.

Lemma vcardLoop_organization (items : list Json.value) (c : whoisparser.Contact) :
  whoisparser.Contact_Organization (vcardLoop items c)
  = if String.eqb (whoisparser.Contact_Name c) EmptyString
    then default (whoisparser.Contact_Organization c)
           (firstText "org" (beforeFullName items))
    else whoisparser.Contact_Organization c.
Proof.
  revert c. induction items as [|item rest IH]; intros c.
  - cbn. destruct (String.eqb _ _); reflexivity.
  - rewrite vcardLoop_cons. cbn [beforeFullName].
    destruct (itemText "fn" item) as [name|].
    + cbn. destruct (String.eqb _ _); reflexivity.
    + rewrite firstText_cons.
      destruct (itemText "org" item) as [org|] eqn:Eorg; [|apply IH].
      destruct (String.eqb (whoisparser.Contact_Name c) EmptyString) eqn:Ec.
      * rewrite IH. cbn [whoisparser.Contact_Name whoisparser.Contact_Organization].
        rewrite (itemText_nonempty _ _ _ Eorg). reflexivity.
      * rewrite IH, Ec. reflexivity.
Qed.

Lemma registrarOf_organization (entity : rdapEntity) :
  whoisparser.Contact_Organization (registrarOf entity)
  = default EmptyString (firstText "org" (beforeFullName (vcardItemsOf entity))).
Proof.
  unfold registrarOf, vcardItemsOf.
  set (c0 := whoisparser.mkContact (entity_Handle entity) EmptyString EmptyString).
  assert (Hkeep : forall c : whoisparser.Contact,
    whoisparser.Contact_Organization
      (if String.eqb (whoisparser.Contact_Name c) EmptyString
          && negb (String.eqb (entity_Handle entity) EmptyString)
       then whoisparser.mkContact (whoisparser.Contact_ID c)
              (entity_Handle entity) (whoisparser.Contact_Organization c)
       else c)
    = whoisparser.Contact_Organization c).
  { intros c. destruct (_ && _); reflexivity. }
  rewrite Hkeep.
  destruct (entity_VCardArray entity) as [|v0 [|v1 more]]; try reflexivity.
  destruct v1 as [| | | |vcardItems|]; try reflexivity.
  rewrite vcardLoop_organization. reflexivity.
Qed.

End OrganizationFacts.

(** X8: the organization of the registrar contact is the first organization
    text among the card items that come before the first full name, and is
    empty when there is none: an organization item that follows the full
    name is not recorded. *)
Theorem registrar_organization `{Runtime} (rdap : rdapDomain) (fqdn : string)
    (entity : rdapEntity) :
  List.find isRegistrar (rdap_Entities rdap) = Some entity ->
  exists c : whoisparser.Contact,
    whoisparser.Registrar (convertRDAPToWhoisInfo rdap fqdn) = Some c
    /\ whoisparser.Contact_Organization c
       = default EmptyString
           (firstText "org" (beforeFullName (vcardItemsOf entity))).
Proof.
  intros Hfind. unfold convertRDAPToWhoisInfo. cbn [whoisparser.Registrar].
  rewrite entitiesLoop_find, Hfind. exists (registrarOf entity).
  split; [reflexivity|]. apply registrarOf_organization.
Qed.

Lemma registrar_organization_witness :
  exists c : whoisparser.Contact,
    whoisparser.Registrar
      (@convertRDAPToWhoisInfo offline
         (TestDouble.response [] [techEntity; firstRegistrar] []) "example.com")
    = Some c
    /\ whoisparser.Contact_Organization c = "First Org".
Proof.
  exact (@registrar_organization offline
           (TestDouble.response [] [techEntity; firstRegistrar] []) "example.com"
           firstRegistrar eq_refl).
Defined.

Example organization_after_full_name :
  whoisparser.Registrar
    (@convertRDAPToWhoisInfo offline
       (TestDouble.response []
          [TestDouble.entity "REG-5" ["registrar"]
             [Json.Str "vcard";
              Json.Array [TestDouble.vcardItem "fn" "Registrar Five";
                          TestDouble.vcardItem "org" "Org Five"]]]
          []) "example.com")
  = Some (whoisparser.mkContact "REG-5" "Registrar Five" EmptyString).
Proof. vm_compute. reflexivity. Qed.

(** ** The monitored-domain list: composition *)

Section DomainListComposition.
Import configuration.

Lemma filter_fqdn_app (fqdn : string) (l1 l2 : list Domain) :
  countFQDN fqdn (l1 ++ l2) = (countFQDN fqdn l1 + countFQDN fqdn l2)%nat.
Proof. unfold countFQDN. rewrite List.filter_app, length_app. reflexivity. Qed.

Lemma countFQDN_none (fqdn : string) (l : list Domain) :
  Forall (fun d => FQDN d <> fqdn) l -> countFQDN fqdn l = 0%nat.
Proof.
  unfold countFQDN. induction 1 as [|d rest Hd _ IH]; [reflexivity|].
  cbn [List.filter]. apply String.eqb_neq in Hd. rewrite Hd. exact IH.
Qed.

Lemma countFQDN_cons (fqdn : string) (d : Domain) (l : list Domain) :
  countFQDN fqdn (d :: l)
  = ((if String.eqb (FQDN d) fqdn then 1 else 0) + countFQDN fqdn l)%nat.
Proof.
  unfold countFQDN. cbn [List.filter].
  destruct (String.eqb (FQDN d) fqdn); reflexivity.
Qed.

Lemma findDomain_none (fqdn : string) (l : list Domain) :
  Forall (fun d => FQDN d <> fqdn) l -> findDomain fqdn l = None.
Proof.
  unfold findDomain. induction 1 as [|d rest Hd _ IH]; [reflexivity|].
  cbn [List.find]. apply String.eqb_neq in Hd. rewrite Hd. exact IH.
Qed.

Lemma findDomain_app (fqdn : string) (l1 l2 : list Domain) :
  findDomain fqdn (l1 ++ l2)
  = match findDomain fqdn l1 with
    | Some d => Some d
    | None => findDomain fqdn l2
    end.
Proof.
  unfold findDomain. induction l1 as [|d rest IH]; [reflexivity|].
  cbn [app List.find]. destruct (String.eqb (FQDN d) fqdn); [reflexivity|exact IH].
Qed.

Lemma findDomain_cons (fqdn : string) (d : Domain) (l : list Domain) :
  findDomain fqdn (d :: l)
  = if String.eqb (FQDN d) fqdn then Some d else findDomain fqdn l.
Proof. reflexivity. Qed.

(** The list [AddDomain] leaves, by cases on the list it finds. *)
Lemma AddDomain_cases (domain : Domain) (dc : DomainConfiguration) (disk : Disk) :
  (Forall (fun d => FQDN d <> FQDN domain) (Domains (DomainFile_ dc))
   /\ Domains (DomainFile_ (fst (AddDomain domain dc disk)))
      = Domains (DomainFile_ dc) ++ [domain])
  \/ exists pre x post,
       Domains (DomainFile_ dc) = pre ++ x :: post
       /\ Forall (fun d => FQDN d <> FQDN domain) pre
       /\ FQDN x = FQDN domain
       /\ Domains (DomainFile_ (fst (AddDomain domain dc disk)))
          = pre ++ domain :: post.
Proof.
  destruct (split_at_first (FQDN domain) (Domains (DomainFile_ dc)))
    as [Hall|(pre & x & post & Hl & Hpre & Hx)].
  - left. split; [exact Hall|]. exact (AddDomain_append domain dc disk Hall).
  - right. exists pre, x, post. repeat split; try assumption.
    exact (AddDomain_replace domain dc disk pre post x Hl Hpre Hx).
Qed.

(** The list [RemoveDomain] leaves, by cases on the list it finds. *)
Lemma RemoveDomain_cases (domain : Domain) (dc : DomainConfiguration) (disk : Disk) :
  (Forall (fun d => FQDN d <> FQDN domain) (Domains (DomainFile_ dc))
   /\ Domains (DomainFile_ (fst (RemoveDomain domain dc disk)))
      = Domains (DomainFile_ dc))
  \/ exists pre x post,
       Domains (DomainFile_ dc) = pre ++ x :: post
       /\ Forall (fun d => FQDN d <> FQDN domain) pre
       /\ FQDN x = FQDN domain
       /\ Domains (DomainFile_ (fst (RemoveDomain domain dc disk))) = pre ++ post.
Proof.
  destruct (split_at_first (FQDN domain) (Domains (DomainFile_ dc)))
    as [Hall|(pre & x & post & Hl & Hpre & Hx)].
  - left. split; [exact Hall|].
    rewrite (RemoveDomain_absent domain dc disk Hall). reflexivity.
  - right. exists pre, x, post. repeat split; try assumption.
    exact (RemoveDomain_first domain dc disk pre post x Hl Hpre Hx).
Qed.

Lemma operations_keep_path (domain : Domain) (dc : DomainConfiguration) (disk : Disk) :
  Filepath (fst (AddDomain domain dc disk)) = Filepath dc
  /\ Filepath (fst (RemoveDomain domain dc disk)) = Filepath dc.
Proof.
  unfold AddDomain, RemoveDomain.
  destruct (indexOfFQDN _ _); split; reflexivity.
Qed.

Lemma configuration_eq (dc dc' : DomainConfiguration) :
  Domains (DomainFile_ dc) = Domains (DomainFile_ dc') ->
  Filepath dc = Filepath dc' -> dc = dc'.
Proof.
  destruct dc as [[l] p], dc' as [[l'] p']. cbn. intros -> ->. reflexivity.
Qed.

End DomainListComposition.

(** X9: adding a domain whose FQDN is not in the list and then removing that
    FQDN gives back the configuration as it was. *)
Theorem add_then_remove (domain domain' : configuration.Domain)
    (dc : configuration.DomainConfiguration) (disk disk' : configuration.Disk) :
  Forall (fun d => configuration.FQDN d <> configuration.FQDN domain)
    (configuration.Domains (configuration.DomainFile_ dc)) ->
  configuration.FQDN domain' = configuration.FQDN domain ->
  fst (configuration.RemoveDomain domain'
         (fst (configuration.AddDomain domain dc disk)) disk')
  = dc.
Proof.
  intros Hfresh Hsame. apply configuration_eq.
  - rewrite (RemoveDomain_first domain' _ disk'
               (configuration.Domains (configuration.DomainFile_ dc)) [] domain).
    + apply app_nil_r.
    + exact (AddDomain_append domain dc disk Hfresh).
    + rewrite Hsame. exact Hfresh.
    + symmetry. exact Hsame.
  - rewrite (proj2 (operations_keep_path domain' _ disk')).
    exact (proj1 (operations_keep_path domain dc disk)).
Qed.

Lemma add_then_remove_witness :
  fst (configuration.RemoveDomain
         (configuration.mkDomain EmptyString "d.example" false false)
         (fst (configuration.AddDomain
                 (configuration.mkDomain "D" "d.example" true true) sampleList ∅))
         ∅)
  = sampleList.
Proof.
  apply add_then_remove; [|reflexivity].
  repeat (constructor; [discriminate|]). constructor.
Defined.

(** X10: of two domains added under one FQDN the later replaces the earlier:
    the list is the one that adding the later alone gives.  Adding a domain
    twice is adding it once. *)
Theorem add_last_wins (first later : configuration.Domain)
    (dc : configuration.DomainConfiguration) (disk disk' : configuration.Disk) :
  configuration.FQDN first = configuration.FQDN later ->
  fst (configuration.AddDomain later
         (fst (configuration.AddDomain first dc disk)) disk')
  = fst (configuration.AddDomain later dc disk).
Proof.
  intros Hsame. apply configuration_eq.
  - destruct (AddDomain_cases first dc disk)
      as [[Hall Hl]|(pre & x & post & Hdc & Hpre & Hx & Hl)].
    + rewrite Hsame in Hall.
      rewrite (AddDomain_replace later _ disk' _ [] first Hl Hall Hsame).
      symmetry. exact (AddDomain_append later dc disk Hall).
    + rewrite Hsame in Hpre, Hx.
      rewrite (AddDomain_replace later _ disk' pre post first Hl Hpre Hsame).
      symmetry. exact (AddDomain_replace later dc disk pre post x Hdc Hpre Hx).
  - rewrite !(proj1 (operations_keep_path later _ _)).
    exact (proj1 (operations_keep_path first dc disk)).
Qed.

Lemma add_last_wins_witness :
  fst (configuration.AddDomain
         (configuration.mkDomain "Later" "b.example" true true)
         (fst (configuration.AddDomain
                 (configuration.mkDomain "First" "b.example" false false)
                 sampleList ∅)) ∅)
  = fst (configuration.AddDomain
           (configuration.mkDomain "Later" "b.example" true true) sampleList ∅).
Proof. apply add_last_wins. reflexivity. Defined.

(** X11: after [AddDomain] the first entry with the FQDN of the domain is
    the domain as given, and for every other FQDN the first entry that has
    it is the one it was before. *)
Theorem add_then_find (domain : configuration.Domain)
    (dc : configuration.DomainConfiguration) (disk : configuration.Disk) :
  let after :=
    configuration.Domains
      (configuration.DomainFile_ (fst (configuration.AddDomain domain dc disk))) in
  findDomain (configuration.FQDN domain) after = Some domain
  /\ forall fqdn,
       fqdn <> configuration.FQDN domain ->
       findDomain fqdn after
       = findDomain fqdn (configuration.Domains (configuration.DomainFile_ dc)).
Proof.
  intros after. subst after.
  assert (Hhit : forall d, configuration.FQDN d = configuration.FQDN domain ->
            String.eqb (configuration.FQDN d) (configuration.FQDN domain) = true).
  { intros d Hd. apply String.eqb_eq. exact Hd. }
  assert (Hmiss : forall d fqdn, fqdn <> configuration.FQDN domain ->
            configuration.FQDN d = configuration.FQDN domain ->
            String.eqb (configuration.FQDN d) fqdn = false).
  { intros d fqdn Hne Hd. apply String.eqb_neq. congruence. }
  destruct (AddDomain_cases domain dc disk)
    as [[Hall ->]|(pre & x & post & -> & Hpre & Hx & ->)].
  - split.
    + rewrite findDomain_app, (findDomain_none _ _ Hall), findDomain_cons.
      rewrite (Hhit domain eq_refl). reflexivity.
    + intros fqdn Hne. rewrite findDomain_app, findDomain_cons.
      rewrite (Hmiss domain fqdn Hne eq_refl).
      destruct (findDomain fqdn _); reflexivity.
  - split.
    + rewrite findDomain_app, (findDomain_none _ _ Hpre), findDomain_cons.
      rewrite (Hhit domain eq_refl). reflexivity.
    + intros fqdn Hne. rewrite !findDomain_app, !findDomain_cons.
      rewrite (Hmiss domain fqdn Hne eq_refl), (Hmiss x fqdn Hne Hx).
      reflexivity.
Qed.

Lemma add_then_find_witness :
  findDomain "c.example"
    (configuration.Domains
       (configuration.DomainFile_
          (fst (configuration.AddDomain
                  (configuration.mkDomain "Renamed" "b.example" true true)
                  sampleList ∅))))
  = findDomain "c.example"
      (configuration.Domains (configuration.DomainFile_ sampleList)).
Proof.
  apply (proj2 (add_then_find
                  (configuration.mkDomain "Renamed" "b.example" true true)
                  sampleList ∅)).
  discriminate.
Defined.

(** X12: [AddDomain] leaves at least one entry with the FQDN of the domain
    and never adds a second one: their number is what it was, or one when
    there was none.  The number of entries with any other FQDN does not
    change, and the list grows by one entry exactly when the FQDN was
    absent. *)
Theorem add_counts (domain : configuration.Domain)
    (dc : configuration.DomainConfiguration) (disk : configuration.Disk) :
  let before := configuration.Domains (configuration.DomainFile_ dc) in
  let after :=
    configuration.Domains
      (configuration.DomainFile_ (fst (configuration.AddDomain domain dc disk))) in
  countFQDN (configuration.FQDN domain) after
    = Nat.max 1 (countFQDN (configuration.FQDN domain) before)
  /\ (forall fqdn, fqdn <> configuration.FQDN domain ->
        countFQDN fqdn after = countFQDN fqdn before)
  /\ length after
     = (length before
        + (if countFQDN (configuration.FQDN domain) before =? 0 then 1 else 0))%nat.
Proof.
  intros before after. subst before after.
  assert (Hmiss : forall d fqdn, fqdn <> configuration.FQDN domain ->
            configuration.FQDN d = configuration.FQDN domain ->
            String.eqb (configuration.FQDN d) fqdn = false).
  { intros d fqdn Hne Hd. apply String.eqb_neq. congruence. }
  destruct (AddDomain_cases domain dc disk)
    as [[Hall ->]|(pre & x & post & -> & Hpre & Hx & ->)].
  - rewrite !filter_fqdn_app, !countFQDN_cons, (countFQDN_none _ _ Hall).
    rewrite String.eqb_refl. split; [reflexivity|]. split.
    + intros fqdn Hne. rewrite filter_fqdn_app, countFQDN_cons.
      rewrite (Hmiss domain fqdn Hne eq_refl). cbn. lia.
    + rewrite length_app. reflexivity.
  - rewrite !filter_fqdn_app, !countFQDN_cons, (countFQDN_none _ _ Hpre).
    rewrite String.eqb_refl. apply String.eqb_eq in Hx as Hx'. rewrite Hx'.
    split; [cbn; lia|]. split.
    + intros fqdn Hne. rewrite !filter_fqdn_app, !countFQDN_cons.
      rewrite (Hmiss domain fqdn Hne eq_refl), (Hmiss x fqdn Hne Hx).
      reflexivity.
    + rewrite !length_app. cbn. lia.
Qed.

(** X13: [RemoveDomain] takes out one entry with the FQDN when there is one,
    also when several entries share it, and no entry with another FQDN: the
    number of entries with the FQDN goes down by one, the others stay. *)
Theorem remove_counts (domain : configuration.Domain)
    (dc : configuration.DomainConfiguration) (disk : configuration.Disk) :
  let before := configuration.Domains (configuration.DomainFile_ dc) in
  let after :=
    configuration.Domains
      (configuration.DomainFile_ (fst (configuration.RemoveDomain domain dc disk))) in
  countFQDN (configuration.FQDN domain) after
    = Nat.pred (countFQDN (configuration.FQDN domain) before)
  /\ (forall fqdn, fqdn <> configuration.FQDN domain ->
        countFQDN fqdn after = countFQDN fqdn before)
  /\ length after
     = (length before
        - (if countFQDN (configuration.FQDN domain) before =? 0 then 0 else 1))%nat.
Proof.
  intros before after. subst before after.
  destruct (RemoveDomain_cases domain dc disk)
    as [[Hall ->]|(pre & x & post & -> & Hpre & Hx & ->)].
  - rewrite (countFQDN_none _ _ Hall). split; [reflexivity|].
    split; [reflexivity|]. cbn. lia.
  - rewrite !filter_fqdn_app, !countFQDN_cons, (countFQDN_none _ _ Hpre).
    apply String.eqb_eq in Hx as Hx'. rewrite Hx'.
    split; [reflexivity|]. split.
    + intros fqdn Hne. rewrite !filter_fqdn_app, !countFQDN_cons.
      assert (String.eqb (configuration.FQDN x) fqdn = false) as ->.
      { apply String.eqb_neq. congruence. }
      reflexivity.
    + rewrite !length_app. cbn. lia.
Qed.

Example remove_leaves_duplicate :
  configuration.Name <$>
    configuration.Domains
      (configuration.DomainFile_
         (fst (configuration.RemoveDomain
                 (configuration.mkDomain EmptyString "a.example" false false)
                 (configuration.mkDomainConfiguration
                    (configuration.mkDomainFile
                       [configuration.mkDomain "one" "a.example" true true;
                        configuration.mkDomain "two" "b.example" true true;
                        configuration.mkDomain "three" "a.example" true true])
                    "domain.yaml")
                 ∅)))
  = ["two"; "three"].
Proof. vm_compute. reflexivity. Qed.

(** ** Listing order: the other sort keys *)

Section StringOrder.

Lemma ltb_leb (a b : string) : String.ltb a b = negb (String.leb b a).
Proof.
  unfold String.ltb, String.leb. rewrite (String.compare_antisym a b).
  destruct (String.compare b a); reflexivity.
Qed.

Lemma leb_refl (a : string) : String.leb a a = true.
Proof. destruct (String.leb_total a a); assumption. Qed.

Lemma leb_trans (a b c : string) :
  String.leb a b = true -> String.leb b c = true -> String.leb a c = true.
Proof.
  intros Hab Hbc. apply Is_true_true.
  apply (@transitivity _ String.le _ a b c); apply Is_true_true; assumption.
Qed.

(** Ordering by a text key with [<] on strings is a strict weak order. *)
Lemma ltb_key_strict {A : Type} (key : A -> string) :
  StrictWeak (fun a b => String.ltb (key a) (key b)).
Proof.
  split.
  - intros x. rewrite ltb_leb, leb_refl. reflexivity.
  - intros x y z. rewrite !ltb_leb, !negb_true_iff. intros Hyx Hzy.
    destruct (String.leb (key z) (key x)) eqn:Hzx; [|reflexivity].
    destruct (String.leb_total (key x) (key y)) as [Hxy|Hxy];
      [|rewrite Hxy in Hyx; discriminate].
    rewrite (leb_trans _ _ _ Hzx Hxy) in Hzy. discriminate.
  - intros x y z. rewrite !ltb_leb, !negb_false_iff. intros Hyx Hxy Hzy Hyz.
    rewrite (leb_trans _ _ _ Hzy Hyx), (leb_trans _ _ _ Hxy Hyz).
    split; reflexivity.
Qed.

End StringOrder.

Section OtherKeys.
Import handlers.

Lemma less_creation_strict : StrictWeak (less "creation_date").
Proof.
  assert (Hless : forall a b,
    less "creation_date" a b =
      match creationOf (whois a), creationOf (whois b) with
      | None, _ => false
      | Some _, None => true
      | Some ti, Some tj => GoTime.After ti tj
      end).
  { intros a b. unfold less. cbn [String.eqb Ascii.eqb Bool.eqb andb].
    destruct (creationOf (whois a)); reflexivity. }
  split.
  - intros x. rewrite Hless.
    destruct (creationOf (whois x)); [apply Z.ltb_irrefl|reflexivity].
  - intros x y z. rewrite !Hless. unfold GoTime.After.
    destruct (creationOf (whois x)), (creationOf (whois y)),
      (creationOf (whois z)); try discriminate; try reflexivity.
    rewrite !Z.ltb_lt. lia.
  - intros x y z. rewrite !Hless. unfold GoTime.After.
    destruct (creationOf (whois x)), (creationOf (whois y)),
      (creationOf (whois z)); try discriminate; try (split; reflexivity).
    rewrite !Z.ltb_ge. lia.
Qed.

(** Whatever the sort key, the comparison is a strict weak order. *)
Lemma less_strict (sortBy : string) : StrictWeak (less sortBy).
Proof.
  destruct (String.eqb sortBy "expiration_date") eqn:E1.
  { apply String.eqb_eq in E1. subst sortBy. exact less_expiration_strict. }
  destruct (String.eqb sortBy "creation_date") eqn:E2.
  { apply String.eqb_eq in E2. subst sortBy. exact less_creation_strict. }
  destruct (String.eqb sortBy "name") eqn:E3.
  { apply String.eqb_eq in E3. subst sortBy.
    exact (ltb_key_strict (fun a => configuration.Name (domain a))). }
  split; intros; unfold less in *; rewrite E1, E2, E3 in *;
    try discriminate; try split; reflexivity.
Qed.

Lemma attachWhois_creation (ws : ServicesWhois) (d : configuration.Domain) :
  creationOf (whois (attachWhois ws d)) = cachedCreation ws d.
Proof.
  unfold attachWhois, cachedCreation.
  destruct (GetWhois ws _); reflexivity.
Qed.

(** With a correct sort, the result holds the domains of the input, and the
    comparison never puts a later one before an earlier one. *)
Lemma sortDomainsWithWhois_sorted (sorter : Sorter) (ws : ServicesWhois)
    (domainList : list configuration.Domain) (sortBy : string) :
  SorterCorrect sorter ->
  Permutation domainList (sortDomainsWithWhois ws domainList sortBy)
  /\ forall (i j : nat) (di dj : configuration.Domain),
       (i < j)%nat ->
       sortDomainsWithWhois ws domainList sortBy !! i = Some di ->
       sortDomainsWithWhois ws domainList sortBy !! j = Some dj ->
       less sortBy (attachWhois ws dj) (attachWhois ws di) = false.
Proof.
  intros Hsort. rewrite sortDomainsWithWhois_unfold.
  destruct (Hsort _ (less sortBy) (map (attachWhois ws) domainList)
              (less_strict sortBy)) as [Hperm Hadj].
  pose proof (adjacent_all_pairs _ (less_strict sortBy) _ Hadj) as Hord.
  clear Hadj. set (out := sort_Slice _ _ _) in *.
  split.
  - rewrite <- Hperm, map_map.
    erewrite map_ext; [rewrite map_id; reflexivity|].
    intros d. apply attachWhois_domain.
  - assert (Hshape : forall k x, out !! k = Some x ->
                x = attachWhois ws (domain x)).
    { intros k x Hk.
      assert (Hin : In x (map (attachWhois ws) domainList)).
      { apply (Permutation_in x (Permutation_sym Hperm)).
        apply list_elem_of_In, list_elem_of_lookup. eauto. }
      apply in_map_iff in Hin. destruct Hin as (d & <- & _).
      rewrite attachWhois_domain. reflexivity. }
    intros i j di dj Hij Hi Hj.
    change (map domain out) with (domain <$> out) in Hi, Hj.
    rewrite list_lookup_fmap in Hi, Hj.
    destruct (out !! i) as [xi|] eqn:Exi; [|discriminate].
    destruct (out !! j) as [xj|] eqn:Exj; [|discriminate].
    cbn in Hi, Hj. injection Hi as <-. injection Hj as <-.
    rewrite <- (Hshape i xi Exi), <- (Hshape j xj Exj).
    exact (Hord i j xi xj Hij Exi Exj).
Qed.

End OtherKeys.

Lemma rearranged_for_every_key (sorter : Sorter) (ws : handlers.ServicesWhois)
    (domainList : list configuration.Domain) (sortBy : string) :
  SorterCorrect sorter ->
  Permutation domainList (handlers.sortDomainsWithWhois ws domainList sortBy).
Proof.
  intros Hsort.
  exact (proj1 (sortDomainsWithWhois_sorted sorter ws domainList sortBy Hsort)).
Qed.

(** X14: with a [sort.Slice] that keeps its promise, [sortDomainsWithWhois]
    returns a rearrangement of its input for every sort key, known or not:
    no domain is lost or repeated, whether or not the cache knows it. *)
Theorem sorted_is_rearranged (sorter : Sorter) (ws : handlers.ServicesWhois)
    (domainList : list configuration.Domain) (sortBy : string) :
  SorterCorrect sorter ->
  Permutation domainList (handlers.sortDomainsWithWhois ws domainList sortBy).
Proof. exact (rearranged_for_every_key sorter ws domainList sortBy). Qed.

Lemma sorted_is_rearranged_witness :
  Permutation sampleDomains
    (@handlers.sortDomainsWithWhois TestDouble.sorter sampleCache sampleDomains
       "registrar").
Proof.
  exact (sorted_is_rearranged TestDouble.sorter sampleCache sampleDomains
           "registrar" insertionSort_correct).
Defined.

(** X15: with a [sort.Slice] that keeps its promise, in the list sorted by
    creation date no domain without a cached creation time comes before one
    that has it, and the domains that have one come newest first. *)
Theorem sorted_by_creation_date (sorter : Sorter) (ws : handlers.ServicesWhois)
    (domainList : list configuration.Domain) :
  SorterCorrect sorter ->
  let sorted := handlers.sortDomainsWithWhois ws domainList "creation_date" in
  forall (i j : nat) (di dj : configuration.Domain),
    (i < j)%nat ->
    sorted !! i = Some di ->
    sorted !! j = Some dj ->
    (is_Some (handlers.cachedCreation ws dj) ->
     is_Some (handlers.cachedCreation ws di))
    /\ forall ti tj,
         handlers.cachedCreation ws di = Some ti ->
         handlers.cachedCreation ws dj = Some tj ->
         (GoTime.unixNano tj <= GoTime.unixNano ti)%Z.
Proof.
  intros Hsort sorted i j di dj Hij Hi Hj.
  pose proof (proj2 (sortDomainsWithWhois_sorted sorter ws domainList
                       "creation_date" Hsort) i j di dj Hij Hi Hj) as Hless.
  unfold handlers.less in Hless.
  cbn [String.eqb Ascii.eqb Bool.eqb andb] in Hless.
  rewrite !attachWhois_creation in Hless.
  destruct (handlers.cachedCreation ws dj) as [tj|].
  - destruct (handlers.cachedCreation ws di) as [ti|]; [|discriminate].
    split; [intros _; eexists; reflexivity|].
    intros ti' tj' [= <-] [= <-]. unfold GoTime.After in Hless.
    apply Z.ltb_ge in Hless. exact Hless.
  - split; [intros [t Ht]; discriminate|]. intros ti tj _ Htj. discriminate.
Qed.

Lemma sorted_by_creation_date_witness :
  (GoTime.unixNano (GoTime.mkTime 50 0) <= GoTime.unixNano (GoTime.mkTime 70 0))%Z.
Proof.
  refine (proj2 (sorted_by_creation_date TestDouble.sorter creationCache
                   sampleDomains insertionSort_correct 0 1
                   (configuration.mkDomain "Soon" "soon.example" true true)
                   (configuration.mkDomain "Late" "late.example" true true)
                   _ eq_refl eq_refl)
            (GoTime.mkTime 70 0) (GoTime.mkTime 50 0) eq_refl eq_refl).
  lia.
Defined.

Example sorted_by_creation_date_example :
  configuration.FQDN <$>
    @handlers.sortDomainsWithWhois TestDouble.sorter creationCache sampleDomains
      "creation_date"
  = ["soon.example"; "late.example"; "uncached.example"; "undated.example"].
Proof. vm_compute. reflexivity. Qed.

(** X16: [GetCards] passes on the error of [GetDomains]; otherwise it hands
    the view the sort key of the request, expiration_date when the request
    names none, and, with a [sort.Slice] that keeps its promise, a
    rearrangement of the stored list: every domain gets its card, once. *)
Theorem GetCards_hands_over_all (sorter : Sorter) (h : handlers.DomainHandler)
    (sortQuery : string) :
  SorterCorrect sorter ->
  match handlers.GetDomains (handlers.DomainService h) with
  | Err err => handlers.GetCards h sortQuery = Err err
  | Ok stored =>
      exists shown,
        handlers.GetCards h sortQuery
        = Ok (shown,
              if String.eqb sortQuery EmptyString
              then "expiration_date" else sortQuery)
        /\ Permutation stored shown
  end.
Proof.
  intros Hsort. unfold handlers.GetCards.
  destruct (handlers.GetDomains (handlers.DomainService h)) as [stored|err];
    [|reflexivity].
  eexists. split; [reflexivity|].
  set (sortBy := if String.eqb sortQuery EmptyString
                 then "expiration_date" else sortQuery).
  assert (Hname : Permutation stored (sort_Slice _ handlers.lessName stored)).
  { exact (proj1 (Hsort _ handlers.lessName stored
                    (ltb_key_strict configuration.Name))). }
  destruct (handlers.WhoisService h) as [ws|].
  - destruct (String.eqb sortBy "name"); cbn [negb].
    + exact Hname.
    + exact (rearranged_for_every_key sorter ws stored sortBy Hsort).
  - destruct (String.eqb sortBy "name"); [exact Hname|reflexivity].
Qed.

Lemma GetCards_hands_over_all_witness :
  exists shown,
    @handlers.GetCards TestDouble.sorter sampleHandler EmptyString
    = Ok (shown, "expiration_date")
    /\ Permutation sampleDomains shown.
Proof.
  exact (GetCards_hands_over_all TestDouble.sorter sampleHandler EmptyString
           insertionSort_correct).
Defined.

(** X17: sorted by name, [GetCards] does not consult the cache: with or
    without a cache service it hands over the stored list sorted by
    [sort.Slice] on the display names, and with a [sort.Slice] that keeps its
    promise no display name comes after a greater one (bytes compared).
    Without a cache service every other sort key leaves the list in its
    stored order. *)
Theorem GetCards_by_name (sorter : Sorter) (h : handlers.DomainHandler)
    (stored : list configuration.Domain) :
  SorterCorrect sorter ->
  handlers.GetDomains (handlers.DomainService h) = Ok stored ->
  (exists shown,
     handlers.GetCards h "name" = Ok (shown, "name")
     /\ shown = sort_Slice _ handlers.lessName stored
     /\ forall (i j : nat) (di dj : configuration.Domain),
          (i < j)%nat -> shown !! i = Some di -> shown !! j = Some dj ->
          String.leb (configuration.Name di) (configuration.Name dj) = true)
  /\ forall sortQuery,
       handlers.WhoisService h = None ->
       sortQuery <> "name" ->
       exists sortBy, handlers.GetCards h sortQuery = Ok (stored, sortBy).
Proof.
  intros Hsort Hstored. unfold handlers.GetCards. rewrite Hstored. split.
  - exists (sort_Slice _ handlers.lessName stored). split.
    + cbn [String.eqb Ascii.eqb Bool.eqb andb negb].
      destruct (handlers.WhoisService h); reflexivity.
    + split; [reflexivity|].
      destruct (Hsort _ handlers.lessName stored
                  (ltb_key_strict configuration.Name)) as [_ Hadj].
      pose proof (adjacent_all_pairs _ (ltb_key_strict configuration.Name) _ Hadj)
        as Hord.
      intros i j di dj Hij Hi Hj.
      pose proof (Hord i j di dj Hij Hi Hj) as Hless.
      unfold handlers.lessName in Hless. rewrite ltb_leb in Hless.
      apply negb_false_iff in Hless. exact Hless.
  - intros sortQuery Hnone Hne. rewrite Hnone.
    destruct (String.eqb sortQuery EmptyString) eqn:Eq.
    + eexists. reflexivity.
    + apply String.eqb_neq in Hne. rewrite Hne. eexists. reflexivity.
Qed.

Lemma GetCards_by_name_witness :
  exists shown,
    @handlers.GetCards TestDouble.sorter sampleHandler "name" = Ok (shown, "name")
    /\ shown = TestDouble.insertionSort handlers.lessName sampleDomains
    /\ forall (i j : nat) (di dj : configuration.Domain),
         (i < j)%nat -> shown !! i = Some di -> shown !! j = Some dj ->
         String.leb (configuration.Name di) (configuration.Name dj) = true.
Proof.
  exact (proj1 (GetCards_by_name TestDouble.sorter sampleHandler sampleDomains
                  insertionSort_correct eq_refl)).
Defined.

Example GetCards_by_name_example :
  @handlers.GetCards TestDouble.sorter sampleHandler "name"
  = Ok ([configuration.mkDomain "Late" "late.example" true true;
         configuration.mkDomain "Soon" "soon.example" true true;
         configuration.mkDomain "Uncached" "uncached.example" true true;
         configuration.mkDomain "Undated" "undated.example" true true], "name").
Proof. vm_compute. reflexivity. Qed.

(** ** The mailer service *)

Section MailerFacts.
Context `{MailLibrary}.

Lemma NewMailerService_guards (config : smtp.SMTPConfiguration) :
  smtp.Enabled config = true ->
  smtp.Host config <> EmptyString ->
  smtp.Port config <> 0%Z ->
  smtp.FromAddress config <> EmptyString ->
  service.NewMailerService config =
    match mail_NewClient (smtp.Host config) (service.optionsOf config) with
    | Err _ => None
    | Ok client =>
        Some (service.mkMailerService _ client
                ((if String.eqb (smtp.FromName config) EmptyString
                  then smtp.FromAddress config else smtp.FromName config)
                 +:+ " <" +:+ smtp.FromAddress config +:+ ">")
                (smtp.Host config) (smtp.Port config))
    end.
Proof.
  intros He Hh Hp Hf. unfold service.NewMailerService.
  apply String.eqb_neq in Hh, Hf. apply Z.eqb_neq in Hp.
  rewrite He, Hh, Hp, Hf. reflexivity.
Qed.

End MailerFacts.

(** X18: [NewMailerService] returns no service exactly when SMTP is not
    enabled, the host is empty, the port is 0, the sender address is empty,
    or [mail.NewClient] refuses the host and options.  A service it returns
    keeps the host and port of the configuration, and its sender is the
    sender name, or the address when the name is empty, followed by the
    address in angle brackets. *)
Theorem NewMailerService_result `{MailLibrary} (config : smtp.SMTPConfiguration) :
  (service.NewMailerService config = None <->
     smtp.Enabled config = false
     \/ smtp.Host config = EmptyString
     \/ smtp.Port config = 0%Z
     \/ smtp.FromAddress config = EmptyString
     \/ exists err,
          mail_NewClient (smtp.Host config) (service.optionsOf config) = Err err)
  /\ forall m,
       service.NewMailerService config = Some m ->
       mail_NewClient (smtp.Host config) (service.optionsOf config)
         = Ok (service.client m)
       /\ service.host m = smtp.Host config
       /\ service.port m = smtp.Port config
       /\ service.from m
          = (if String.eqb (smtp.FromName config) EmptyString
             then smtp.FromAddress config else smtp.FromName config)
            +:+ " <" +:+ smtp.FromAddress config +:+ ">".
Proof.
  assert (Hearly : service.NewMailerService config = None ->
            (smtp.Enabled config = false
             \/ smtp.Host config = EmptyString
             \/ smtp.Port config = 0%Z
             \/ smtp.FromAddress config = EmptyString
             \/ exists err,
                  mail_NewClient (smtp.Host config) (service.optionsOf config)
                  = Err err) ->
            (service.NewMailerService config = None <->
               smtp.Enabled config = false
               \/ smtp.Host config = EmptyString
               \/ smtp.Port config = 0%Z
               \/ smtp.FromAddress config = EmptyString
               \/ exists err,
                    mail_NewClient (smtp.Host config) (service.optionsOf config)
                    = Err err)
            /\ forall m,
                 service.NewMailerService config = Some m ->
                 mail_NewClient (smtp.Host config) (service.optionsOf config)
                   = Ok (service.client m)
                 /\ service.host m = smtp.Host config
                 /\ service.port m = smtp.Port config
                 /\ service.from m
                    = (if String.eqb (smtp.FromName config) EmptyString
                       then smtp.FromAddress config else smtp.FromName config)
                      +:+ " <" +:+ smtp.FromAddress config +:+ ">").
  { intros Hnone Hwhy. split; [split; intros _; assumption|].
    intros m Hm. rewrite Hnone in Hm. discriminate. }
  destruct (smtp.Enabled config) eqn:He.
  2: { apply Hearly; [|left; reflexivity].
       unfold service.NewMailerService. rewrite He. reflexivity. }
  destruct (String.eqb (smtp.Host config) EmptyString) eqn:Hh.
  { apply Hearly; [|right; left; apply String.eqb_eq; exact Hh].
    unfold service.NewMailerService. rewrite He, Hh. reflexivity. }
  destruct (smtp.Port config =? 0)%Z eqn:Hp.
  { apply Hearly; [|do 2 right; left; apply Z.eqb_eq; exact Hp].
    unfold service.NewMailerService. rewrite He, Hh, Hp. reflexivity. }
  destruct (String.eqb (smtp.FromAddress config) EmptyString) eqn:Hf.
  { apply Hearly; [|do 3 right; left; apply String.eqb_eq; exact Hf].
    unfold service.NewMailerService. rewrite He, Hh, Hp, Hf. reflexivity. }
  clear Hearly.
  apply String.eqb_neq in Hh, Hf. apply Z.eqb_neq in Hp.
  rewrite (NewMailerService_guards config He Hh Hp Hf).
  destruct (mail_NewClient (smtp.Host config) (service.optionsOf config))
    as [client|err].
  - split.
    + split; [discriminate|].
      intros [Hc|[Hc|[Hc|[Hc|[e Hc]]]]]; congruence.
    + intros m [= <-]. repeat split.
  - split; [|discriminate].
    split; [|reflexivity]. intros _. do 4 right. exists err. reflexivity.
Qed.

Lemma NewMailerService_result_witness :
  exists m,
    @service.NewMailerService recordingMail sampleSMTP = Some m
    /\ @service.from recordingMail m = "monitor@example.com <monitor@example.com>"
    /\ @service.host recordingMail m = "smtp.example"
    /\ @service.port recordingMail m = 587%Z.
Proof.
  eexists. split; [reflexivity|].
  destruct (proj2 (@NewMailerService_result recordingMail sampleSMTP) _ eq_refl)
    as (_ & Hh & Hp & Hf).
  repeat split; assumption.
Defined.

Section EncryptionFacts.

(** Splits the goal along the comparisons of a text with literals. *)
Ltac text_cases :=
  repeat match goal with
         | |- context [String.eqb ?a ?lit] =>
             let E := fresh "E" in
             destruct (String.eqb a lit) eqn:E;
             [apply String.eqb_eq in E; try subst a
             |apply String.eqb_neq in E];
             cbn [orb]
         end.

Lemma encryptionTypeOf_ssl (config : smtp.SMTPConfiguration) :
  service.encryptionTypeOf config = "ssl" <->
  smtp.EncryptionType config = "ssl"
  \/ (smtp.EncryptionType config = EmptyString /\ smtp.Port config = 465%Z).
Proof.
  destruct config as [host port secure type user pass enabled fromName fromAddr].
  unfold service.encryptionTypeOf. cbn [smtp.EncryptionType smtp.Port].
  destruct (String.eqb type EmptyString) eqn:E0.
  - apply String.eqb_eq in E0. subst type.
    destruct (port =? 25)%Z eqn:P25;
      [apply Z.eqb_eq in P25|apply Z.eqb_neq in P25].
    + cbn. split; [discriminate|]. intros [Hc|[_ Hc]]; [discriminate|lia].
    + destruct (port =? 465)%Z eqn:P465;
        [apply Z.eqb_eq in P465|apply Z.eqb_neq in P465]; cbn.
      * split; [intros _; right; split; [reflexivity|exact P465]|reflexivity].
      * split; [discriminate|]. intros [Hc|[_ Hc]]; [discriminate|lia].
  - apply String.eqb_neq in E0. text_cases;
      (split; [try discriminate; intros Hs; left; exact Hs
              |intros [Hs|[Hs _]]; [try discriminate; exact Hs|contradiction]]).
Qed.

Lemma encryptionTypeOf_none (config : smtp.SMTPConfiguration) :
  service.encryptionTypeOf config = "none" <->
  smtp.EncryptionType config = "none"
  \/ (smtp.EncryptionType config = EmptyString /\ smtp.Port config = 25%Z).
Proof.
  destruct config as [host port secure type user pass enabled fromName fromAddr].
  unfold service.encryptionTypeOf. cbn [smtp.EncryptionType smtp.Port].
  destruct (String.eqb type EmptyString) eqn:E0.
  - apply String.eqb_eq in E0. subst type.
    destruct (port =? 25)%Z eqn:P25;
      [apply Z.eqb_eq in P25|apply Z.eqb_neq in P25].
    + cbn. split; [intros _; right; split; [reflexivity|exact P25]|reflexivity].
    + destruct (port =? 465)%Z eqn:P465; cbn;
        (split; [discriminate|]; intros [Hc|[_ Hc]]; [discriminate|lia]).
  - apply String.eqb_neq in E0. text_cases;
      (split; [try discriminate; intros Hs; left; exact Hs
              |intros [Hs|[Hs _]]; [try discriminate; exact Hs|contradiction]]).
Qed.

(** What the options say about encryption, by the type the [switch] sees. *)
Lemma optionsOf_encryption (config : smtp.SMTPConfiguration) :
  (In mail.WithSSL (service.optionsOf config) <->
     service.encryptionTypeOf config = "ssl")
  /\ (In (mail.WithTLSPortPolicy mail.TLSMandatory) (service.optionsOf config) <->
        service.encryptionTypeOf config <> "ssl"
        /\ service.encryptionTypeOf config <> "none")
  /\ (forall policy,
        In (mail.WithTLSPortPolicy policy) (service.optionsOf config) ->
        policy = mail.TLSMandatory).
Proof.
  unfold service.optionsOf. generalize (service.encryptionTypeOf config).
  intros et. text_cases; cbn [In]; (split; [|split]);
    try (intros policy Hin; repeat destruct Hin as [Hin|Hin];
         try discriminate; try contradiction; congruence);
    split; intros Hyp;
    repeat match goal with
           | Hin : _ \/ _ |- _ => destruct Hin as [Hin|Hin]
           | Hin : _ /\ _ |- _ => destruct Hin
           end;
    try discriminate; try contradiction; try congruence; auto 10.
Qed.

End EncryptionFacts.

(** X19: the options ask for implicit TLS exactly when the encryption type is
    ssl, or is empty with port 465; they ask for neither implicit TLS nor
    mandatory STARTTLS exactly when the type is none, or is empty with port
    25.  Every other type, the opportunistic one and unknown ones included,
    gets mandatory STARTTLS, and no other TLS policy is ever asked for. *)
Theorem mailer_encryption (config : smtp.SMTPConfiguration) :
  let opts := service.optionsOf config in
  let type := smtp.EncryptionType config in
  let port := smtp.Port config in
  (In mail.WithSSL opts <->
     type = "ssl" \/ (type = EmptyString /\ port = 465%Z))
  /\ (~ In mail.WithSSL opts
      /\ ~ In (mail.WithTLSPortPolicy mail.TLSMandatory) opts <->
      type = "none" \/ (type = EmptyString /\ port = 25%Z))
  /\ (forall policy, In (mail.WithTLSPortPolicy policy) opts ->
        policy = mail.TLSMandatory).
Proof.
  intros opts type port. subst opts type port.
  destruct (optionsOf_encryption config) as (Hssl & Htls & Hpolicy).
  rewrite <- encryptionTypeOf_ssl, <- encryptionTypeOf_none, Hssl, Htls.
  split; [reflexivity|]. split; [|exact Hpolicy].
  destruct (String.eqb (service.encryptionTypeOf config) "none") eqn:En;
    [apply String.eqb_eq in En|apply String.eqb_neq in En].
  - rewrite En. split; [reflexivity|]. intros _. split.
    + discriminate.
    + intros [_ Hc]. apply Hc. reflexivity.
  - split; [|contradiction]. intros [Hn Hc]. exfalso. apply Hc.
    split; assumption.
Qed.

Example mailer_encryption_examples :
  service.optionsOf
    (smtp.mkSMTPConfiguration "smtp.example" 2525 false "starttls-opportunistic"
       "monitor" "secret" true EmptyString "monitor@example.com")
  = [mail.WithTLSPortPolicy mail.TLSMandatory; mail.WithPort 2525;
     mail.WithSMTPAuth "LOGIN"; mail.WithUsername "monitor";
     mail.WithPassword "secret"; mail.WithTimeout 30000000000]
  /\ service.optionsOf
       (smtp.mkSMTPConfiguration "smtp.example" 465 false EmptyString
          "monitor" EmptyString true EmptyString "monitor@example.com")
     = [mail.WithPort 465; mail.WithSSL;
        mail.WithSMTPAuth EmptyString; mail.WithUsername "monitor";
        mail.WithPassword EmptyString; mail.WithTimeout 30000000000].
Proof. vm_compute. split; reflexivity. Qed.

(** X20: the options carry one authentication style: LOGIN when both the
    user name and the password are set, the empty style when either is
    empty, and no other.  In both cases they carry the user name and the
    password as configured, the configured port, and a timeout of 30
    seconds. *)
Theorem mailer_credentials (config : smtp.SMTPConfiguration) :
  let opts := service.optionsOf config in
  (In (mail.WithSMTPAuth mail.SMTPAuthLogin) opts <->
     smtp.AuthUser config <> EmptyString /\ smtp.AuthPass config <> EmptyString)
  /\ (In (mail.WithSMTPAuth EmptyString) opts <->
      smtp.AuthUser config = EmptyString \/ smtp.AuthPass config = EmptyString)
  /\ (forall auth, In (mail.WithSMTPAuth auth) opts ->
        auth = mail.SMTPAuthLogin \/ auth = EmptyString)
  /\ In (mail.WithUsername (smtp.AuthUser config)) opts
  /\ In (mail.WithPassword (smtp.AuthPass config)) opts
  /\ In (mail.WithPort (smtp.Port config)) opts
  /\ In (mail.WithTimeout 30000000000) opts.
Proof.
  intros opts. subst opts. unfold service.optionsOf.
  assert (Hauth :
    (service.authStyleOf config = mail.SMTPAuthLogin
     /\ smtp.AuthUser config <> EmptyString /\ smtp.AuthPass config <> EmptyString)
    \/ (service.authStyleOf config = EmptyString
        /\ (smtp.AuthUser config = EmptyString
            \/ smtp.AuthPass config = EmptyString))).
  { unfold service.authStyleOf.
    destruct (String.eqb (smtp.AuthUser config) EmptyString) eqn:Eu;
      [apply String.eqb_eq in Eu|apply String.eqb_neq in Eu]; cbn [orb].
    - right. split; [reflexivity|]. left. exact Eu.
    - destruct (String.eqb (smtp.AuthPass config) EmptyString) eqn:Ep;
        [apply String.eqb_eq in Ep|apply String.eqb_neq in Ep].
      + right. split; [reflexivity|]. right. exact Ep.
      + left. repeat split; assumption. }
  generalize (service.encryptionTypeOf config). intros et.
  assert (Hin : forall (o : mail.Option) l, In o l ->
            In o (mail.WithPort (smtp.Port config) :: mail.WithSSL :: l)
            /\ In o (mail.WithTLSPortPolicy mail.TLSMandatory
                     :: mail.WithPort (smtp.Port config) :: l)
            /\ In o (mail.WithPort (smtp.Port config) :: l)).
  { intros o l Hl. cbn [In]. tauto. }
  assert (Hout : forall auth l,
            In (mail.WithSMTPAuth auth)
               (mail.WithPort (smtp.Port config) :: mail.WithSSL :: l)
            \/ In (mail.WithSMTPAuth auth)
                 (mail.WithTLSPortPolicy mail.TLSMandatory
                  :: mail.WithPort (smtp.Port config) :: l)
            \/ In (mail.WithSMTPAuth auth) (mail.WithPort (smtp.Port config) :: l) ->
            In (mail.WithSMTPAuth auth) l).
  { intros auth l. cbn [In]. intuition discriminate. }
  set (common := [mail.WithSMTPAuth (service.authStyleOf config);
                  mail.WithUsername (smtp.AuthUser config);
                  mail.WithPassword (smtp.AuthPass config);
                  mail.WithTimeout (30 * 1000000000)]).
  assert (Hauths : forall auth, In (mail.WithSMTPAuth auth) common ->
                                auth = service.authStyleOf config).
  { intros auth. unfold common. cbn [In].
    intros [Hc|[Hc|[Hc|[Hc|[]]]]]; try discriminate. congruence. }
  assert (Hcommon :
    In (mail.WithSMTPAuth (service.authStyleOf config)) common
    /\ In (mail.WithUsername (smtp.AuthUser config)) common
    /\ In (mail.WithPassword (smtp.AuthPass config)) common
    /\ In (mail.WithTimeout 30000000000) common).
  { unfold common. cbn [In]. change (30 * 1000000000)%Z with 30000000000%Z.
    tauto. }
  destruct Hcommon as (Ha & Hu & Hp & Ht).
  assert (Hall : forall opts,
    opts = mail.WithPort (smtp.Port config) :: mail.WithSSL :: common
    \/ opts = mail.WithTLSPortPolicy mail.TLSMandatory
              :: mail.WithPort (smtp.Port config) :: common
    \/ opts = mail.WithPort (smtp.Port config) :: common ->
    (In (mail.WithSMTPAuth mail.SMTPAuthLogin) opts <->
       smtp.AuthUser config <> EmptyString /\ smtp.AuthPass config <> EmptyString)
    /\ (In (mail.WithSMTPAuth EmptyString) opts <->
        smtp.AuthUser config = EmptyString \/ smtp.AuthPass config = EmptyString)
    /\ (forall auth, In (mail.WithSMTPAuth auth) opts ->
          auth = mail.SMTPAuthLogin \/ auth = EmptyString)
    /\ In (mail.WithUsername (smtp.AuthUser config)) opts
    /\ In (mail.WithPassword (smtp.AuthPass config)) opts
    /\ In (mail.WithPort (smtp.Port config)) opts
    /\ In (mail.WithTimeout 30000000000) opts).
  { intros opts Hopts.
    assert (Hfrom : forall auth, In (mail.WithSMTPAuth auth) opts ->
                                 auth = service.authStyleOf config).
    { intros auth Hi. apply Hauths, Hout.
      destruct Hopts as [->| [->| ->]]; auto. }
    assert (Hto : forall o, In o common -> In o opts).
    { intros o Ho. destruct (Hin o common Ho) as (H1 & H2 & H3).
      destruct Hopts as [->| [->| ->]]; assumption. }
    split; [|split; [|split; [|split; [|split; [|split]]]]];
      try (apply Hto; assumption).
    - split.
      + intros Hi. apply Hfrom in Hi.
        destruct Hauth as [(_ & Hu' & Hp')|(He & _)]; [split; assumption|].
        rewrite He in Hi. discriminate.
      + intros [Hbu Hbp]. destruct Hauth as [(He & _)|(_ & [Hn|Hn])];
          [|contradiction|contradiction].
        rewrite <- He. apply Hto, Ha.
    - split.
      + intros Hi. apply Hfrom in Hi.
        destruct Hauth as [(He & _)|(_ & Hn)]; [|exact Hn].
        rewrite He in Hi. discriminate.
      + intros Hb. destruct Hauth as [(_ & Hu' & Hp')|(He & _)].
        * destruct Hb; contradiction.
        * rewrite <- He. apply Hto, Ha.
    - intros auth Hi. apply Hfrom in Hi. subst auth.
      destruct Hauth as [(He & _)|(He & _)]; rewrite He; auto.
    - destruct Hopts as [->| [->| ->]]; cbn [In]; auto. }
  fold common. apply Hall.
  destruct (String.eqb et "ssl"); [auto|].
  destruct (String.eqb et "starttls"); [auto|].
  destruct (String.eqb et "none"); auto.
Qed.

Example mailer_credentials_examples :
  In (mail.WithSMTPAuth EmptyString)
    (service.optionsOf
       (smtp.mkSMTPConfiguration "smtp.example" 587 false EmptyString
          "monitor" EmptyString true EmptyString "monitor@example.com"))
  /\ In (mail.WithSMTPAuth "LOGIN") (service.optionsOf sampleSMTP).
Proof. cbn. split; tauto. Qed.

(** ** The test-mail handler *)

Section TextLength.

Lemma length_append (a b : string) :
  String.length (a +:+ b) = (String.length a + String.length b)%nat.
Proof.
  induction a as [|c a IH]; [reflexivity|].
  rewrite append_String. cbn [String.length]. rewrite IH. reflexivity.
Qed.

Lemma length_prefix (n : nat) (s : string) :
  String.length (String.substring 0 n s) = Nat.min n (String.length s).
Proof.
  revert s. induction n as [|n IH]; intros s.
  - destruct s; reflexivity.
  - destruct s as [|c s]; [reflexivity|].
    cbn [String.substring String.length Nat.min]. rewrite IH. reflexivity.
Qed.

Lemma shownError_length (errorMsg : string) :
  (String.length (mailerhandler.shownError errorMsg) <= 203)%nat.
Proof.
  unfold mailerhandler.shownError.
  destruct (200 <? String.length errorMsg)%nat eqn:E.
  - rewrite length_append, length_prefix. cbn [String.length]. lia.
  - apply Nat.ltb_ge in E. lia.
Qed.

End TextLength.

(** X21: [HandleTestMail] answers with status 200 in every case, failures
    and the timeout included.  It starts [TestMail] only when it has a
    mailer service and a recipient that is not empty, once, for that
    recipient; without either it answers with an error fragment and sends
    nothing. *)
Theorem HandleTestMail_reply `{MailLibrary} (mh : mailerhandler.MailerHandler)
    (outcome : mailerhandler.Outcome) :
  let reply := mailerhandler.HandleTestMail mh outcome in
  mailerhandler.code reply = 200%Z
  /\ mailerhandler.testMails reply
     = match mailerhandler.MailerService mh with
       | Some _ =>
           if String.eqb (mailerhandler.Recipient mh) EmptyString
           then [] else [mailerhandler.Recipient mh]
       | None => []
       end
  /\ (mailerhandler.testMails reply = [] ->
      exists text, mailerhandler.html reply = mailerhandler.errorSpan text).
Proof.
  intros reply. subst reply. unfold mailerhandler.HandleTestMail.
  destruct (mailerhandler.MailerService mh) as [m|].
  - destruct (String.eqb (mailerhandler.Recipient mh) EmptyString).
    + repeat split. intros _. eexists. reflexivity.
    + destruct outcome as [[err|]|]; repeat split; discriminate.
  - repeat split. intros _. eexists. reflexivity.
Qed.

Lemma HandleTestMail_reply_witness :
  exists text,
    mailerhandler.html
      (@mailerhandler.HandleTestMail recordingMail
         (@mailerhandler.mkMailerHandler recordingMail None "admin@example.com")
         (mailerhandler.Answered None))
    = mailerhandler.errorSpan text.
Proof.
  exact (proj2 (proj2 (@HandleTestMail_reply recordingMail
           (@mailerhandler.mkMailerHandler recordingMail None "admin@example.com")
           (mailerhandler.Answered None))) eq_refl).
Defined.

(** X22: when [TestMail] fails, the fragment shows the error text up to 200
    bytes as it is, and a longer one cut to its first 200 bytes followed by
    three dots: the text shown never exceeds 203 bytes, whatever the length
    of the error. *)
Theorem HandleTestMail_error_text `{MailLibrary} (mh : mailerhandler.MailerHandler)
    (m : service.MailerService) (err : error) :
  mailerhandler.MailerService mh = Some m ->
  mailerhandler.Recipient mh <> EmptyString ->
  exists shown,
    mailerhandler.html
      (mailerhandler.HandleTestMail mh (mailerhandler.Answered (Some err)))
    = mailerhandler.errorSpan shown
    /\ (String.length shown <= 203)%nat
    /\ ((String.length err <= 200)%nat -> shown = err)
    /\ ((200 < String.length err)%nat ->
        shown = String.substring 0 200 err +:+ "...").
Proof.
  intros Hm Hr. unfold mailerhandler.HandleTestMail. rewrite Hm.
  apply String.eqb_neq in Hr. rewrite Hr.
  exists (mailerhandler.shownError err). split; [reflexivity|].
  split; [apply shownError_length|].
  unfold mailerhandler.shownError. split.
  - intros Hle. apply Nat.ltb_ge in Hle. rewrite Hle. reflexivity.
  - intros Hlt. apply Nat.ltb_lt in Hlt. rewrite Hlt. reflexivity.
Qed.

Lemma HandleTestMail_error_text_witness :
  exists shown,
    mailerhandler.html
      (@mailerhandler.HandleTestMail recordingMail sampleMailHandler
         (mailerhandler.Answered (Some "SMTP error: 535 authentication failed")))
    = mailerhandler.errorSpan shown
    /\ (String.length shown <= 203)%nat
    /\ ((String.length "SMTP error: 535 authentication failed" <= 200)%nat ->
        shown = "SMTP error: 535 authentication failed")
    /\ ((200 < String.length "SMTP error: 535 authentication failed")%nat ->
        shown
        = String.substring 0 200 "SMTP error: 535 authentication failed" +:+ "...").
Proof.
  apply (@HandleTestMail_error_text recordingMail sampleMailHandler sampleMailer
           "SMTP error: 535 authentication failed" eq_refl).
  discriminate.
Defined.

(** ** The monitored-domain list: sequences of operations *)

Section OperationSequences.
Import configuration.

Lemma operations_keep_distinct (domain : Domain) (dc : DomainConfiguration)
    (disk : Disk) :
  NoDup (FQDN <$> Domains (DomainFile_ dc)) ->
  NoDup (FQDN <$> Domains (DomainFile_ (fst (AddDomain domain dc disk))))
  /\ NoDup (FQDN <$> Domains (DomainFile_ (fst (RemoveDomain domain dc disk)))).
Proof.
  intros Hnodup. split.
  - destruct (AddDomain_cases domain dc disk)
      as [[Hall ->]|(pre & x & post & Hl & _ & Hx & ->)].
    + rewrite fmap_app. apply NoDup_app. split; [exact Hnodup|].
      split; [|apply NoDup_singleton].
      intros name Hin Hname. apply list_elem_of_singleton in Hname. subst name.
      apply list_elem_of_fmap_1 in Hin. destruct Hin as (d & Hd & Hin).
      rewrite Forall_forall in Hall. exact (Hall d Hin (eq_sym Hd)).
    + rewrite Hl in Hnodup.
      rewrite fmap_app, fmap_cons, <- Hx, <- fmap_cons, <- fmap_app.
      exact Hnodup.
  - destruct (RemoveDomain_cases domain dc disk)
      as [[_ ->]|(pre & x & post & Hl & _ & _ & ->)]; [exact Hnodup|].
    rewrite Hl, fmap_app, fmap_cons in Hnodup. rewrite fmap_app.
    apply NoDup_app in Hnodup. destruct Hnodup as (Hp & Hdisj & Hq).
    apply NoDup_cons in Hq. destruct Hq as [_ Hq].
    apply NoDup_app. split; [exact Hp|]. split; [|exact Hq].
    intros name Hin Hin'. apply (Hdisj name Hin). right. exact Hin'.
Qed.

Lemma applyOperation_distinct (state : DomainConfiguration * Disk) (op : Operation) :
  NoDup (FQDN <$> Domains (DomainFile_ (fst state))) ->
  NoDup (FQDN <$> Domains (DomainFile_ (fst (applyOperation state op)))).
Proof.
  intros Hnodup. destruct op as [d|d|d]; cbn [applyOperation].
  - exact (proj1 (operations_keep_distinct d _ _ Hnodup)).
  - exact (proj2 (operations_keep_distinct d _ _ Hnodup)).
  - exact (proj1 (operations_keep_distinct d _ _ Hnodup)).
Qed.

End OperationSequences.

(** X23: starting from the default configuration, whatever operations are
    applied in whatever order, the FQDNs of the list stay pairwise distinct:
    the operations alone never produce two entries for one FQDN. *)
Theorem reachable_lists_distinct (filepath : string) (disk : configuration.Disk)
    (ops : list Operation) :
  NoDup (configuration.FQDN <$>
           configuration.Domains
             (configuration.DomainFile_
                (fst (runOperations ops
                        (configuration.DefaultDomainConfiguration filepath, disk))))).
Proof.
  unfold runOperations.
  assert (Hstart : NoDup (configuration.FQDN <$>
            configuration.Domains
              (configuration.DomainFile_
                 (fst (configuration.DefaultDomainConfiguration filepath, disk)))))
    by apply NoDup_nil_2.
  revert Hstart.
  generalize (configuration.DefaultDomainConfiguration filepath, disk).
  induction ops as [|op rest IH]; intros state Hstate; [exact Hstate|].
  cbn [fold_left]. apply IH, applyOperation_distinct, Hstate.
Qed.

Example reachable_list_example :
  configuration.Name <$>
    configuration.Domains
      (configuration.DomainFile_
         (fst (runOperations
                 [Add (configuration.mkDomain "A" "a.example" true true);
                  Add (configuration.mkDomain "B" "b.example" true true);
                  Update (configuration.mkDomain "A2" "a.example" false true);
                  Remove (configuration.mkDomain EmptyString "c.example" false false);
                  Remove (configuration.mkDomain EmptyString "b.example" false false);
                  Add (configuration.mkDomain "C" "c.example" true true)]
                 (configuration.DefaultDomainConfiguration "domain.yaml", ∅))))
  = ["A2"; "C"].
Proof. vm_compute. reflexivity. Qed.
